(** * linux_health_check.py: a shallow embedding and its checked properties

    The development follows the layout of [linux_health_check.py]:
    the text primitives of the Python runtime the script relies on
    ([str.split], [str.strip], [int], [str], ...), the configuration
    resolver [_cfg], the issue store and [add_issue], the version
    comparator, the individual checks, the four exporters, the GPG step
    and the runner [main].

    Conventions.
    - A Python [str] is a [string]; the model is exact on ASCII text (what
      the probed tools and files produce).  Bytes above 127 are neither
      whitespace nor digits and are left alone by [lower]/[upper].
    - A Python [int] is a [Z].  The interpreter's optional limit on the
      number of digits accepted by [int(str)] is not modelled.
    - A Python [float] is a binary64 primitive float.
    - Code that may raise returns a [result]; the exception classes that
      the script distinguishes are the constructors of [exn_kind].
    - What the script obtains from outside (the clock, the serialisers of
      the json and xml libraries, the outcome of commands and file reads)
      is a parameter of the function that uses it. *)

From Stdlib Require Import ZArith NArith Lia Bool List Ascii String.
From Stdlib Require Import DecimalString DecimalPos DecimalN DecimalZ.
From Stdlib Require Import Floats.
From stdpp Require Import base option list gmap strings.

Local Open Scope Z_scope.
#[local] Set Warnings "-register-all".

(* ===================================================================== *)
(** * Exceptions and results *)
(* ===================================================================== *)

Inductive exn_kind :=
  | ValueError
  | TypeError
  | ZeroDivisionError
  | OverflowError
  | IndexError
  | PermissionError
  | OSError
  | ConfigParserError
  | KeyboardInterrupt.

Definition exn_kind_eqb (a b : exn_kind) : bool :=
  match a, b with
  | ValueError, ValueError | TypeError, TypeError
  | ZeroDivisionError, ZeroDivisionError | IndexError, IndexError
  | OverflowError, OverflowError
  | PermissionError, PermissionError | OSError, OSError
  | ConfigParserError, ConfigParserError
  | KeyboardInterrupt, KeyboardInterrupt => true
  | _, _ => false
  end.

Record exn := Exn { exn_class : exn_kind; exn_msg : string }.

(** [except Exception] catches everything but [KeyboardInterrupt]. *)
Definition is_Exception (e : exn) : bool :=
  match exn_class e with KeyboardInterrupt => false | _ => true end.

Definition is_PermissionError (e : exn) : bool :=
  match exn_class e with PermissionError => true | _ => false end.

(** [IOError] is an alias of [OSError], of which [PermissionError] is a
    subclass. *)
Definition is_IOError (e : exn) : bool :=
  match exn_class e with PermissionError | OSError => true | _ => false end.

Inductive result (A : Type) :=
  | Ret (a : A)
  | Raise (e : exn).
Arguments Ret {A} a.
Arguments Raise {A} e.

Definition bind {A B} (m : result A) (k : A -> result B) : result B :=
  match m with
  | Ret a => k a
  | Raise e => Raise e
  end.

(** [try: body / except (kinds): pass]: the body's value, [None] when one
    of the listed exceptions was swallowed; any other exception goes on. *)
Definition attempt {A} (body : result A) (caught : list exn_kind) : result (option A) :=
  match body with
  | Ret a => Ret (Some a)
  | Raise e =>
      if existsb (exn_kind_eqb (exn_class e)) caught then Ret None else Raise e
  end.

Notation "'try!' x := m 'in' k" := (bind m (fun x => k))
  (at level 10, x name, m at level 100, k at level 200).

(* ===================================================================== *)
(** * Text primitives of the Python runtime *)
(* ===================================================================== *)

Module Py.

Definition code (c : ascii) : N := N_of_ascii c.

(** [str.isspace] on ASCII: TAB..CR, FS..US and the blank.  This is the
    class used by [str.split()], [str.strip()] and the regex [\s]. *)
Definition is_space (c : ascii) : bool :=
  let n := code c in
  ((9 <=? n) && (n <=? 13) || (28 <=? n) && (n <=? 32))%N.

(** The blanks [int()] skips around a literal: TAB..CR and the blank. *)
Definition is_int_space (c : ascii) : bool :=
  let n := code c in
  ((9 <=? n) && (n <=? 13) || (n =? 32))%N.

Definition is_digit (c : ascii) : bool :=
  let n := code c in ((48 <=? n) && (n <=? 57))%N.

Definition digit_val (c : ascii) : Z := Z.of_N (code c) - 48.

Definition lower_char (c : ascii) : ascii :=
  let n := code c in
  if ((65 <=? n) && (n <=? 90))%N then ascii_of_N (n + 32) else c.

Definition upper_char (c : ascii) : ascii :=
  let n := code c in
  if ((97 <=? n) && (n <=? 122))%N then ascii_of_N (n - 32) else c.

Fixpoint map_chars (f : ascii -> ascii) (s : string) : string :=
  match s with
  | EmptyString => EmptyString
  | String c r => String (f c) (map_chars f r)
  end.

(** [s.lower()] and [s.upper()] *)
Definition lower (s : string) : string := map_chars lower_char s.
Definition upper (s : string) : string := map_chars upper_char s.

(** [s in (t1, t2, ...)] for strings *)
Definition str_in (s : string) (l : list string) : bool :=
  existsb (String.eqb s) l.

(** [s.startswith(p)] *)
Fixpoint startswith (p s : string) : bool :=
  match p, s with
  | EmptyString, _ => true
  | String a p', String b s' => Ascii.eqb a b && startswith p' s'
  | String _ _, EmptyString => false
  end.

(** [p in s] for strings *)
Fixpoint contains (p s : string) : bool :=
  startswith p s ||
  match s with
  | EmptyString => false
  | String _ r => contains p r
  end.

(** [s.lstrip(chars)]: drop every leading character that satisfies [f]. *)
Fixpoint lstrip_by (f : ascii -> bool) (s : string) : string :=
  match s with
  | EmptyString => EmptyString
  | String c r => if f c then lstrip_by f r else s
  end.

(** [s.rstrip(chars)]: drop every trailing character that satisfies [f]. *)
Fixpoint rstrip_by (f : ascii -> bool) (s : string) : string :=
  match s with
  | EmptyString => EmptyString
  | String c r =>
      match rstrip_by f r with
      | EmptyString => if f c then EmptyString else String c EmptyString
      | r' => String c r'
      end
  end.

Definition strip_by (f : ascii -> bool) (s : string) : string :=
  rstrip_by f (lstrip_by f s).

(** [s.strip()] *)
Definition strip (s : string) : string := strip_by is_space s.

(** [s.lstrip(c)] and [s.rstrip(c)] for a one-character set *)
Definition lstrip_char (c : ascii) (s : string) : string :=
  lstrip_by (Ascii.eqb c) s.
Definition rstrip_char (c : ascii) (s : string) : string :=
  rstrip_by (Ascii.eqb c) s.

(** [s.split(sep)] for a one-character separator: never empty. *)
Fixpoint split_on (sep : ascii) (s : string) : list string :=
  match s with
  | EmptyString => [EmptyString]
  | String c r =>
      if Ascii.eqb c sep then EmptyString :: split_on sep r
      else match split_on sep r with
           | h :: t => String c h :: t
           | [] => [String c EmptyString]
           end
  end.

(** [s.split()]: the maximal runs of non-blank characters. *)
Fixpoint split_ws (s : string) : list string :=
  match s with
  | EmptyString => []
  | String c r =>
      if is_space c then split_ws r
      else match r with
           | EmptyString => [String c EmptyString]
           | String c' _ =>
               if is_space c' then String c EmptyString :: split_ws r
               else match split_ws r with
                    | h :: t => String c h :: t
                    | [] => [String c EmptyString]
                    end
           end
  end.

(** [sep.join(l)] *)
Fixpoint join (sep : string) (l : list string) : string :=
  match l with
  | [] => EmptyString
  | [x] => x
  | x :: r => x +:+ sep +:+ join sep r
  end.

(** [s * n] *)
Fixpoint repeat_str (s : string) (n : nat) : string :=
  match n with
  | O => EmptyString
  | S n' => s +:+ repeat_str s n'
  end.

(** [f"{s:12}"]: left-justify in a field of the given width. *)
Definition ljust (width : nat) (s : string) : string :=
  s +:+ repeat_str " " (width - String.length s).

(** The digits of an [int()] literal once blanks and sign are gone: decimal
    digits, single underscores allowed between two digits.  [seen] tells
    whether the previous character was a digit. *)
Fixpoint int_digits (acc : Z) (seen : bool) (s : string) : option Z :=
  match s with
  | EmptyString => if seen then Some acc else None
  | String c r =>
      if Ascii.eqb c "_" then
        (if seen then int_digits acc false r else None)
      else if is_digit c then int_digits (10 * acc + digit_val c) true r
      else None
  end.

(** [int(s)]; [None] stands for the [ValueError] it raises. *)
Definition int_of_str (s : string) : option Z :=
  match strip_by is_int_space s with
  | String "-" r => option_map Z.opp (int_digits 0 false r)
  | String "+" r => int_digits 0 false r
  | t => int_digits 0 false t
  end.

(** [str(n)] for an [int] *)
Definition str_of_int (n : Z) : string :=
  match n with
  | Z0 => "0"
  | Zpos p => NilEmpty.string_of_uint (Pos.to_uint p)
  | Zneg p => String "-" (NilEmpty.string_of_uint (Pos.to_uint p))
  end.

(** The characters the script's literals need by code. *)
Definition LF : ascii := ascii_of_N 10.
Definition DQUOTE : ascii := ascii_of_N 34.
Definition SQUOTE : ascii := ascii_of_N 39.
Definition BACKSLASH : ascii := ascii_of_N 92.

(** A one-character string, and the newline. *)
Definition chr (c : ascii) : string := String c EmptyString.
Definition nl : string := chr LF.

(** [s[i]] on a list: [IndexError] out of range. *)
Definition index {A} (l : list A) (i : nat) : result A :=
  match nth_error l i with
  | Some x => Ret x
  | None => Raise (Exn IndexError "list index out of range")
  end.

Definition hex_digit (n : N) : ascii :=
  if (n <? 10)%N then ascii_of_N (48 + n) else ascii_of_N (87 + n).

(** [repr(s)] for a string. *)
Definition repr_char (quote c : ascii) : string :=
  let n := code c in
  if Ascii.eqb c BACKSLASH then String BACKSLASH (chr BACKSLASH)
  else if Ascii.eqb c quote then String BACKSLASH (chr quote)
  else if (n =? 10)%N then String BACKSLASH "n"
  else if (n =? 13)%N then String BACKSLASH "r"
  else if (n =? 9)%N then String BACKSLASH "t"
  else if ((n <? 32) || (n =? 127))%N
       then String BACKSLASH (String "x" (String (hex_digit (n / 16)) (chr (hex_digit (n mod 16)))))
  else chr c.

Fixpoint repr_body (quote : ascii) (s : string) : string :=
  match s with
  | EmptyString => EmptyString
  | String c r => repr_char quote c +:+ repr_body quote r
  end.

Definition repr_str (s : string) : string :=
  let quote :=
    if contains (chr SQUOTE) s && negb (contains (chr DQUOTE) s)
    then DQUOTE else SQUOTE in
  chr quote +:+ repr_body quote s +:+ chr quote.

(** [int(s)] as a call: the [ValueError] with its message. *)
Definition int_call (s : string) : result Z :=
  match int_of_str s with
  | Some n => Ret n
  | None => Raise (Exn ValueError ("invalid literal for int() with base 10: " +:+ repr_str s))
  end.

(** Every character of [s] satisfies [f]. *)
Fixpoint all_chars (f : ascii -> bool) (s : string) : bool :=
  match s with
  | EmptyString => true
  | String c r => f c && all_chars f r
  end.

(** [s.strip(c)] for a one-character set *)
Definition strip_char (c : ascii) (s : string) : string :=
  strip_by (Ascii.eqb c) s.

(** [bool(s)]: the string is not empty. *)
Definition nonempty (s : string) : bool := negb (String.eqb s EmptyString).

(** [o == s] for a value [o] that may be [None]. *)
Definition opt_eqb (o : option string) (s : string) : bool :=
  match o with
  | Some t => String.eqb t s
  | None => false
  end.

(** [l[:n]] and [l[k:]]: a negative bound counts from the end. *)
Definition slice_to {A} (n : Z) (l : list A) : list A :=
  if n <? 0 then firstn (Z.to_nat (Z.of_nat (length l) + n)) l
  else firstn (Z.to_nat n) l.

Definition slice_from {A} (k : Z) (l : list A) : list A :=
  if k <? 0 then skipn (Z.to_nat (Z.of_nat (length l) + k)) l
  else skipn (Z.to_nat k) l.

(** [l[-1]]: [IndexError] on the empty list. *)
Definition last_item {A} (l : list A) : result A :=
  match last l with
  | Some x => Ret x
  | None => Raise (Exn IndexError "list index out of range")
  end.

(** [s.replace(old, new)] for a non-empty [old]: the occurrences are taken
    from the left and do not overlap.  [skip] counts the characters of the
    occurrence being replaced that are still to be dropped. *)
Fixpoint replace_from (old new : string) (skip : nat) (s : string) : string :=
  match s with
  | EmptyString => EmptyString
  | String c r =>
      match skip with
      | S k => replace_from old new k r
      | O =>
          if startswith old s
          then new +:+ replace_from old new (String.length old - 1)%nat r
          else String c (replace_from old new 0 r)
      end
  end.

Definition replace (old new s : string) : string := replace_from old new 0 s.

(** The number of occurrences of a character. *)
Fixpoint count_char (c : ascii) (s : string) : nat :=
  match s with
  | EmptyString => O
  | String a r => ((if Ascii.eqb a c then 1 else 0) + count_char c r)%nat
  end.

(** The character is in the ASCII range. *)
Definition is_ascii (c : ascii) : bool := (code c <? 128)%N.

End Py.

(* ===================================================================== *)
(** * Floats of the Python runtime *)
(* ===================================================================== *)

Module PyFloat.

Definition is_infinite (x : float) : bool :=
  match Prim2SF x with
  | S754_infinity _ => true
  | _ => false
  end.

(** [float(n)] for an [int]: the nearest binary64, [OverflowError] beyond
    the range. *)
Definition of_int (n : Z) : result float :=
  let x := SF2Prim (binary_normalize prec emax n 0 false) in
  if is_infinite x
  then Raise (Exn OverflowError "int too large to convert to float")
  else Ret x.

(** [int(x)] for a float: truncation toward zero. *)
Definition to_int (x : float) : result Z :=
  match Prim2SF x with
  | S754_zero _ => Ret 0
  | S754_infinity _ => Raise (Exn OverflowError "cannot convert float infinity to integer")
  | S754_nan => Raise (Exn ValueError "cannot convert float NaN to integer")
  | S754_finite s m e =>
      let magnitude := if 0 <=? e then Zpos m * 2 ^ e else Zpos m / 2 ^ (- e) in
      Ret (if s then - magnitude else magnitude)
  end.

(** [a / b] on two [int]s: the quotient rounded once to the nearest
    binary64. *)
Definition int_true_div (a b : Z) : result float :=
  match a, b with
  | _, Z0 => Raise (Exn ZeroDivisionError "division by zero")
  | Z0, Zpos _ => Ret (SF2Prim (S754_zero false))
  | Z0, Zneg _ => Ret (SF2Prim (S754_zero true))
  | Zpos p, Zpos q | Zneg p, Zneg q =>
      let x := SF2Prim (SFdiv prec emax (S754_finite false p 0) (S754_finite false q 0)) in
      if is_infinite x
      then Raise (Exn OverflowError "integer division result too large for a float")
      else Ret x
  | Zpos p, Zneg q | Zneg p, Zpos q =>
      let x := SF2Prim (SFdiv prec emax (S754_finite true p 0) (S754_finite false q 0)) in
      if is_infinite x
      then Raise (Exn OverflowError "integer division result too large for a float")
      else Ret x
  end.

(** [x / n] for a float and a non-zero [int]. *)
Definition div_int (x : float) (n : Z) : result float :=
  if n =? 0 then Raise (Exn ZeroDivisionError "float division by zero")
  else try! d := of_int n in Ret (PrimFloat.div x d).

(** [x > n] for a float and an [int]: Python compares the exact values. *)
Definition gt_int (x : float) (n : Z) : bool :=
  match Prim2SF x with
  | S754_nan => false
  | S754_infinity s => negb s
  | S754_zero _ => n <? 0
  | S754_finite s m e =>
      let mz := if s then Zneg m else Zpos m in
      if 0 <=? e then n <? mz * 2 ^ e else n * 2 ^ (- e) <? mz
  end.

(** [x == n] for a float and an [int], on the exact values. *)
Definition eq_int (x : float) (n : Z) : bool :=
  match Prim2SF x with
  | S754_nan => false
  | S754_infinity _ => false
  | S754_zero _ => n =? 0
  | S754_finite s m e =>
      let mz := if s then Zneg m else Zpos m in
      if 0 <=? e then n =? mz * 2 ^ e else n * 2 ^ (- e) =? mz
  end.

(** [x > y] for two floats. *)
Definition gt (x y : float) : bool := PrimFloat.ltb y x.

(** Division of a non-negative [n] by a positive [d], rounded to the
    nearest integer, ties to even. *)
Definition div_half_even (n d : Z) : Z :=
  let q := n / d in
  let r := n mod d in
  if 2 * r <? d then q
  else if d <? 2 * r then q + 1
  else if Z.even q then q else q + 1.

(** The digits of [q / 10^digits] with [digits] decimals. *)
Definition fixed_digits (digits : nat) (q : Z) : string :=
  let scale := 10 ^ Z.of_nat digits in
  let frac := Py.str_of_int (q mod scale) in
  match digits with
  | O => Py.str_of_int q
  | _ => Py.str_of_int (q / scale) +:+ "." +:+
         Py.repeat_str "0" (digits - String.length frac) +:+ frac
  end.

(** [f"{x:.<digits>f}"]: the exact value of [x] rounded half-even to the
    given number of decimals. *)
Definition format_fixed (digits : nat) (x : float) : string :=
  match Prim2SF x with
  | S754_nan => "nan"
  | S754_infinity s => if s then "-inf" else "inf"
  | S754_zero s => (if s then "-" else "") +:+ fixed_digits digits 0
  | S754_finite s m e =>
      let scaled := Zpos m * 10 ^ Z.of_nat digits in
      let q := if 0 <=? e then scaled * 2 ^ e else div_half_even scaled (2 ^ (- e)) in
      (if s then "-" else "") +:+ fixed_digits digits q
  end.

(** ** [float(s)] *)

(** The pass that validates and removes underscores: one is allowed only
    between two digits.  [prev] is the previous character. *)
Fixpoint strip_underscores (prev : ascii) (s : string) : option string :=
  match s with
  | EmptyString => if Ascii.eqb prev "_" then None else Some EmptyString
  | String c r =>
      if Ascii.eqb c "_" then
        (if Py.is_digit prev then strip_underscores c r else None)
      else if Ascii.eqb prev "_" && negb (Py.is_digit c) then None
      else option_map (String c) (strip_underscores c r)
  end.

(** The leading run of decimal digits of [s]: its value on top of [acc],
    its length, and what follows it. *)
Fixpoint read_digits (acc : Z) (s : string) : Z * nat * string :=
  match s with
  | String c r =>
      if Py.is_digit c then
        let '(v, n, rest) := read_digits (10 * acc + Py.digit_val c) r in (v, S n, rest)
      else (acc, O, s)
  | EmptyString => (acc, O, s)
  end.

(** An optional sign: whether it is a minus, and what follows. *)
Definition read_sign (s : string) : bool * string :=
  match s with
  | String "-" r => (true, r)
  | String "+" r => (false, r)
  | _ => (false, s)
  end.

(** The exponent part: empty, or [e] or [E], an optional sign and at
    least one digit, up to the end of the text. *)
Definition read_exponent (s : string) : option Z :=
  match s with
  | EmptyString => Some 0
  | String c r =>
      if Ascii.eqb c "e" || Ascii.eqb c "E" then
        let '(neg, digits) := read_sign r in
        match read_digits 0 digits with
        | (v, S _, EmptyString) => Some (if neg then - v else v)
        | _ => None
        end
      else None
  end.

(** The number of decimal digits of a positive integer. *)
Definition digits10 (n : Z) : Z := Z.of_nat (String.length (Py.str_of_int n)).

(** The nearest binary64 to [m * 10^e10] for a positive [m], with the
    given sign.  A value of at least [10^311] is beyond the range and gives
    an infinity; a value below [10^-330] gives a zero. *)
Definition of_decimal (neg : bool) (m : positive) (e10 : Z) : float :=
  if 310 <? e10 then (if neg then neg_infinity else infinity)
  else if digits10 (Zpos m) + e10 <? -330 then SF2Prim (S754_zero neg)
  else if 0 <=? e10 then
    SF2Prim (binary_normalize prec emax
               ((if neg then Zneg m else Zpos m) * 10 ^ e10) 0 false)
  else
    match 10 ^ (- e10) with
    | Zpos d => SF2Prim (SFdiv prec emax (S754_finite neg m 0) (S754_finite false d 0))
    | _ => nan
    end.

(** A decimal literal without sign: digits, an optional point and more
    digits (at least one digit in all), an optional exponent. *)
Definition read_decimal (neg : bool) (s : string) : option float :=
  let '(int_value, int_len, rest) := read_digits 0 s in
  let '(value, frac_len, rest) :=
    match rest with
    | String "." r =>
        let '(v, n, rest') := read_digits int_value r in (v, n, rest')
    | _ => (int_value, O, rest)
    end in
  match (int_len + frac_len)%nat with
  | O => None
  | _ =>
      match read_exponent rest with
      | None => None
      | Some e =>
          match value with
          | Zpos m => Some (of_decimal neg m (e - Z.of_nat frac_len))
          | _ => Some (SF2Prim (S754_zero neg))
          end
      end
  end.

(** [float(s)] for a string; [None] stands for its [ValueError]. *)
Definition of_str (s : string) : option float :=
  match strip_underscores Ascii.zero s with
  | None => None
  | Some t =>
      let '(neg, body) := read_sign (Py.strip_by Py.is_int_space t) in
      let word := Py.lower body in
      if String.eqb word "inf" || String.eqb word "infinity"
      then Some (if neg then neg_infinity else infinity)
      else if String.eqb word "nan" then Some nan
      else read_decimal neg body
  end.

(** [float(s)] as a call. *)
Definition float_call (s : string) : result float :=
  match of_str s with
  | Some x => Ret x
  | None =>
      Raise (Exn ValueError ("could not convert string to float: " +:+ Py.repr_str s))
  end.

(** ** [repr(x)] *)

(** [floor(log10(n/d))] for positive [n] and [d]. *)
Definition log10_floor (n d : Z) : Z :=
  if d <=? n then digits10 (n / d) - 1
  else
    let l := digits10 (d / n) in
    if n * 10 ^ (l - 1) =? d then - (l - 1) else - l.

(** Drop the zeros at the end of a non-zero decimal number [digits * 10^q]. *)
Fixpoint drop_zeros (fuel : nat) (digits q : Z) : Z * Z :=
  match fuel with
  | O => (digits, q)
  | S fuel' =>
      if (digits mod 10 =? 0) && negb (digits =? 0)
      then drop_zeros fuel' (digits / 10) (q + 1)
      else (digits, q)
  end.

(** The shortest decimal [digits * 10^q] that reads back as the positive
    float [m * 2^e]: for 1, 2, ... significant digits, the two neighbours
    of the value with that many digits are tried against the interval of
    the reals that round to it (its ends count when [m] is even); the
    nearer one wins. *)
Fixpoint shortest (todo : nat) (k : Z) (m : positive) (e n10 : Z) : Z * Z :=
  let unit_num := if 0 <=? e - 2 then 2 ^ (e - 2) else 1 in
  let unit_den := if 0 <=? e - 2 then 1 else 2 ^ (2 - e) in
  let x := 4 * Zpos m in
  let high := x + 2 in
  let low := if (Zpos m =? 2 ^ 52) && (-1074 <? e) then x - 1 else x - 2 in
  let q := n10 - (k - 1) in
  let p_num := if 0 <=? q then 10 ^ q else 1 in
  let p_den := if 0 <=? q then 1 else 10 ^ (- q) in
  (* a candidate d stands for d * p_num / p_den; a bound a for a * unit_num / unit_den *)
  let d_lo := (x * unit_num * p_den) / (unit_den * p_num) in
  let d_hi := d_lo + 1 in
  let closed := Z.even (Zpos m) in
  let cmp d a := (d * p_num * unit_den ?= a * unit_num * p_den) in
  let inside d :=
    match cmp d low, cmp d high with
    | Lt, _ => false
    | _, Gt => false
    | Eq, _ => closed
    | _, Eq => closed
    | Gt, Lt => true
    end in
  match todo with
  | O => (d_lo, q)
  | S todo' =>
      match inside d_lo, inside d_hi with
      | true, false => (d_lo, q)
      | false, true => (d_hi, q)
      | true, true =>
          (* twice the value against the sum of the two candidates *)
          match (2 * x * unit_num * p_den ?= (d_lo + d_hi) * p_num * unit_den) with
          | Lt => (d_lo, q)
          | Gt => (d_hi, q)
          | Eq => if Z.even d_lo then (d_lo, q) else (d_hi, q)
          end
      | false, false => shortest todo' (k + 1) m e n10
      end
  end.

(** The digits of [repr] and the position of the decimal point: the value
    is [0.digits * 10^decpt]. *)
Definition shortest_digits (m : positive) (e : Z) : string * Z :=
  let num := if 0 <=? e then Zpos m * 2 ^ e else Zpos m in
  let den := if 0 <=? e then 1 else 2 ^ (- e) in
  let n10 := log10_floor num den in
  let '(d, q) := shortest 17 1 m e n10 in
  let '(d, q) := drop_zeros 20 d q in
  let digits := Py.str_of_int d in
  (digits, Z.of_nat (String.length digits) + q).

(** The two-digit-at-least exponent of the scientific notation. *)
Definition exponent_text (e : Z) : string :=
  let a := Py.str_of_int (Z.abs e) in
  (if e <? 0 then "-" else "+") +:+ (if Z.abs e <? 10 then "0" +:+ a else a).

(** The layout [repr] gives to digits and decimal point. *)
Definition layout (digits : string) (decpt : Z) : string :=
  let n := Z.of_nat (String.length digits) in
  if (decpt <=? -4) || (16 <? decpt) then
    String.substring 0 1 digits
      +:+ (if 1 <? n then "." +:+ String.substring 1 (String.length digits - 1) digits
           else EmptyString)
      +:+ "e" +:+ exponent_text (decpt - 1)
  else if decpt <=? 0 then
    "0." +:+ Py.repeat_str "0" (Z.to_nat (- decpt)) +:+ digits
  else if n <=? decpt then
    digits +:+ Py.repeat_str "0" (Z.to_nat (decpt - n)) +:+ ".0"
  else
    String.substring 0 (Z.to_nat decpt) digits +:+ "."
      +:+ String.substring (Z.to_nat decpt) (String.length digits - Z.to_nat decpt) digits.

(** [repr(x)], which is also [str(x)] and what an f-string prints. *)
Definition repr (x : float) : string :=
  match Prim2SF x with
  | S754_nan => "nan"
  | S754_infinity s => if s then "-inf" else "inf"
  | S754_zero s => if s then "-0.0" else "0.0"
  | S754_finite s m e =>
      let '(digits, decpt) := shortest_digits m e in
      (if s then "-" else "") +:+ layout digits decpt
  end.

End PyFloat.

(* ===================================================================== *)
(** * Version checking: [parse_semantic_version], [compare_versions] *)
(* ===================================================================== *)

Module Version.

(** A version tuple [(major, minor, patch)]. *)
Definition version : Type := Z * Z * Z.

(** The list comprehension [[int(p) for p in parts]]; [None] when one of
    the conversions raises [ValueError]. *)
Fixpoint ints_of (parts : list string) : option (list Z) :=
  match parts with
  | [] => Some []
  | p :: r =>
      match Py.int_of_str p with
      | None => None
      | Some n => option_map (cons n) (ints_of r)
      end
  end.

(** [parse_semantic_version]: the result [None] covers both the explicit
    [return None] and the [except (ValueError, AttributeError)] handler. *)
Definition parse_semantic_version (version_string : string) : option version :=
  let version := Py.lstrip_char "v" version_string in
  let parts := Py.split_on "." version in
  if negb (Nat.eqb (length parts) 3) then None
  else
    match ints_of parts with
    | Some [major; minor; patch] =>
        if (major <? 0) || (minor <? 0) || (patch <? 0) then None
        else Some (major, minor, patch)
    | _ => None
    end.

(** Python's [<] and [==] on tuples of three ints: the first position where
    the tuples differ decides. *)
Definition tuple_lt (a b : version) : bool :=
  let '(a1, a2, a3) := a in
  let '(b1, b2, b3) := b in
  if negb (a1 =? b1) then a1 <? b1
  else if negb (a2 =? b2) then a2 <? b2
  else a3 <? b3.

Definition tuple_eq (a b : version) : bool :=
  let '(a1, a2, a3) := a in
  let '(b1, b2, b3) := b in
  (a1 =? b1) && (a2 =? b2) && (a3 =? b3).

Definition compare_versions (current latest : version) : Z :=
  if tuple_lt current latest then -1
  else if tuple_eq current latest then 0
  else 1.

(** The text [major.minor.patch] of a version. *)
Definition version_string (v : version) : string :=
  let '(major, minor, patch) := v in
  Py.str_of_int major +:+ "." +:+ Py.str_of_int minor +:+ "." +:+ Py.str_of_int patch.

(** A version is valid when its three components are non-negative. *)
Definition valid (v : version) : Prop :=
  let '(major, minor, patch) := v in 0 <= major /\ 0 <= minor /\ 0 <= patch.

(** Lexicographic order on triples, stated directly. *)
Definition lex_lt (a b : version) : Prop :=
  let '(a1, a2, a3) := a in
  let '(b1, b2, b3) := b in
  a1 < b1 \/ (a1 = b1 /\ (a2 < b2 \/ (a2 = b2 /\ a3 < b3))).

(** The parser as the specification words it: one optional leading [v] is
    removed, then exactly three dot-separated segments, each read by [int]
    as a non-negative integer. *)
Definition strip_one_v (s : string) : string :=
  match s with
  | String "v" r => r
  | _ => s
  end.

Definition parse_spec (s : string) : option version :=
  match Py.split_on "." (strip_one_v s) with
  | [p1; p2; p3] =>
      match Py.int_of_str p1, Py.int_of_str p2, Py.int_of_str p3 with
      | Some major, Some minor, Some patch =>
          if (0 <=? major) && (0 <=? minor) && (0 <=? patch)
          then Some (major, minor, patch) else None
      | _, _, _ => None
      end
  | _ => None
  end.

End Version.

(* ===================================================================== *)
(** * Configuration: [_cfg] *)
(* ===================================================================== *)

Module Config.

(** The [value_type] argument; [TStr] stands for [str] and for any type
    other than [bool], [int] and [float]. *)
Inductive value_type := TStr | TInt | TFloat | TBool.

Inductive value :=
  | VStr (s : string)
  | VInt (n : Z)
  | VFloat (x : float)
  | VBool (b : bool).

(** What [configparser] holds for an option once the file is read: the
    text that [get] returns, or [Malformed] when [get] raises a
    [configparser.Error] (a broken interpolation). *)
Inductive entry := Text (s : string) | Malformed.

(** The module-level state [_cfg] reads: the process environment, the flag
    [_has_config] and the parser [_config] ([None] while no file was
    loaded).  Options are keyed by section and lower-cased option name, as
    [configparser] stores them. *)
Record settings := {
  environ : gmap string string;
  _has_config : bool;
  _config : option (gmap (string * string) entry)
}.

(** [_config.has_option(section, key)] *)
Definition has_option (c : gmap (string * string) entry) (section key : string) : bool :=
  bool_decide (is_Some (c !! (section, Py.lower key))).

(** [_config.get(section, key)] for an option that exists *)
Definition get (c : gmap (string * string) entry) (section key : string) : result string :=
  match c !! (section, Py.lower key) with
  | Some (Text s) => Ret s
  | _ => Raise (Exn ConfigParserError "")
  end.

(** [configparser]'s [_convert_to_boolean] with its [BOOLEAN_STATES]. *)
Definition convert_to_boolean (s : string) : result bool :=
  let v := Py.lower s in
  if Py.str_in v ["1"; "yes"; "true"; "on"] then Ret true
  else if Py.str_in v ["0"; "no"; "false"; "off"] then Ret false
  else Raise (Exn ValueError ("Not a boolean: " +:+ s)).

(** The body of the first [try]: coercion of the environment value. *)
Definition env_coerce (value_type : value_type) (env_val : string) : result value :=
  match value_type with
  | TBool => Ret (VBool (Py.str_in (Py.lower env_val) ["true"; "1"; "yes"; "on"]))
  | TInt => try! n := Py.int_call env_val in Ret (VInt n)
  | TFloat => try! x := PyFloat.float_call env_val in Ret (VFloat x)
  | TStr => Ret (VStr env_val)
  end.

(** The body of the second [try]: [getboolean], [getint], [getfloat], [get]. *)
Definition file_coerce (c : gmap (string * string) entry) (section key : string)
    (value_type : value_type) : result value :=
  match value_type with
  | TBool => try! s := get c section key in try! b := convert_to_boolean s in Ret (VBool b)
  | TInt => try! s := get c section key in try! n := Py.int_call s in Ret (VInt n)
  | TFloat => try! s := get c section key in try! x := PyFloat.float_call s in Ret (VFloat x)
  | TStr => try! s := get c section key in Ret (VStr s)
  end.

Definition _cfg (st : settings) (section key : string) (default : value)
    (value_type : value_type) : result value :=
  (* Priority 1: environment variable (uppercase key name) *)
  let env_key := Py.upper key in
  try! from_env :=
    match environ st !! env_key with
    | Some env_val => attempt (env_coerce value_type env_val) [ValueError; TypeError]
    | None => Ret None
    end in
  match from_env with
  | Some v => Ret v
  | None =>
      (* Priority 2: config file *)
      try! from_file :=
        match _has_config st, _config st with
        | true, Some c =>
            if has_option c section key
            then attempt (file_coerce c section key value_type)
                         [ValueError; TypeError; ConfigParserError]
            else Ret None
        | _, _ => Ret None
        end in
      match from_file with
      | Some v => Ret v
      | None =>
          (* Priority 3: default value *)
          Ret default
      end
  end.

(** The resolver as the specification words it: one coercion for both
    layers, booleans true on true/1/yes/on and false on anything else. *)
Definition spec_coerce (value_type : value_type) (s : string) : option value :=
  match value_type with
  | TBool => Some (VBool (Py.str_in (Py.lower s) ["true"; "1"; "yes"; "on"]))
  | TInt => option_map VInt (Py.int_of_str s)
  | TFloat => option_map VFloat (PyFloat.of_str s)
  | TStr => Some (VStr s)
  end.

(** The text the file layer offers for a query, if any. *)
Definition file_text (st : settings) (section key : string) : option string :=
  match _has_config st, _config st with
  | true, Some c =>
      match c !! (section, Py.lower key) with
      | Some (Text s) => Some s
      | _ => None
      end
  | _, _ => None
  end.

(** Three layers in priority order: the environment variable named by the
    upper-cased key, then the file, then the default; a layer whose text
    does not coerce is skipped. *)
Definition layered (coerce_env coerce_file : value_type -> string -> option value)
    (st : settings) (section key : string) (default : value)
    (value_type : value_type) : value :=
  let from_file :=
    match file_text st section key with
    | Some s =>
        match coerce_file value_type s with
        | Some v => v
        | None => default
        end
    | None => default
    end in
  match environ st !! Py.upper key with
  | Some env_val =>
      match coerce_env value_type env_val with
      | Some v => v
      | None => from_file
      end
  | None => from_file
  end.

(** The specification's resolver: the same coercion at both layers. *)
Definition spec_resolve := layered spec_coerce spec_coerce.

(** Coercion of a file value: booleans are three-valued, text outside
    the two tables of [configparser] does not coerce. *)
Definition file_spec_coerce (value_type : value_type) (s : string) : option value :=
  match value_type with
  | TBool =>
      let v := Py.lower s in
      if Py.str_in v ["1"; "yes"; "true"; "on"] then Some (VBool true)
      else if Py.str_in v ["0"; "no"; "false"; "off"] then Some (VBool false)
      else None
  | _ => spec_coerce value_type s
  end.

End Config.

(* ===================================================================== *)
(** * Global state: the issue list and [add_issue] *)
(* ===================================================================== *)

Module Store.

Inductive severity := CRITICAL | HIGH | MEDIUM | LOW | INFO.

Definition severity_eqb (a b : severity) : bool :=
  match a, b with
  | CRITICAL, CRITICAL | HIGH, HIGH | MEDIUM, MEDIUM | LOW, LOW | INFO, INFO => true
  | _, _ => false
  end.

(** The string the script uses for a severity. *)
Definition severity_name (s : severity) : string :=
  match s with
  | CRITICAL => "CRITICAL"
  | HIGH => "HIGH"
  | MEDIUM => "MEDIUM"
  | LOW => "LOW"
  | INFO => "INFO"
  end.

(** One entry of the global list [issues]; [details] is [None] for the
    Python [None]. *)
Record issue := Issue {
  severity_of : severity;
  category : string;
  description : string;
  details : option string;
  timestamp : string
}.

(** [add_issue]: append to [issues].  [now n] is what
    [datetime.now().isoformat()] returns when the issue of index [n] is
    created.  The log lines it writes are not part of the model. *)
Definition add_issue (now : nat -> string) (severity : severity)
    (category description : string) (details : option string)
    (issues : list issue) : list issue :=
  issues ++ [Issue severity category description details (now (length issues))].

(** What [run_command] returns: [(returncode, stdout, stderr)]. *)
Record completed := Completed { rc : Z; stdout : string; stderr : string }.

End Store.

(* ===================================================================== *)
(** * The checks *)
(* ===================================================================== *)

Module Checks.

Import Store.

(** The policy thresholds among the module-level constants. *)
Record thresholds := {
  FILESYSTEM_WARNING_THRESHOLD : Z;
  FILESYSTEM_CRITICAL_THRESHOLD : Z;
  MEMORY_WARNING_THRESHOLD : Z;
  MEMORY_CRITICAL_THRESHOLD : Z;
  LOAD_WARNING_MULTIPLIER : float;
  LOAD_CRITICAL_MULTIPLIER : float
}.

(** [int(v)] of a configuration value. *)
Definition int_of_value (v : Config.value) : result Z :=
  match v with
  | Config.VInt n => Ret n
  | Config.VBool b => Ret (if b then 1 else 0)
  | Config.VStr s => Py.int_call s
  | Config.VFloat x => PyFloat.to_int x
  end.

(** [float(n) / 100.0], the way both load multipliers are computed from
    their integer setting. *)
Definition load_multiplier (percent : Z) : result float :=
  try! x := PyFloat.of_int percent in Ret (PrimFloat.div x 100%float).

(** The assignments under [# Policy Thresholds]. *)
Definition load_thresholds (st : Config.settings) : result thresholds :=
  let setting key default :=
    try! v := Config._cfg st "thresholds" key (Config.VInt default) Config.TInt in
    int_of_value v in
  try! filesystem_warning := setting "filesystem_warning" 80 in
  try! filesystem_critical := setting "filesystem_critical" 90 in
  try! memory_warning := setting "memory_warning" 80 in
  try! memory_critical := setting "memory_critical" 90 in
  try! load_warning := setting "load_warning" 200 in
  try! load_warning_multiplier := load_multiplier load_warning in
  try! load_critical := setting "load_critical" 300 in
  try! load_critical_multiplier := load_multiplier load_critical in
  Ret {| FILESYSTEM_WARNING_THRESHOLD := filesystem_warning;
         FILESYSTEM_CRITICAL_THRESHOLD := filesystem_critical;
         MEMORY_WARNING_THRESHOLD := memory_warning;
         MEMORY_CRITICAL_THRESHOLD := memory_critical;
         LOAD_WARNING_MULTIPLIER := load_warning_multiplier;
         LOAD_CRITICAL_MULTIPLIER := load_critical_multiplier |}.

Section WithClock.

Variable now : nat -> string.

(** ** [check_version_update] *)

(** [check_github_releases]: [disabled] tells whether the environment has
    [DISABLE_VERSION_CHECK=1]; [latest_release] holds the [tag_name] and
    [html_url] of the latest release when the request succeeded.  The
    result is [(version, release_url, changelog_url)], or [None] for the
    triple of [None]. *)
Definition check_github_releases (disabled : bool)
    (latest_release : option (string * string)) : option (string * string * string) :=
  if disabled then None
  else
    match latest_release with
    | Some (tag_name, html_url) =>
        let version := Py.lstrip_char "v" tag_name in  (* Remove 'v' prefix *)
        Some (version, html_url, html_url)
    | None => None
    end.

(** [current] is [__version__] and [repo] is [GITHUB_REPO]. *)
Definition check_version_update (current repo : string) (disabled : bool)
    (latest_release : option (string * string)) (issues : list issue) : list issue :=
  match check_github_releases disabled latest_release with
  | None => issues
  | Some (latest_version_str, release_url, changelog_url) =>
      (* If check failed or disabled, return without adding issue *)
      if String.eqb latest_version_str EmptyString then issues
      else
        match Version.parse_semantic_version current,
              Version.parse_semantic_version latest_version_str with
        | Some current_version, Some latest_version =>
            let comparison := Version.compare_versions current_version latest_version in
            if comparison <? 0 then
              let download_url :=
                "https://github.com/" +:+ repo +:+ "/releases/download/v"
                  +:+ latest_version_str +:+ "/linux_health_check.py" in
              let details :=
                "A newer version of this script is available." +:+ Py.nl
                  +:+ Py.nl
                  +:+ "Upgrade instructions:" +:+ Py.nl
                  +:+ "  wget " +:+ download_url +:+ Py.nl
                  +:+ "  chmod +x linux_health_check.py" +:+ Py.nl
                  +:+ Py.nl
                  +:+ "Changelog: " +:+ changelog_url in
              add_issue now INFO "Version Update"
                ("New version available: " +:+ latest_version_str
                   +:+ " (current: " +:+ current +:+ ")")
                (Some details) issues
            else issues
        | _, _ => issues
        end
  end.

(** ** [check_filesystem_usage] *)

(** The body of the loop over the lines of [df -h]. *)
Definition filesystem_row (t : thresholds) (line : string) (issues : list issue)
    : list issue :=
  match Py.strip line with
  | EmptyString => issues
  | _ =>
      let parts := Py.split_ws line in
      if (6 <=? length parts)%nat then
        let filesystem := nth 0 parts EmptyString in
        let use_percent_str := Py.rstrip_char "%" (nth 4 parts EmptyString) in
        let mountpoint := nth 5 parts EmptyString in
        (* Skip pseudo filesystems *)
        if Py.str_in filesystem ["tmpfs"; "devtmpfs"; "none"; "udev"] then issues
        else
          match Py.int_of_str use_percent_str with
          | None => issues
          | Some use_percent =>
              if FILESYSTEM_CRITICAL_THRESHOLD t <=? use_percent then
                add_issue now CRITICAL "Storage"
                  ("Filesystem " +:+ mountpoint +:+ " critically full: "
                     +:+ Py.str_of_int use_percent +:+ "%")
                  (Some (filesystem +:+ " mounted at " +:+ mountpoint)) issues
              else if FILESYSTEM_WARNING_THRESHOLD t <=? use_percent then
                add_issue now HIGH "Storage"
                  ("Filesystem " +:+ mountpoint +:+ " filling up: "
                     +:+ Py.str_of_int use_percent +:+ "%")
                  (Some (filesystem +:+ " mounted at " +:+ mountpoint)) issues
              else if 75 <=? use_percent then
                add_issue now MEDIUM "Storage"
                  ("Filesystem " +:+ mountpoint +:+ " at "
                     +:+ Py.str_of_int use_percent +:+ "%")
                  (Some (filesystem +:+ " mounted at " +:+ mountpoint)) issues
              else issues
          end
      else issues
  end.

Definition check_filesystem_usage (t : thresholds) (df : completed)
    (issues : list issue) : list issue :=
  if rc df =? 0 then
    let lines := skipn 1 (Py.split_on Py.LF (stdout df)) in  (* Skip header *)
    fold_left (fun acc line => filesystem_row t line acc) lines issues
  else
    add_issue now LOW "Storage" "Cannot check filesystem usage"
      (Some "df command failed") issues.

(** ** [check_memory_usage] *)

Definition check_memory_usage (t : thresholds) (free : completed)
    (issues : list issue) : result (list issue) :=
  let cannot :=
    Ret (add_issue now LOW "System Health" "Cannot check memory usage"
           (Some "free command failed") issues) in
  if rc free =? 0 then
    let lines := Py.split_on Py.LF (stdout free) in
    if (2 <=? length lines)%nat then
      let mem_line := Py.split_ws (nth 1 lines EmptyString) in
      if (3 <=? length mem_line)%nat then
        try! total := Py.int_call (nth 1 mem_line EmptyString) in
        try! used := Py.int_call (nth 2 mem_line EmptyString) in
        try! ratio := PyFloat.int_true_div used total in
        let percent := PrimFloat.mul ratio 100%float in
        let usage :=
          PyFloat.format_fixed 1 percent +:+ "% (" +:+ Py.str_of_int used +:+ "MB/"
            +:+ Py.str_of_int total +:+ "MB)" in
        if PyFloat.gt_int percent (MEMORY_CRITICAL_THRESHOLD t) then
          Ret (add_issue now CRITICAL "System Health"
                 ("Memory usage critically high: " +:+ usage)
                 (Some "Consider adding more RAM or reducing memory usage") issues)
        else if PyFloat.gt_int percent (MEMORY_WARNING_THRESHOLD t) then
          Ret (add_issue now HIGH "System Health"
                 ("Memory usage high: " +:+ usage) None issues)
        else
          Ret (add_issue now INFO "System Health"
                 ("Memory usage normal: " +:+ usage) None issues)
      else cannot
    else cannot
  else cannot.

(** ** [check_load_average] *)

(** The [with open(...)] block: the three load averages. *)
Definition read_loadavg (proc_loadavg : result string) : result (float * float * float) :=
  try! text := proc_loadavg in
  let loadavg := Py.split_ws (Py.strip text) in
  try! f0 := Py.index loadavg 0 in
  try! load_1min := PyFloat.float_call f0 in
  try! f1 := Py.index loadavg 1 in
  try! load_5min := PyFloat.float_call f1 in
  try! f2 := Py.index loadavg 2 in
  try! load_15min := PyFloat.float_call f2 in
  Ret (load_1min, load_5min, load_15min).

(** The rest of the [try] block once the averages are read.  [os_cpu_count]
    is what [os.cpu_count()] returns. *)
Definition classify_load (t : thresholds) (loads : float * float * float)
    (os_cpu_count : option Z) (issues : list issue) : result (list issue) :=
  let '(load_1min, load_5min, load_15min) := loads in
  let cpu_count :=
    match os_cpu_count with
    | Some n => if n =? 0 then 1 else n
    | None => 1
    end in
  try! load_per_cpu := PyFloat.div_int load_1min cpu_count in
  let summary :=
    PyFloat.repr load_1min +:+ " (" +:+ PyFloat.format_fixed 2 load_per_cpu +:+ " per CPU)" in
  let detail :=
    "CPU count: " +:+ Py.str_of_int cpu_count +:+ ", 1/5/15 min: "
      +:+ PyFloat.repr load_1min +:+ "/" +:+ PyFloat.repr load_5min +:+ "/"
      +:+ PyFloat.repr load_15min in
  if PyFloat.gt load_per_cpu (LOAD_CRITICAL_MULTIPLIER t) then
    Ret (add_issue now CRITICAL "System Health"
           ("Load average critically high: " +:+ summary) (Some detail) issues)
  else if PyFloat.gt load_per_cpu (LOAD_WARNING_MULTIPLIER t) then
    Ret (add_issue now HIGH "System Health"
           ("Load average high: " +:+ summary) (Some detail) issues)
  else
    Ret (add_issue now INFO "System Health"
           ("Load average normal: " +:+ summary) (Some detail) issues).

Definition check_load_average (t : thresholds) (proc_loadavg : result string)
    (os_cpu_count : option Z) (issues : list issue) : result (list issue) :=
  match (try! loads := read_loadavg proc_loadavg in
         classify_load t loads os_cpu_count issues) with
  | Ret issues' => Ret issues'
  | Raise e =>
      if is_Exception e
      then Ret (add_issue now LOW "System Health" "Cannot check load average"
                  (Some (exn_msg e)) issues)
      else Raise e
  end.

(** ** [check_ssh_status] *)

(** [grep_output(text, pattern)] for the patterns the check uses: a keyword
    after optional leading blanks, [^\s*KEYWORD]. *)
Definition matches_keyword (keyword line : string) : bool :=
  Py.startswith keyword (Py.lstrip_by Py.is_space line).

(** [^\s*KEYWORD\s+]: the keyword must be followed by a blank. *)
Definition matches_keyword_blank (keyword line : string) : bool :=
  let rest := Py.lstrip_by Py.is_space line in
  Py.startswith keyword rest &&
  match String.substring (String.length keyword) 1 rest with
  | String c _ => Py.is_space c
  | EmptyString => false
  end.

Definition grep_output (matches : string -> bool) (text : string) : list string :=
  List.filter matches (Py.split_on Py.LF text).

(** [not line.strip().startswith("#")] *)
Definition not_comment (line : string) : bool :=
  negb (Py.startswith "#" (Py.strip line)).

(** The loop [for line in reversed(lines)] with its [break]: the first
    line that is no comment decides, and the setting stays enabled when
    there is none. *)
Fixpoint directive_enabled (reversed_lines : list string) : bool :=
  match reversed_lines with
  | [] => true
  | line :: rest =>
      if not_comment line then negb (Py.contains "no" (Py.lower line))
      else directive_enabled rest
  end.


Definition password_auth_enabled (config_content : string) : bool :=
  directive_enabled (rev (grep_output (matches_keyword "PasswordAuthentication") config_content)).

Definition pubkey_auth_enabled (config_content : string) : bool :=
  directive_enabled (rev (grep_output (matches_keyword "PubkeyAuthentication") config_content)).

(** The loop over the [HostKey] lines: [(weak_keys_found, strong_keys_found)]. *)
Fixpoint host_keys (lines : list string) (weak strong : list string)
    : list string * list string :=
  match lines with
  | [] => (weak, strong)
  | line :: rest =>
      if not_comment line then
        let l := Py.lower line in
        if Py.contains "rsa" l || Py.contains "dsa" l
        then host_keys rest (weak ++ [Py.strip line]) strong
        else if Py.contains "ed25519" l || Py.contains "ecdsa" l
        then host_keys rest weak (strong ++ [Py.strip line])
        else host_keys rest weak strong
      else host_keys rest weak strong
  end.

(** The loop over the [PubkeyAccepted...] lines: [weak_algo_allowed]. *)
Definition weak_algorithms (lines : list string) : bool :=
  existsb (fun line =>
             not_comment line &&
             (Py.contains "rsa" (Py.lower line) || Py.contains "dsa" (Py.lower line)))
          lines.

Section Ssh.

(** The outside world of the check: [glob.glob] and reading a file. *)
Variable glob : string -> list string.
Variable read_file : string -> result string.

(** The loop over the [authorized_keys] files:
    [(rsa_keys_in_use, ed25519_keys_in_use)]. *)
Fixpoint scan_authorized_keys (files : list string) (rsa ed25519 : bool)
    : result (bool * bool) :=
  match files with
  | [] => Ret (rsa, ed25519)
  | auth_file :: rest =>
      match read_file auth_file with
      | Ret auth_content =>
          let rsa' :=
            if Py.contains "ssh-rsa" auth_content || Py.contains "ssh-dss" auth_content
            then true else rsa in
          let ed25519' :=
            if Py.contains "ssh-ed25519" auth_content then true else ed25519 in
          scan_authorized_keys rest rsa' ed25519'
      | Raise e =>
          if is_IOError e then scan_authorized_keys rest rsa ed25519 else Raise e
      end
  end.

(** The branch taken once password authentication is known to be off and
    public-key authentication on. *)
Definition inspect_keys (config_content : string) (issues : list issue)
    : result (list issue) :=
  let '(weak_keys_found, strong_keys_found) :=
    host_keys (grep_output (matches_keyword_blank "HostKey") config_content) [] [] in
  let weak_algo_allowed :=
    weak_algorithms
      (grep_output (fun line => matches_keyword "PubkeyAcceptedKeyTypes" line
                                || matches_keyword "PubkeyAcceptedAlgorithms" line)
                   config_content) in
  try! keys :=
    scan_authorized_keys
      (glob "/root/.ssh/authorized_keys" ++ glob "/home/*/.ssh/authorized_keys")
      false false in
  let '(rsa_keys_in_use, ed25519_keys_in_use) := keys in
  let some_weak := match weak_keys_found with [] => false | _ => true end in
  let some_strong := match strong_keys_found with [] => false | _ => true end in
  if rsa_keys_in_use || some_weak || weak_algo_allowed then
    Ret (add_issue now MEDIUM "Security"
           "SSH is using weak key algorithms (RSA or older)"
           (Some ("SSH accepts RSA/DSA keys. Upgrade to ed25519 keys. Weak keys: "
                    +:+ (if some_weak then Py.join ", " weak_keys_found
                         else "RSA keys in authorized_keys")))
           issues)
  else if ed25519_keys_in_use || some_strong then
    Ret (add_issue now LOW "Security"
           "SSH is running with strong key-based authentication"
           (Some "SSH uses ed25519 or ECDSA keys - acceptable configuration") issues)
  else
    Ret (add_issue now LOW "Security"
           "SSH is running with pubkey authentication"
           (Some "Password auth disabled, but cannot verify key types. Ensure ed25519 keys are used.")
           issues).

(** The body of the [try] block, from the read of [sshd_config] on. *)
Definition ssh_authentication (issues : list issue) : result (list issue) :=
  try! config_content := read_file "/etc/ssh/sshd_config" in
  (* If password auth is enabled (and pubkey might be disabled) *)
  if password_auth_enabled config_content then
    Ret (add_issue now HIGH "Security"
           "SSH is running with password authentication enabled"
           (Some "Password authentication should be disabled. Use key-based authentication with ed25519 or better")
           issues)
  else if pubkey_auth_enabled config_content then
    inspect_keys config_content issues
  else
    Ret (add_issue now HIGH "Security"
           "SSH is running but all authentication methods disabled"
           (Some "Both password and pubkey authentication are disabled") issues).

(** [systemctl_sshd] is the outcome of [systemctl is-active sshd] and
    [config_exists] that of [os.path.exists] on [sshd_config]. *)
Definition check_ssh_status (systemctl_sshd : completed) (config_exists : bool)
    (issues : list issue) : result (list issue) :=
  if negb (rc systemctl_sshd =? 0)
     || negb (Py.contains "active" (Py.lower (stdout systemctl_sshd))) then
    Ret (add_issue now INFO "Security" "SSH service is not running"
           (Some "Good: SSH is disabled") issues)
  else if negb config_exists then
    Ret (add_issue now MEDIUM "Security" "SSH is running but sshd_config not found"
           (Some "Cannot verify SSH authentication settings") issues)
  else
    match ssh_authentication issues with
    | Ret issues' => Ret issues'
    | Raise e =>
        if is_PermissionError e
        then Ret (add_issue now MEDIUM "Security"
                    "SSH is running but cannot read sshd_config"
                    (Some "Permission denied - run as root to verify SSH configuration")
                    issues)
        else Raise e
    end.

End Ssh.

End WithClock.

End Checks.

(* ===================================================================== *)
(** * Export functions *)
(* ===================================================================== *)

Module Report.

Import Store.

(** ** Python dictionaries as the exporters use them

    A [dict] keeps its keys in the order of their first insertion; that
    order is what [json.dumps] and the loop over [items()] show. *)

Section Dict.

Context {K V : Type} (eqb : K -> K -> bool).

(** [d.get(k)] *)
Fixpoint dict_get (k : K) (d : list (K * V)) : option V :=
  match d with
  | [] => None
  | (k', v) :: r => if eqb k k' then Some v else dict_get k r
  end.

(** [d[k] = v] *)
Fixpoint dict_set (k : K) (v : V) (d : list (K * V)) : list (K * V) :=
  match d with
  | [] => [(k, v)]
  | (k', v') :: r => if eqb k k' then (k, v) :: r else (k', v') :: dict_set k v r
  end.

End Dict.

(** [d.get(k, default)] *)
Definition dict_get_or {K V} (eqb : K -> K -> bool) (k : K) (default : V)
    (d : list (K * V)) : V :=
  match dict_get eqb k d with
  | Some v => v
  | None => default
  end.

(** The loop every exporter runs:
    [severity_counts[sev] = severity_counts.get(sev, 0) + 1]. *)
Definition severity_counts (issues : list issue) : list (severity * Z) :=
  fold_left
    (fun counts issue =>
       let sev := severity_of issue in
       dict_set severity_eqb sev (dict_get_or severity_eqb sev 0 counts + 1) counts)
    issues [].

(** The loop that groups the issues under their category. *)
Definition categories (issues : list issue) : list (string * list issue) :=
  fold_left
    (fun cats issue =>
       let cat := category issue in
       let cats' :=
         match dict_get String.eqb cat cats with
         | Some _ => cats
         | None => dict_set String.eqb cat [] cats
         end in
       dict_set String.eqb cat (dict_get_or String.eqb cat [] cats' ++ [issue]) cats')
    issues [].

(** [sorted(keys)] on strings: insertion sort by code point order. *)
Fixpoint insert_sorted (s : string) (l : list string) : list string :=
  match l with
  | [] => [s]
  | x :: r => if String.leb s x then s :: l else x :: insert_sorted s r
  end.

Definition sorted (l : list string) : list string :=
  fold_right insert_sorted [] l.

(** The five severities in the order of the summaries. *)
Definition SEVERITIES : list severity := [CRITICAL; HIGH; MEDIUM; LOW; INFO].

Definition severity_emoji (s : severity) : string :=
  match s with
  | CRITICAL => "🔴"
  | HIGH => "🟠"
  | MEDIUM => "🟡"
  | LOW => "🔵"
  | INFO => "ℹ️"
  end.

(** [str(x)] of a value that may be [None], as an f-string prints it. *)
Definition str_opt (o : option string) : string :=
  match o with
  | Some s => s
  | None => "None"
  end.

(** The module-level data the exporters read: [HOSTNAME] and [OS_INFO]
    (a dictionary whose values may be [None]). *)
Record host := {
  HOSTNAME : string;
  OS_INFO : list (string * option string)
}.

(** [OS_INFO.get(key, default)] *)
Definition os_get (h : host) (key : string) (default : option string) : option string :=
  dict_get_or String.eqb key default (OS_INFO h).

Definition concat_map {A} (f : A -> string) (l : list A) : string :=
  fold_left (fun report x => report +:+ f x) l EmptyString.

(** ** [export_markdown] *)

Definition markdown_summary (counts : list (severity * Z)) : string :=
  concat_map
    (fun sev =>
       "- **" +:+ severity_name sev +:+ ":** "
         +:+ Py.str_of_int (dict_get_or severity_eqb sev 0 counts) +:+ Py.nl)
    SEVERITIES.

Definition markdown_issue (i : issue) : string :=
  "### " +:+ severity_emoji (severity_of i) +:+ " [" +:+ severity_name (severity_of i)
    +:+ "] " +:+ description i +:+ Py.nl +:+ Py.nl
    +:+ match details i with
        | Some d =>
            if String.eqb d EmptyString then EmptyString
            else "```" +:+ Py.nl +:+ d +:+ Py.nl +:+ "```" +:+ Py.nl +:+ Py.nl
        | None => EmptyString
        end.

Definition markdown_categories (issues : list issue) : string :=
  let cats := categories issues in
  concat_map
    (fun cat =>
       "## " +:+ cat +:+ Py.nl +:+ Py.nl
         +:+ concat_map markdown_issue (dict_get_or String.eqb cat [] cats))
    (sorted (map fst cats)).

(** [date] is [datetime.now().strftime('%Y-%m-%d %H:%M:%S')]. *)
Definition markdown_header (h : host) (date : string) : string :=
  "# Linux Health Check Report" +:+ Py.nl +:+ Py.nl
    +:+ "**Hostname:** " +:+ HOSTNAME h +:+ Py.nl +:+ Py.nl
    +:+ "**Date:** " +:+ date +:+ Py.nl +:+ Py.nl
    +:+ "**OS:** " +:+ str_opt (os_get h "distribution" (Some "Unknown")) +:+ " "
    +:+ str_opt (os_get h "version" (Some "")) +:+ Py.nl +:+ Py.nl
    +:+ "---" +:+ Py.nl +:+ Py.nl.

Definition export_markdown (h : host) (date : string) (issues : list issue) : string :=
  let report := markdown_header h date in
  (* Summary by severity *)
  let severity_counts := severity_counts issues in
  let report := report +:+ "## Summary" +:+ Py.nl +:+ Py.nl in
  let report := report +:+ markdown_summary severity_counts in
  let report :=
    report +:+ Py.nl +:+ "**Total Issues:** "
      +:+ Py.str_of_int (Z.of_nat (length issues)) +:+ Py.nl +:+ Py.nl in
  let report := report +:+ "---" +:+ Py.nl +:+ Py.nl in
  (* Issues by category *)
  report +:+ markdown_categories issues.

(** ** [export_text] *)

Definition text_summary (counts : list (severity * Z)) : string :=
  concat_map
    (fun sev =>
       Py.ljust 12 (severity_name sev) +:+ " "
         +:+ Py.str_of_int (dict_get_or severity_eqb sev 0 counts) +:+ Py.nl)
    SEVERITIES.

Definition text_issue (i : issue) : string :=
  "[" +:+ severity_name (severity_of i) +:+ "] " +:+ description i +:+ Py.nl
    +:+ match details i with
        | Some d =>
            if String.eqb d EmptyString then EmptyString
            else "  Details: " +:+ d +:+ Py.nl
        | None => EmptyString
        end
    +:+ Py.nl.

Definition text_categories (issues : list issue) : string :=
  let cats := categories issues in
  concat_map
    (fun cat =>
       Py.nl +:+ cat +:+ Py.nl
         +:+ Py.repeat_str "-" (String.length cat) +:+ Py.nl +:+ Py.nl
         +:+ concat_map text_issue (dict_get_or String.eqb cat [] cats))
    (sorted (map fst cats)).

Definition text_header (h : host) (date : string) : string :=
  Py.repeat_str "=" 80 +:+ Py.nl
    +:+ "Linux Health Check Report" +:+ Py.nl
    +:+ Py.repeat_str "=" 80 +:+ Py.nl +:+ Py.nl
    +:+ "Hostname: " +:+ HOSTNAME h +:+ Py.nl
    +:+ "Date: " +:+ date +:+ Py.nl
    +:+ "OS: " +:+ str_opt (os_get h "distribution" (Some "Unknown")) +:+ " "
    +:+ str_opt (os_get h "version" (Some "")) +:+ Py.nl
    +:+ Py.nl +:+ Py.repeat_str "-" 80 +:+ Py.nl
    +:+ "SUMMARY" +:+ Py.nl
    +:+ Py.repeat_str "-" 80 +:+ Py.nl +:+ Py.nl.

Definition export_text (h : host) (date : string) (issues : list issue) : string :=
  let report := text_header h date in
  let severity_counts := severity_counts issues in
  let report := report +:+ text_summary severity_counts in
  let report :=
    report +:+ Py.nl +:+ "Total Issues: "
      +:+ Py.str_of_int (Z.of_nat (length issues)) +:+ Py.nl +:+ Py.nl in
  let report :=
    report +:+ Py.repeat_str "=" 80 +:+ Py.nl +:+ "ISSUES" +:+ Py.nl
      +:+ Py.repeat_str "=" 80 +:+ Py.nl +:+ Py.nl in
  report +:+ text_categories issues.

(** ** [export_json]

    The value handed to [json.dumps]; objects keep the order of their
    keys. *)
Inductive json :=
  | JNull
  | JInt (n : Z)
  | JStr (s : string)
  | JList (items : list json)
  | JDict (members : list (string * json)).

Definition json_opt (o : option string) : json :=
  match o with
  | Some s => JStr s
  | None => JNull
  end.

Definition json_issue (i : issue) : json :=
  JDict [("severity", JStr (severity_name (severity_of i)));
         ("category", JStr (category i));
         ("description", JStr (description i));
         ("details", json_opt (details i));
         ("timestamp", JStr (timestamp i))].

(** [report["summary"]] after the loop. *)
Definition json_summary (issues : list issue) : list (string * json) :=
  map (fun '(sev, count) => (severity_name sev, JInt count)) (severity_counts issues).

(** [timestamp] is [datetime.now().isoformat()]. *)
Definition json_report (h : host) (timestamp : string) (issues : list issue) : json :=
  JDict [("hostname", JStr (HOSTNAME h));
         ("timestamp", JStr timestamp);
         ("os_info", JDict (map (fun '(k, v) => (k, json_opt v)) (OS_INFO h)));
         ("summary", JDict (json_summary issues));
         ("issues", JList (map json_issue issues))].

(** [dumps] is [json.dumps(report, indent=2)]. *)
Definition export_json (dumps : json -> string) (h : host) (timestamp : string)
    (issues : list issue) : string :=
  dumps (json_report h timestamp issues).

(** ** [export_xml]

    An [ElementTree] element: tag, attributes, text, children. *)
Inductive element :=
  | Element (tag : string) (attrib : list (string * string)) (text : option string)
      (children : list element).

Definition leaf (tag : string) (text : option string) : element :=
  Element tag [] text [].

Definition xml_issue (i : issue) : element :=
  Element "issue" [] None
    ([leaf "severity" (Some (severity_name (severity_of i)));
      leaf "category" (Some (category i));
      leaf "description" (Some (description i));
      leaf "timestamp" (Some (timestamp i))]
     ++ match details i with
        | Some d => if String.eqb d EmptyString then [] else [leaf "details" (Some d)]
        | None => []
        end).

Definition xml_summary (issues : list issue) : list element :=
  map (fun '(sev, count) =>
         Element "severity" [("level", severity_name sev)] (Some (Py.str_of_int count)) [])
      (severity_counts issues).

Definition xml_report (h : host) (timestamp : string) (issues : list issue) : element :=
  Element "health_check_report" [] None
    [Element "metadata" [] None
       [leaf "hostname" (Some (HOSTNAME h));
        leaf "timestamp" (Some timestamp);
        leaf "distribution" (os_get h "distribution" (Some "Unknown"));
        leaf "version" (os_get h "version" (Some "Unknown"))];
     Element "summary" [] None (xml_summary issues);
     Element "issues" [] None (map xml_issue issues)].

(** [tostring] is [ET.tostring(root, encoding="unicode", method="xml")]. *)
Definition export_xml (tostring : element -> string) (h : host) (timestamp : string)
    (issues : list issue) : string :=
  tostring (xml_report h timestamp issues).

(** ** Direct aggregation over the store *)

(** The number of issues of a severity, counted directly. *)
Definition count_by_severity (sev : severity) (issues : list issue) : Z :=
  Z.of_nat (length (List.filter (fun i => severity_eqb (severity_of i) sev) issues)).

(** Reading a report back: the text of the [severity] element whose
    [level] attribute is the given name, among the children of [summary]. *)
Fixpoint xml_level (name : string) (children : list element) : option string :=
  match children with
  | [] => None
  | Element _ attrib text _ :: rest =>
      match dict_get String.eqb "level" attrib with
      | Some l => if String.eqb l name then text else xml_level name rest
      | None => xml_level name rest
      end
  end.

End Report.

(* ===================================================================== *)
(** * The other checks, the helpers and [detect_os] *)
(* ===================================================================== *)

Module Audit.

Import Store Checks.

(** [adds lo issues issues']: the list [issues'] is [issues] followed by
    at least [lo] further issues.  Every check leaves the list it found
    in this way. *)
Definition adds (lo : nat) (issues issues' : list issue) : Prop :=
  exists added, issues' = issues ++ added /\ (lo <= length added)%nat.

Section WithClock.

Variable now : nat -> string.

(** ** The helpers over text *)

(** [grep_count(text, pattern)] *)
Definition grep_count (matches : string -> bool) (text : string) : Z :=
  Z.of_nat (length (grep_output matches text)).

(** [head_lines(text, n)] *)
Definition head_lines (text : string) (n : Z) : string :=
  Py.join Py.nl (Py.slice_to n (Py.split_on Py.LF text)).

(** [tail_lines(text, n)] *)
Definition tail_lines (text : string) (n : Z) : string :=
  let lines := Py.split_on Py.LF text in
  Py.join Py.nl
    (if n <=? Z.of_nat (length lines) then Py.slice_from (- n) lines else lines).

(** A [for] loop whose body may raise: the first exception ends it. *)
Fixpoint for_each {A B} (body : A -> B -> result A) (l : list B) (a : A) : result A :=
  match l with
  | [] => Ret a
  | x :: rest => try! a' := body a x in for_each body rest a'
  end.

(** The regular expressions of the checks that are no plain substring.

    [^\d+:], on the ASCII digits [ip] numbers the interfaces with *)
Definition matches_index (line : string) : bool :=
  match line with
  | String c _ => Py.is_digit c && Py.startswith ":" (Py.lstrip_by Py.is_digit line)
  | EmptyString => false
  end.

(** [●.*failed]: the bullet (three bytes in UTF-8) and, anywhere after it,
    the word. *)
Fixpoint matches_bullet_failed (line : string) : bool :=
  match line with
  | EmptyString => false
  | String _ rest =>
      Py.startswith "●" line
        && Py.contains "failed" (String.substring 3 (String.length line - 3) line)
      || matches_bullet_failed rest
  end.

(** ** [detect_os] *)

(** [OS_INFO] as [detect_os] leaves it: a dictionary with these five keys,
    the last three of which may hold [None].  [main] calls [detect_os]
    before any check. *)
Record os_info := {
  distribution : string;
  version : string;
  package_manager : option string;
  firewall : option string;
  security_framework : option string
}.

(** The dictionary itself, as the exporters read it. *)
Definition os_info_dict (info : os_info) : list (string * option string) :=
  [("distribution", Some (distribution info));
   ("version", Some (version info));
   ("package_manager", package_manager info);
   ("firewall", firewall info);
   ("security_framework", security_framework info)].

(** The port [check_listening_services] reads off a line, if any: the text
    after the last colon of the fifth column. *)
Definition listening_port (line : string) : option string :=
  let parts := Py.split_ws line in
  if (5 <=? length parts)%nat then
    let port_info := nth 4 parts EmptyString in
    if Py.contains ":" port_info
    then Some (List.last (Py.split_on ":" port_info) EmptyString)
    else None
  else None.

(** The value of a key of [/etc/os-release] in the words of the
    properties: that of the last line that starts with the key, taken
    between the first and the second equals sign and without surrounding
    double quotes; [default] when no line starts with the key. *)
Definition os_release_value (key default : string) (lines : list string) : string :=
  match last (List.filter (Py.startswith key) lines) with
  | Some line => Py.strip_char Py.DQUOTE (nth 1 (Py.split_on "=" line) EmptyString)
  | None => default
  end.

Section Probes.

(** The machine the checks probe: [run_command] gives the outcome of a
    command line, [path_exists] is [os.path.exists] and [read_file] is the
    [with open(path, "r") as f: f.read()] of a check. *)
Variable run_command : list string -> completed.
Variable path_exists : string -> bool.
Variable read_file : string -> result string.

(** [command_exists(cmd)] *)
Definition command_exists (cmd : string) : bool :=
  rc (run_command ["which"; cmd]) =? 0.

(** The body of the loop over the lines of [/etc/os-release]. *)
Definition os_release_line (info : os_info) (line : string) : result os_info :=
  if Py.startswith "ID=" line then
    try! value := Py.index (Py.split_on "=" line) 1 in
    Ret {| distribution := Py.strip_char Py.DQUOTE value;
           version := version info;
           package_manager := package_manager info;
           firewall := firewall info;
           security_framework := security_framework info |}
  else if Py.startswith "VERSION_ID=" line then
    try! value := Py.index (Py.split_on "=" line) 1 in
    Ret {| distribution := distribution info;
           version := Py.strip_char Py.DQUOTE value;
           package_manager := package_manager info;
           firewall := firewall info;
           security_framework := security_framework info |}
  else Ret info.

Definition detect_os : result os_info :=
  let info :=
    {| distribution := "Unknown";
       version := "Unknown";
       package_manager := None;
       firewall := None;
       security_framework := None |} in
  (* Detect distribution *)
  try! info :=
    if path_exists "/etc/os-release" then
      let cat := run_command ["cat"; "/etc/os-release"] in
      if rc cat =? 0
      then for_each os_release_line (Py.split_on Py.LF (stdout cat)) info
      else Ret info
    else Ret info in
  Ret {| distribution := distribution info;
         version := version info;
         (* Detect package manager *)
         package_manager :=
           if command_exists "rpm" then Some "rpm"
           else if command_exists "dpkg" then Some "dpkg"
           else if command_exists "pacman" then Some "pacman"
           else None;
         (* Detect firewall *)
         firewall :=
           if command_exists "firewall-cmd" then Some "firewalld"
           else if command_exists "ufw" then Some "ufw"
           else if command_exists "iptables" then Some "iptables"
           else None;
         (* Detect security framework *)
         security_framework :=
           if path_exists "/sys/fs/selinux" then Some "selinux"
           else if path_exists "/sys/kernel/security/apparmor" then Some "apparmor"
           else None |}.

(** ** Security checks *)

(** [check_wheel_group]: the loop over the two group names, and what
    follows it when no group was found. *)
Fixpoint wheel_group_loop (groups : list string) (issues : list issue)
    : result (list issue) :=
  match groups with
  | [] =>
      Ret (add_issue now MEDIUM "Security" "Neither wheel nor sudo group found"
             (Some "Cannot verify administrative access") issues)
  | group :: rest =>
      let getent := run_command ["getent"; "group"; group] in
      if rc getent =? 0 then
        try! field := Py.last_item (Py.split_on ":" (stdout getent)) in
        let members := Py.strip field in
        if negb (Py.nonempty members) then
          Ret (add_issue now CRITICAL "Security"
                 ("Group '" +:+ group +:+ "' has no members")
                 (Some "No users can use sudo - administrative access may be blocked")
                 issues)
        else
          Ret (add_issue now INFO "Security"
                 ("Group '" +:+ group +:+ "' members: " +:+ members) None issues)
      else wheel_group_loop rest issues
  end.

(** Try wheel first (RHEL/CentOS), then sudo (Debian/Ubuntu). *)
Definition check_wheel_group (issues : list issue) : result (list issue) :=
  wheel_group_loop ["wheel"; "sudo"] issues.

Definition check_firewall (info : os_info) (issues : list issue) : list issue :=
  if Py.opt_eqb (firewall info) "firewalld" then
    let state := run_command ["firewall-cmd"; "--state"] in
    if negb (rc state =? 0) || negb (Py.contains "running" (Py.lower (stdout state))) then
      add_issue now HIGH "Security" "firewalld is not running"
        (Some "Firewall should be enabled for network security") issues
    else add_issue now INFO "Security" "firewalld is running and active" None issues
  else if Py.opt_eqb (firewall info) "ufw" then
    let status := run_command ["ufw"; "status"] in
    if negb (rc status =? 0) || Py.contains "inactive" (Py.lower (stdout status)) then
      add_issue now HIGH "Security" "ufw is not active"
        (Some "Firewall should be enabled for network security") issues
    else add_issue now INFO "Security" "ufw is active" None issues
  else if Py.opt_eqb (firewall info) "iptables" then
    let listing := run_command ["iptables"; "-L"; "-n"] in
    if rc listing =? 0 then
      let rule_count := Z.of_nat (length (Py.split_on Py.LF (stdout listing))) in
      if rule_count <? 10 then
        add_issue now MEDIUM "Security" "iptables has minimal rules"
          (Some ("Only " +:+ Py.str_of_int rule_count +:+ " lines of iptables output"))
          issues
      else
        add_issue now INFO "Security"
          ("iptables is configured (" +:+ Py.str_of_int rule_count +:+ " lines)") None
          issues
    else issues
  else
    add_issue now HIGH "Security" "No firewall detected"
      (Some "No recognized firewall (firewalld, ufw, iptables) found") issues.

Definition check_selinux_apparmor (info : os_info) (issues : list issue) : list issue :=
  if Py.opt_eqb (security_framework info) "selinux" then
    let getenforce := run_command ["getenforce"] in
    if rc getenforce =? 0 then
      let status := Py.strip (stdout getenforce) in
      if String.eqb status "Enforcing" then
        add_issue now INFO "Security" "SELinux is in Enforcing mode"
          (Some "Good security posture") issues
      else if String.eqb status "Permissive" then
        add_issue now MEDIUM "Security" "SELinux is in Permissive mode"
          (Some "SELinux should be in Enforcing mode for production") issues
      else
        add_issue now HIGH "Security" "SELinux is Disabled"
          (Some "SELinux should be enabled and enforcing") issues
    else issues
  else if Py.opt_eqb (security_framework info) "apparmor" then
    let aa_status := run_command ["aa-status"] in
    if rc aa_status =? 0 then
      if Py.contains "apparmor module is loaded" (Py.lower (stdout aa_status)) then
        add_issue now INFO "Security" "AppArmor is active and loaded" None issues
      else
        add_issue now MEDIUM "Security" "AppArmor status unclear"
          (Some (String.substring 0 200 (stdout aa_status))) issues
    else add_issue now MEDIUM "Security" "Cannot determine AppArmor status" None issues
  else
    add_issue now MEDIUM "Security" "No MAC framework detected"
      (Some "Neither SELinux nor AppArmor found") issues.

Definition check_failed_logins (issues : list issue) : result (list issue) :=
  if negb (path_exists "/var/log/secure") && negb (path_exists "/var/log/auth.log") then
    Ret (add_issue now LOW "Security" "Cannot check failed logins"
           (Some "Neither /var/log/secure nor /var/log/auth.log exists") issues)
  else
    let log_file :=
      if path_exists "/var/log/secure" then "/var/log/secure" else "/var/log/auth.log" in
    match read_file log_file with
    | Ret content =>
        let failed_count := grep_count (Py.contains "Failed password") content in
        if 100 <? failed_count then
          Ret (add_issue now HIGH "Security"
                 (Py.str_of_int failed_count +:+ " failed login attempts detected")
                 (Some ("Check " +:+ log_file +:+ " for details")) issues)
        else if 20 <? failed_count then
          Ret (add_issue now MEDIUM "Security"
                 (Py.str_of_int failed_count +:+ " failed login attempts detected")
                 (Some ("Check " +:+ log_file +:+ " for details")) issues)
        else if 0 <? failed_count then
          Ret (add_issue now LOW "Security"
                 (Py.str_of_int failed_count +:+ " failed login attempts detected")
                 None issues)
        else
          Ret (add_issue now INFO "Security" "No failed login attempts detected" None issues)
    | Raise e =>
        if is_PermissionError e
        then Ret (add_issue now LOW "Security" ("Cannot read " +:+ log_file)
                    (Some "Permission denied - run as root") issues)
        else Raise e
    end.

(** The insecure services [check_open_ports] looks for, in the order of
    the dictionary. *)
Definition dangerous_ports : list (string * string) :=
  [("23", "Telnet"); ("21", "FTP"); ("69", "TFTP"); ("513", "rlogin"); ("514", "rsh")].

Definition check_open_ports (issues : list issue) : list issue :=
  let ss := run_command ["ss"; "-tuln"] in
  let listing := if negb (rc ss =? 0) then run_command ["netstat"; "-tuln"] else ss in
  if rc listing =? 0 then
    let listening_lines := grep_output (Py.contains "LISTEN") (stdout listing) in
    let port_count := Z.of_nat (length listening_lines) in
    let issues :=
      if 20 <? port_count then
        add_issue now MEDIUM "Security"
          (Py.str_of_int port_count +:+ " listening ports detected")
          (Some "Review open ports for unnecessary services") issues
      else
        add_issue now INFO "Security"
          (Py.str_of_int port_count +:+ " listening ports detected") None issues in
    (* Check for common insecure ports *)
    fold_left
      (fun issues '(port, service) =>
         if existsb (Py.contains (":" +:+ port +:+ " ")) listening_lines then
           add_issue now CRITICAL "Security"
             ("Insecure service " +:+ service +:+ " listening on port " +:+ port)
             (Some ("Port " +:+ port +:+ " should not be exposed")) issues
         else issues)
      dangerous_ports issues
  else
    add_issue now LOW "Security" "Cannot check open ports"
      (Some "Neither ss nor netstat available") issues.

(** The loop [for line in reversed(permit_root_lines)] with its [break]. *)
Fixpoint root_login_loop (reversed_lines : list string) (issues : list issue)
    : list issue :=
  match reversed_lines with
  | [] => issues
  | line :: rest =>
      if not_comment line then
        if Py.contains "no" (Py.lower line) then
          add_issue now INFO "Security" "Root SSH login is disabled"
            (Some "Good security practice") issues
        else
          add_issue now HIGH "Security" "Root SSH login is enabled"
            (Some "PermitRootLogin should be set to 'no'") issues
      else root_login_loop rest issues
  end.

Definition check_root_login (issues : list issue) : result (list issue) :=
  let sshd_config := "/etc/ssh/sshd_config" in
  if negb (path_exists sshd_config) then
    Ret (add_issue now LOW "Security" "Cannot find sshd_config"
           (Some "SSH may not be installed") issues)
  else
    match read_file sshd_config with
    | Ret content =>
        let permit_root_lines := grep_output (matches_keyword "PermitRootLogin") content in
        match permit_root_lines with
        | [] =>
            Ret (add_issue now MEDIUM "Security"
                   "PermitRootLogin not explicitly set in sshd_config"
                   (Some "Default may allow root login") issues)
        | _ =>
            (* Get the last uncommented line *)
            Ret (root_login_loop (rev permit_root_lines) issues)
        end
    | Raise e =>
        if is_PermissionError e
        then Ret (add_issue now LOW "Security" ("Cannot read " +:+ sshd_config)
                    (Some "Permission denied") issues)
        else Raise e
    end.

(** The body of the [try] block of [check_password_policy]. *)
Definition password_policy_body (login_defs : string) (issues : list issue)
    : result (list issue) :=
  try! content := read_file login_defs in
  let pass_max_days := grep_output (matches_keyword "PASS_MAX_DAYS") content in
  if match pass_max_days with [] => true | _ => false end
     || existsb (Py.contains "99999") pass_max_days then
    Ret (add_issue now MEDIUM "Security" "Password expiration not enforced"
           (Some "PASS_MAX_DAYS should be set to reasonable value (e.g., 90)") issues)
  else
    try! first := Py.index pass_max_days 0 in
    Ret (add_issue now INFO "Security"
           ("Password policy configured: " +:+ Py.strip first) None issues).

Definition check_password_policy (issues : list issue) : result (list issue) :=
  let login_defs := "/etc/login.defs" in
  if path_exists login_defs then
    match password_policy_body login_defs issues with
    | Ret issues' => Ret issues'
    | Raise e =>
        if is_PermissionError e
        then Ret (add_issue now LOW "Security" ("Cannot read " +:+ login_defs)
                    (Some "Permission denied") issues)
        else Raise e
    end
  else
    Ret (add_issue now LOW "Security" "Cannot check password policy"
           (Some (login_defs +:+ " not found")) issues).

(** ** System health checks *)

Definition check_uptime (issues : list issue) : list issue :=
  let pretty := run_command ["uptime"; "-p"] in
  if rc pretty =? 0 then
    add_issue now INFO "System Health" ("System uptime: " +:+ Py.strip (stdout pretty))
      None issues
  else
    let plain := run_command ["uptime"] in
    if rc plain =? 0 then
      add_issue now INFO "System Health" ("Uptime: " +:+ Py.strip (stdout plain)) None issues
    else issues.

(** The body of the [try] block of [check_cpu_info]. *)
Definition cpu_info_body (issues : list issue) : result (list issue) :=
  try! content := read_file "/proc/cpuinfo" in
  let cpu_count := grep_count (Py.startswith "processor") content in
  let model_lines := grep_output (Py.contains "model name") content in
  match model_lines with
  | [] =>
      Ret (add_issue now INFO "System Health"
             ("CPU: " +:+ Py.str_of_int cpu_count +:+ " cores") None issues)
  | _ =>
      try! first := Py.index model_lines 0 in
      try! field := Py.index (Py.split_on ":" first) 1 in
      let model := Py.strip field in
      Ret (add_issue now INFO "System Health"
             ("CPU: " +:+ Py.str_of_int cpu_count +:+ " cores, " +:+ model) None issues)
  end.

Definition check_cpu_info (issues : list issue) : result (list issue) :=
  if path_exists "/proc/cpuinfo" then
    match cpu_info_body issues with
    | Ret issues' => Ret issues'
    | Raise e =>
        if is_Exception e
        then Ret (add_issue now LOW "System Health" "Cannot read CPU info"
                    (Some (exn_msg e)) issues)
        else Raise e
    end
  else Ret issues.

Definition check_zombie_processes (issues : list issue) : list issue :=
  let ps := run_command ["ps"; "aux"] in
  if rc ps =? 0 then
    let zombie_count := grep_count (Py.contains "<defunct>") (stdout ps) in
    if 10 <? zombie_count then
      add_issue now HIGH "System Health"
        (Py.str_of_int zombie_count +:+ " zombie processes detected")
        (Some "Large number of zombies may indicate application issues") issues
    else if 0 <? zombie_count then
      add_issue now MEDIUM "System Health"
        (Py.str_of_int zombie_count +:+ " zombie processes detected") None issues
    else add_issue now INFO "System Health" "No zombie processes detected" None issues
  else add_issue now LOW "System Health" "Cannot check for zombie processes" None issues.

Definition check_systemd_failed (issues : list issue) : list issue :=
  let units := run_command ["systemctl"; "list-units"; "--failed"; "--no-pager"] in
  if rc units =? 0 then
    let failed_lines := grep_output matches_bullet_failed (stdout units) in
    let failed_count := Z.of_nat (length failed_lines) in
    if 5 <? failed_count then
      add_issue now HIGH "System Health"
        (Py.str_of_int failed_count +:+ " systemd services failed")
        (Some "Multiple service failures detected") issues
    else if 0 <? failed_count then
      add_issue now MEDIUM "System Health"
        (Py.str_of_int failed_count +:+ " systemd service(s) failed")
        (Some (Py.join Py.nl (Py.slice_to 5 failed_lines))) issues
    else add_issue now INFO "System Health" "No failed systemd services" None issues
  else
    add_issue now LOW "System Health" "Cannot check systemd services"
      (Some "systemctl may not be available") issues.

Definition check_dmesg_errors (issues : list issue) : list issue :=
  let dmesg := run_command ["dmesg"; "-l"; "err,crit,alert,emerg"] in
  if rc dmesg =? 0 then
    if Py.nonempty (Py.strip (stdout dmesg)) then
      let error_lines := Z.of_nat (length (Py.split_on Py.LF (stdout dmesg))) in
      if 50 <? error_lines then
        add_issue now HIGH "System Health"
          (Py.str_of_int error_lines +:+ " kernel errors in dmesg")
          (Some (head_lines (stdout dmesg) 10)) issues
      else if 10 <? error_lines then
        add_issue now MEDIUM "System Health"
          (Py.str_of_int error_lines +:+ " kernel errors in dmesg")
          (Some (head_lines (stdout dmesg) 5)) issues
      else
        add_issue now LOW "System Health"
          (Py.str_of_int error_lines +:+ " kernel error(s) in dmesg") None issues
    else add_issue now INFO "System Health" "No critical kernel errors in dmesg" None issues
  else
    add_issue now LOW "System Health" "Cannot check dmesg"
      (Some "Permission denied or not available") issues.

(** ** Storage checks *)

(** The body of the loop over the lines of [df -i]. *)
Definition inode_row (line : string) (issues : list issue) : list issue :=
  match Py.strip line with
  | EmptyString => issues
  | _ =>
      let parts := Py.split_ws line in
      if (6 <=? length parts)%nat then
        let filesystem := nth 0 parts EmptyString in
        let use_percent_str := Py.rstrip_char "%" (nth 4 parts EmptyString) in
        let mountpoint := nth 5 parts EmptyString in
        (* Skip pseudo filesystems *)
        if Py.str_in filesystem ["tmpfs"; "devtmpfs"; "none"; "udev"] then issues
        else
          match Py.int_of_str use_percent_str with
          | None => issues
          | Some use_percent =>
              if 90 <=? use_percent then
                add_issue now CRITICAL "Storage"
                  ("Inodes critically low on " +:+ mountpoint +:+ ": "
                     +:+ Py.str_of_int use_percent +:+ "%")
                  (Some (filesystem +:+ " mounted at " +:+ mountpoint)) issues
              else if 80 <=? use_percent then
                add_issue now HIGH "Storage"
                  ("Inodes running low on " +:+ mountpoint +:+ ": "
                     +:+ Py.str_of_int use_percent +:+ "%")
                  (Some (filesystem +:+ " mounted at " +:+ mountpoint)) issues
              else issues
          end
      else issues
  end.

Definition check_inode_usage (issues : list issue) : list issue :=
  let df := run_command ["df"; "-i"] in
  if rc df =? 0 then
    let lines := skipn 1 (Py.split_on Py.LF (stdout df)) in  (* Skip header *)
    fold_left (fun acc line => inode_row line acc) lines issues
  else
    add_issue now LOW "Storage" "Cannot check inode usage"
      (Some "df -i command failed") issues.

(** The block devices [check_disk_smart] finds in the output of [lsblk]. *)
Definition smart_devices (lsblk_stdout : string) : list string :=
  map (fun line => "/dev/" +:+ Py.strip line)
    (List.filter
       (fun line => Py.nonempty (Py.strip line) && negb (Py.startswith "loop" line))
       (Py.split_on Py.LF lsblk_stdout)).

Definition check_disk_smart (issues : list issue) : list issue :=
  if negb (command_exists "smartctl") then
    add_issue now LOW "Storage" "smartctl not available"
      (Some "Install smartmontools to check disk health") issues
  else
    (* Find block devices *)
    let lsblk := run_command ["lsblk"; "-d"; "-n"; "-o"; "NAME"] in
    if negb (rc lsblk =? 0) then
      add_issue now LOW "Storage" "Cannot list block devices"
        (Some "lsblk command failed") issues
    else
      let devices := smart_devices (stdout lsblk) in
      fold_left
        (fun issues device =>
           let smartctl := run_command ["smartctl"; "-H"; device] in
           if rc smartctl =? 0 then
             if Py.contains "PASSED" (stdout smartctl) then
               add_issue now INFO "Storage" ("SMART status OK for " +:+ device) None issues
             else if Py.contains "FAILED" (stdout smartctl) then
               add_issue now CRITICAL "Storage" ("SMART status FAILED for " +:+ device)
                 (Some "Disk may be failing - backup data immediately") issues
             else issues
           else issues)
        (Py.slice_to 5 devices)  (* Check first 5 devices *)
        issues.

(** ** Package and update checks *)

Definition check_package_updates (info : os_info) (issues : list issue) : list issue :=
  if Py.opt_eqb (package_manager info) "rpm" then
    (* RHEL/CentOS/Rocky *)
    let yum := run_command ["yum"; "check-update"] in
    if rc yum =? 100 then  (* yum returns 100 when updates are available *)
      let update_count :=
        Z.of_nat
          (length
             (List.filter
                (fun l => Py.nonempty (Py.strip l)
                          && negb (Py.startswith "Loaded" l)
                          && negb (Py.startswith "Security" l))
                (Py.split_on Py.LF (stdout yum)))) in
      add_issue now MEDIUM "Updates"
        ("Package updates available (approx. " +:+ Py.str_of_int update_count +:+ ")")
        (Some "Run 'yum update' to apply updates") issues
    else if rc yum =? 0 then
      add_issue now INFO "Updates" "All packages up to date" None issues
    else issues
  else if Py.opt_eqb (package_manager info) "dpkg" then
    (* Debian/Ubuntu: the outcome of [apt-get update] is not looked at *)
    let apt := run_command ["apt"; "list"; "--upgradable"] in
    if rc apt =? 0 then
      let update_lines := grep_output (Py.contains "upgradable") (stdout apt) in
      let n := Z.of_nat (length update_lines) in
      if 10 <? n then
        add_issue now MEDIUM "Updates" (Py.str_of_int n +:+ " package updates available")
          (Some "Run 'apt upgrade' to apply updates") issues
      else if 0 <? n then
        add_issue now LOW "Updates" (Py.str_of_int n +:+ " package update(s) available")
          None issues
      else add_issue now INFO "Updates" "All packages up to date" None issues
    else issues
  else
    add_issue now LOW "Updates" "Cannot check for updates"
      (Some ("Package manager '" +:+ Report.str_opt (package_manager info)
               +:+ "' not supported for update checks"))
      issues.

Definition check_kernel_version (info : os_info) (issues : list issue)
    : result (list issue) :=
  let uname := run_command ["uname"; "-r"] in
  if rc uname =? 0 then
    let running_kernel := Py.strip (stdout uname) in
    let issues :=
      add_issue now INFO "Updates" ("Running kernel: " +:+ running_kernel) None issues in
    (* Check if reboot required (various methods) *)
    let issues :=
      if path_exists "/var/run/reboot-required" then
        add_issue now HIGH "Updates" "System reboot required"
          (Some "New kernel or critical updates installed") issues
      else issues in
    (* Check if running kernel matches installed kernel *)
    if Py.opt_eqb (package_manager info) "rpm" then
      let rpm := run_command ["rpm"; "-q"; "kernel"] in
      if rc rpm =? 0 then
        let installed_kernels := Py.split_on Py.LF (Py.strip (stdout rpm)) in
        try! newest := Py.last_item installed_kernels in
        let latest_kernel := Py.replace "kernel-" "" newest in
        if negb (Py.contains running_kernel latest_kernel) then
          Ret (add_issue now MEDIUM "Updates" "Running kernel is not the latest installed"
                 (Some ("Running: " +:+ running_kernel +:+ ", Latest: " +:+ latest_kernel))
                 issues)
        else Ret issues
      else Ret issues
    else Ret issues
  else Ret issues.

Definition check_security_updates (info : os_info) (issues : list issue) : list issue :=
  if Py.opt_eqb (package_manager info) "rpm" then
    let yum := run_command ["yum"; "updateinfo"; "list"; "security"] in
    if rc yum =? 0 then
      let security_lines :=
        List.filter (fun l => Py.contains "security" (Py.lower l))
          (Py.split_on Py.LF (stdout yum)) in
      let n := Z.of_nat (length security_lines) in
      if 10 <? n then
        add_issue now HIGH "Updates" (Py.str_of_int n +:+ " security updates available")
          (Some "Apply security updates immediately") issues
      else if 0 <? n then
        add_issue now MEDIUM "Updates" (Py.str_of_int n +:+ " security update(s) available")
          None issues
      else add_issue now INFO "Updates" "No security updates pending" None issues
    else issues
  else issues.

(** ** Networking checks *)

(** The body of the loop over the interfaces of [check_network_interfaces]. *)
Definition interface_row (issues : list issue) (line : string) : result (list issue) :=
  if Py.contains "state DOWN" line && negb (Py.contains "lo:" line) then
    try! field := Py.index (Py.split_on ":" line) 1 in
    let iface_name := Py.strip field in
    Ret (add_issue now LOW "Networking" ("Interface " +:+ iface_name +:+ " is DOWN") None
           issues)
  else Ret issues.

Definition check_network_interfaces (issues : list issue) : result (list issue) :=
  let ip := run_command ["ip"; "link"; "show"] in
  if rc ip =? 0 then
    let interfaces := grep_output matches_index (stdout ip) in
    let up_count := grep_count (Py.contains "state UP") (stdout ip) in
    let down_count := grep_count (Py.contains "state DOWN") (stdout ip) in
    let issues :=
      add_issue now INFO "Networking"
        ("Network interfaces: " +:+ Py.str_of_int (Z.of_nat (length interfaces))
           +:+ " total, " +:+ Py.str_of_int up_count +:+ " up, "
           +:+ Py.str_of_int down_count +:+ " down")
        None issues in
    (* Check for interfaces in down state (excluding loopback) *)
    for_each interface_row interfaces issues
  else
    Ret (add_issue now LOW "Networking" "Cannot check network interfaces"
           (Some "ip command failed") issues).

(** [check_dns_resolution]: the loop over the test hosts, and what follows
    it when none resolved. *)
Fixpoint dns_loop (test_hosts : list string) (issues : list issue) : list issue :=
  match test_hosts with
  | [] =>
      add_issue now HIGH "Networking" "DNS resolution may be failing"
        (Some "Could not resolve test hosts") issues
  | host :: rest =>
      let nslookup := run_command ["nslookup"; host] in
      if (rc nslookup =? 0) && Py.contains "answer" (Py.lower (stdout nslookup)) then
        add_issue now INFO "Networking" ("DNS resolution working (tested " +:+ host +:+ ")")
          None issues
      else dns_loop rest issues
  end.

Definition check_dns_resolution (issues : list issue) : list issue :=
  dns_loop ["google.com"; "1.1.1.1"] issues.

Definition check_default_gateway (issues : list issue) : list issue :=
  let route := run_command ["ip"; "route"; "show"; "default"] in
  if (rc route =? 0) && Py.nonempty (Py.strip (stdout route)) then
    let gateway :=
      if (3 <=? length (Py.split_ws (stdout route)))%nat
      then nth 2 (Py.split_ws (stdout route)) EmptyString
      else "unknown" in
    let issues :=
      add_issue now INFO "Networking" ("Default gateway: " +:+ gateway) None issues in
    (* Try to ping gateway *)
    let ping := run_command ["ping"; "-c"; "1"; "-W"; "2"; gateway] in
    if rc ping =? 0 then
      add_issue now INFO "Networking" ("Gateway " +:+ gateway +:+ " is reachable") None issues
    else
      add_issue now MEDIUM "Networking" ("Gateway " +:+ gateway +:+ " is not reachable")
        (Some "Network connectivity may be impaired") issues
  else
    add_issue now HIGH "Networking" "No default gateway configured"
      (Some "System cannot reach external networks") issues.

(** The body of the loop of [check_listening_services] over the [LISTEN]
    lines: [services] counts the lines of each port. *)
Definition listening_row (services : list (string * Z)) (line : string)
    : result (list (string * Z)) :=
  let parts := Py.split_ws line in
  if (5 <=? length parts)%nat then
    let port_info := nth 4 parts EmptyString in
    if Py.contains ":" port_info then
      try! port := Py.last_item (Py.split_on ":" port_info) in
      Ret (Report.dict_set String.eqb port
             (Report.dict_get_or String.eqb port 0 services + 1) services)
    else Ret services
  else Ret services.

Definition check_listening_services (issues : list issue) : result (list issue) :=
  let ss := run_command ["ss"; "-tulpn"] in
  let listing := if negb (rc ss =? 0) then run_command ["netstat"; "-tulpn"] else ss in
  if rc listing =? 0 then
    let listening := grep_output (Py.contains "LISTEN") (stdout listing) in
    try! services := for_each listening_row listening [] in
    Ret (add_issue now INFO "Networking"
           ("Listening on " +:+ Py.str_of_int (Z.of_nat (length services))
              +:+ " unique port(s)")
           None issues)
  else Ret issues.

(** The loop of [check_network_errors] over the [errors:] lines. *)
Definition high_error_count (error_lines : list string) : Z :=
  fold_left
    (fun count line =>
       let parts := Py.split_ws line in
       if (2 <=? length parts)%nat then
         match Py.int_of_str (nth 1 parts EmptyString) with
         | Some errors => if 1000 <? errors then count + 1 else count
         | None => count
         end
       else count)
    error_lines 0.

Definition check_network_errors (issues : list issue) : list issue :=
  let ip := run_command ["ip"; "-s"; "link"] in
  if rc ip =? 0 then
    let error_lines := grep_output (Py.contains "errors:") (stdout ip) in
    let high_error_count := high_error_count error_lines in
    if 0 <? high_error_count then
      add_issue now MEDIUM "Networking"
        (Py.str_of_int high_error_count +:+ " interface(s) with high error counts")
        (Some "Check 'ip -s link' for details") issues
    else add_issue now INFO "Networking" "Network error counters are low" None issues
  else issues.

(** [check_connectivity]: the loop over the test hosts, and what follows
    it when none answered. *)
Fixpoint connectivity_loop (test_hosts : list string) (issues : list issue)
    : list issue :=
  match test_hosts with
  | [] =>
      add_issue now HIGH "Networking" "Cannot reach external hosts"
        (Some "Internet connectivity may be down") issues
  | host :: rest =>
      let ping := run_command ["ping"; "-c"; "2"; "-W"; "3"; host] in
      if rc ping =? 0 then
        add_issue now INFO "Networking" ("External connectivity OK (reached " +:+ host +:+ ")")
          None issues
      else connectivity_loop rest issues
  end.

Definition check_connectivity (issues : list issue) : list issue :=
  connectivity_loop ["8.8.8.8"; "1.1.1.1"] issues.

(** ** iSCSI checks *)

Fixpoint iscsi_service_loop (services : list string) (issues : list issue)
    : list issue :=
  match services with
  | [] =>
      add_issue now LOW "iSCSI" "iSCSI service not running"
        (Some "If iSCSI storage is used, ensure iscsid service is active") issues
  | service :: rest =>
      let systemctl := run_command ["systemctl"; "is-active"; service] in
      if (rc systemctl =? 0) && Py.contains "active" (stdout systemctl) then
        add_issue now INFO "iSCSI" ("iSCSI service '" +:+ service +:+ "' is active") None
          issues
      else iscsi_service_loop rest issues
  end.

Definition check_iscsi_service (issues : list issue) : list issue :=
  iscsi_service_loop ["iscsid"; "iscsi"] issues.

Definition check_iscsi_sessions (issues : list issue) : list issue :=
  if negb (command_exists "iscsiadm") then
    add_issue now LOW "iSCSI" "iscsiadm not available"
      (Some "iSCSI tools not installed or not in PATH") issues
  else
    let session := run_command ["iscsiadm"; "-m"; "session"] in
    if (rc session =? 0) && Py.nonempty (Py.strip (stdout session)) then
      let session_count :=
        Z.of_nat (length (Py.split_on Py.LF (Py.strip (stdout session)))) in
      add_issue now INFO "iSCSI" (Py.str_of_int session_count +:+ " active iSCSI session(s)")
        None issues
    else if rc session =? 0 then
      add_issue now INFO "iSCSI" "No active iSCSI sessions" None issues
    else
      add_issue now LOW "iSCSI" "Cannot check iSCSI sessions"
        (Some "No sessions or permission denied") issues.

Definition check_iscsi_multipath (issues : list issue) : list issue :=
  if negb (command_exists "multipath") then
    add_issue now LOW "iSCSI" "multipath command not available"
      (Some "Install multipath-tools if using multipath iSCSI") issues
  else
    let multipath := run_command ["multipath"; "-ll"] in
    if (rc multipath =? 0) && Py.nonempty (Py.strip (stdout multipath)) then
      (* Check for failed paths *)
      if Py.contains "failed" (Py.lower (stdout multipath))
         || Py.contains "faulty" (Py.lower (stdout multipath)) then
        add_issue now HIGH "iSCSI" "Multipath has failed/faulty paths"
          (Some "Check 'multipath -ll' for details") issues
      else
        let path_count := grep_count (Py.contains "status=active") (stdout multipath) in
        add_issue now INFO "iSCSI"
          ("Multipath configured with " +:+ Py.str_of_int path_count +:+ " active paths")
          None issues
    else add_issue now LOW "iSCSI" "No multipath devices or not configured" None issues.

Definition check_iscsi_targets (issues : list issue) : list issue :=
  if negb (command_exists "iscsiadm") then issues
  else
    let node := run_command ["iscsiadm"; "-m"; "node"] in
    if (rc node =? 0) && Py.nonempty (Py.strip (stdout node)) then
      let target_count := Z.of_nat (length (Py.split_on Py.LF (Py.strip (stdout node)))) in
      add_issue now INFO "iSCSI" (Py.str_of_int target_count +:+ " iSCSI target(s) configured")
        None issues
    else if rc node =? 0 then
      add_issue now INFO "iSCSI" "No iSCSI targets configured" None issues
    else issues.

(** The loop of [check_iscsi_performance] over the device lines:
    [high_util_devices]. *)
Definition high_util_devices (device_lines : list string) : list string :=
  fold_left
    (fun found line =>
       let parts := Py.split_ws line in
       if (12 <=? length parts)%nat then
         match PyFloat.of_str (List.last parts EmptyString) with
         | Some util =>
             if PyFloat.gt_int util 90 then
               let device := nth 0 parts EmptyString in
               found ++ [device +:+ " (" +:+ PyFloat.repr util +:+ "%)"]
             else found
         | None => found
         end
       else found)
    device_lines [].

Definition check_iscsi_performance (issues : list issue) : list issue :=
  let iostat := run_command ["iostat"; "-x"; "1"; "2"] in
  if rc iostat =? 0 then
    (* Look for high await times or utilization *)
    let lines := Py.split_on Py.LF (stdout iostat) in
    let device_lines :=
      List.filter (fun l => Py.startswith "sd" l || Py.startswith "dm-" l) lines in
    let high_util_devices := high_util_devices device_lines in
    match high_util_devices with
    | [] => add_issue now INFO "iSCSI" "Disk I/O utilization normal" None issues
    | _ =>
        add_issue now MEDIUM "iSCSI" "High disk utilization detected"
          (Some ("Devices: " +:+ Py.join ", " high_util_devices)) issues
    end
  else
    add_issue now LOW "iSCSI" "Cannot check I/O statistics"
      (Some "iostat not available - install sysstat package") issues.

Definition check_iscsi_timeouts (issues : list issue) : result (list issue) :=
  let timeout_file := "/sys/module/iscsi_tcp/parameters/timeout" in
  if path_exists timeout_file then
    match read_file timeout_file with
    | Ret text =>
        let timeout := Py.strip text in
        Ret (add_issue now INFO "iSCSI" ("iSCSI TCP timeout: " +:+ timeout +:+ " seconds")
               None issues)
    | Raise e => if is_Exception e then Ret issues else Raise e
    end
  else Ret issues.

Definition check_iscsi_errors (issues : list issue) : list issue :=
  let journalctl :=
    run_command ["journalctl"; "-u"; "iscsid"; "-p"; "err"; "-n"; "50"; "--no-pager"] in
  if rc journalctl =? 0 then
    if Py.nonempty (Py.strip (stdout journalctl)) then
      let error_count :=
        Z.of_nat (length (Py.split_on Py.LF (Py.strip (stdout journalctl)))) in
      add_issue now MEDIUM "iSCSI"
        (Py.str_of_int error_count +:+ " iSCSI error(s) in recent logs")
        (Some (head_lines (stdout journalctl) 5)) issues
    else add_issue now INFO "iSCSI" "No recent iSCSI errors in logs" None issues
  else issues.

End Probes.

End WithClock.

End Audit.

(* ===================================================================== *)
(** * Encryption *)
(* ===================================================================== *)

Module Delivery.

Import Store.

(** The GPG constants among the module-level configuration values. *)
Record gpg_config := {
  GPG_ENABLED : bool;
  GPG_RECIPIENT : string;
  GPG_DELETE_UNENCRYPTED : bool
}.

(** [bool(v)] and [str(v)] of a configuration value. *)
Definition truthy (v : Config.value) : bool :=
  match v with
  | Config.VBool b => b
  | Config.VInt n => negb (n =? 0)
  | Config.VStr s => negb (String.eqb s EmptyString)
  | Config.VFloat x => negb (PrimFloat.eqb x 0%float)
  end.

Definition str_of (v : Config.value) : string :=
  match v with
  | Config.VStr s => s
  | Config.VInt n => Py.str_of_int n
  | Config.VBool b => if b then "True" else "False"
  | Config.VFloat x => PyFloat.repr x
  end.

(** The three assignments under [# GPG Configuration]. *)
Definition load_gpg_config (st : Config.settings) : result gpg_config :=
  try! enabled := Config._cfg st "gpg" "encrypt" (Config.VBool false) Config.TBool in
  try! recipient :=
    Config._cfg st "gpg" "recipient" (Config.VStr "root@localhost") Config.TStr in
  try! delete_unencrypted :=
    Config._cfg st "gpg" "delete_unencrypted" (Config.VBool false) Config.TBool in
  Ret {| GPG_ENABLED := truthy enabled;
         GPG_RECIPIENT := str_of recipient;
         GPG_DELETE_UNENCRYPTED := truthy delete_unencrypted |}.

Section Commands.

(** The files of the machine, by path, and [run_command]: an external
    program acts on the files and reports its outcome. *)
Variable run_command : list string -> gmap string string -> completed * gmap string string.

(** [command_exists(cmd)] *)
Definition command_exists (cmd : string) (files : gmap string string)
    : bool * gmap string string :=
  let '(which, files') := run_command ["which"; cmd] files in
  (rc which =? 0, files').

(** [os.remove(path)] *)
Definition os_remove (path : string) (files : gmap string string)
    : result (gmap string string) :=
  match files !! path with
  | Some _ => Ret (delete path files)
  | None => Raise (Exn OSError ("[Errno 2] No such file or directory: " +:+ Py.repr_str path))
  end.

(** [encrypt_file_gpg(file_path)]: the path it returns and the files it
    leaves. *)
Definition encrypt_file_gpg (g : gpg_config) (file_path : string)
    (files : gmap string string) : result (string * gmap string string) :=
  if negb (GPG_ENABLED g) || String.eqb (GPG_RECIPIENT g) EmptyString then
    Ret (file_path, files)
  else
    let '(found, files) := command_exists "gpg" files in
    if negb found then Ret (file_path, files)
    else
      let encrypted_path := file_path +:+ ".gpg" in
      let '(gpg, files) :=
        run_command
          ["gpg"; "--encrypt"; "--recipient"; GPG_RECIPIENT g; "--trust-model"; "always";
           "--output"; encrypted_path; file_path]
          files in
      if rc gpg =? 0 then
        (* Remove unencrypted file *)
        try! files := os_remove file_path files in
        Ret (encrypted_path, files)
      else Ret (file_path, files).

End Commands.

End Delivery.

(* ===================================================================== *)
(** * Email *)
(* ===================================================================== *)

Module Mail.

Import Store.

(** The email and SMTP constants among the module-level configuration
    values. *)
Record email_config := {
  EMAIL_ENABLED : bool;
  EMAIL_TO : string;
  EMAIL_FROM : string;
  EMAIL_SUBJECT : string;
  SMTP_SERVER : string;
  SMTP_PORT : Z;
  SMTP_USE_TLS : bool;
  SMTP_USERNAME : string;
  SMTP_PASSWORD : string
}.

(** The assignments under [# Email Configuration] and
    [# SMTP Configuration]. *)
Definition load_email_config (st : Config.settings) : result email_config :=
  try! enabled := Config._cfg st "email" "enabled" (Config.VBool false) Config.TBool in
  try! to := Config._cfg st "email" "to" (Config.VStr "root@localhost") Config.TStr in
  try! from := Config._cfg st "email" "from" (Config.VStr "root@localhost") Config.TStr in
  try! subject :=
    Config._cfg st "email" "subject"
      (Config.VStr "Linux Health Check Report - {hostname}") Config.TStr in
  try! server := Config._cfg st "smtp" "server" (Config.VStr "localhost") Config.TStr in
  try! port_value := Config._cfg st "smtp" "port" (Config.VInt 25) Config.TInt in
  try! port := Checks.int_of_value port_value in
  try! use_tls := Config._cfg st "smtp" "use_tls" (Config.VBool false) Config.TBool in
  try! username := Config._cfg st "smtp" "username" (Config.VStr "") Config.TStr in
  try! password := Config._cfg st "smtp" "password" (Config.VStr "") Config.TStr in
  Ret {| EMAIL_ENABLED := Delivery.truthy enabled;
         EMAIL_TO := Delivery.str_of to;
         EMAIL_FROM := Delivery.str_of from;
         EMAIL_SUBJECT := Delivery.str_of subject;
         SMTP_SERVER := Delivery.str_of server;
         SMTP_PORT := port;
         SMTP_USE_TLS := Delivery.truthy use_tls;
         SMTP_USERNAME := Delivery.str_of username;
         SMTP_PASSWORD := Delivery.str_of password |}.

(** What the script puts into the message: the three headers, the text
    part and the attachment with the file name of its
    [Content-Disposition]. *)
Record message := {
  msg_from : string;
  msg_to : string;
  msg_subject : string;
  msg_body : string;
  attachment_name : string;
  attachment : string
}.

(** What the script asks of [smtplib]: the server it connects to, whether
    it calls [starttls], the credentials of [login] if it logs in, and the
    message it sends. *)
Record session := {
  smtp_host : string;
  smtp_port : Z;
  starttls : bool;
  login : option (string * string);
  sent : message
}.

(** [os.path.basename(path)] *)
Definition basename (path : string) : string :=
  List.last (Py.split_on "/" path) EmptyString.

(** The lines of the summary in the body of the message. *)
Definition body_summary (counts : list (severity * Z)) : string :=
  Report.concat_map
    (fun sev =>
       "  " +:+ severity_name sev +:+ ": "
         +:+ Py.str_of_int (Report.dict_get_or severity_eqb sev 0 counts) +:+ Py.nl)
    Report.SEVERITIES.

Section Smtp.

(** From outside: [template.format(hostname=h)], the bytes of a file
    ([open(path, "rb")] and [read]), and how the SMTP session that carries
    out a request ends. *)
Variable str_format : string -> string -> result string.
Variable read_bytes : string -> result string.
Variable smtp : session -> option exn.

(** The [try] block up to the point where the connection is opened.
    [date] is [datetime.now().strftime('%Y-%m-%d %H:%M:%S')]. *)
Definition prepare (c : email_config) (hostname date : string) (issues : list issue)
    (report_file : string) : result session :=
  (* Create message *)
  let from := if Py.nonempty (EMAIL_FROM c) then EMAIL_FROM c else "health-check@localhost" in
  let to := if Py.nonempty (EMAIL_TO c) then EMAIL_TO c else "admin@localhost" in
  try! subject :=
    if Py.nonempty (EMAIL_SUBJECT c) then str_format (EMAIL_SUBJECT c) hostname
    else Ret ("Health Check Report - " +:+ hostname) in
  (* Email body *)
  let body := "Health check report for " +:+ hostname +:+ " is attached." +:+ Py.nl +:+ Py.nl in
  let body := body +:+ "Report generated: " +:+ date +:+ Py.nl in
  (* Add summary *)
  let severity_counts := Report.severity_counts issues in
  let body := body +:+ Py.nl +:+ "Summary:" +:+ Py.nl in
  let body := body +:+ body_summary severity_counts in
  (* Attach report file *)
  try! payload := read_bytes report_file in
  (* Send email *)
  let smtp_host := if Py.nonempty (SMTP_SERVER c) then SMTP_SERVER c else "localhost" in
  Ret {| smtp_host := smtp_host;
         smtp_port := SMTP_PORT c;
         starttls := SMTP_USE_TLS c;
         login :=
           if Py.nonempty (SMTP_USERNAME c) && Py.nonempty (SMTP_PASSWORD c)
           then Some (SMTP_USERNAME c, SMTP_PASSWORD c) else None;
         sent := {| msg_from := from;
                    msg_to := to;
                    msg_subject := subject;
                    msg_body := body;
                    attachment_name := basename report_file;
                    attachment := payload |} |}.

(** [send_email_report(report_file)]: the sessions it has opened, after
    those of [opened], and how the call ends. *)
Definition send_email_report (c : email_config) (hostname date : string)
    (issues : list issue) (report_file : string) (opened : list session)
    : list session * option exn :=
  if negb (EMAIL_ENABLED c)
     || negb (forallb Py.nonempty [EMAIL_TO c; EMAIL_FROM c; SMTP_SERVER c]) then
    (opened, None)
  else
    match prepare c hostname date issues report_file with
    | Ret request =>
        match smtp request with
        | None => (opened ++ [request], None)
        | Some e => (opened ++ [request], if is_Exception e then None else Some e)
        end
    | Raise e => (opened, if is_Exception e then None else Some e)
    end.

End Smtp.

End Mail.

(* ===================================================================== *)
(** * Main *)
(* ===================================================================== *)

Module Runner.

Import Store.

(** The checks [main] calls, named after their functions without the
    prefix [check_]. *)
Inductive check_id :=
  | version_update
  | ssh_status | wheel_group | firewall | selinux_apparmor | failed_logins
  | open_ports | root_login | password_policy
  | uptime | load_average | memory_usage | cpu_info | zombie_processes
  | systemd_failed | dmesg_errors
  | filesystem_usage | inode_usage | disk_smart
  | package_updates | kernel_version | security_updates
  | network_interfaces | dns_resolution | default_gateway | listening_services
  | network_errors | connectivity
  | iscsi_service | iscsi_sessions | iscsi_multipath | iscsi_targets
  | iscsi_performance | iscsi_timeouts | iscsi_errors.

(** The order of the calls in [main]. *)
Definition run_order : list check_id :=
  [version_update;
   (* Security Checks *)
   ssh_status; wheel_group; firewall; selinux_apparmor; failed_logins;
   open_ports; root_login; password_policy;
   (* System Health Checks *)
   uptime; load_average; memory_usage; cpu_info; zombie_processes;
   systemd_failed; dmesg_errors;
   (* Storage Checks *)
   filesystem_usage; inode_usage; disk_smart;
   (* Package & Update Checks *)
   package_updates; kernel_version; security_updates;
   (* Networking Checks *)
   network_interfaces; dns_resolution; default_gateway; listening_services;
   network_errors; connectivity;
   (* iSCSI Checks *)
   iscsi_service; iscsi_sessions; iscsi_multipath; iscsi_targets;
   iscsi_performance; iscsi_timeouts; iscsi_errors].

(** What a run has done so far: the global [issues], the checks that were
    started (each logs a line when it starts), the files, and the path of
    the report once it is written. *)
Record state := {
  issues : list issue;
  started : list check_id;
  files : gmap string string;
  report_file : option string
}.

(** How a function call ends: it returns, or an exception leaves it. *)
Definition ending : Type := option exn.

(** Everything [main] takes from outside.  A check maps the issue list it
    finds to the list it leaves and tells whether an exception left it. *)
Record world := {
  check : check_id -> list issue -> list issue * ending;
  detect_os : result (list (string * option string));
  hostname : string;
  OUTPUT_DIR : string;
  EXPORT_FORMAT : option string;
  gpg : Delivery.gpg_config;
  EMAIL_ENABLED : bool;
  strftime_now : string;
  isoformat_now : string;
  json_dumps : Report.json -> string;
  xml_tostring : Report.element -> string;
  open_for_writing : string -> ending;
  run_command : list string -> gmap string string -> completed * gmap string string;
  send_email_report : string -> gmap string string -> ending
}.

(** A check as a result-returning function: nothing is appended when it
    raises. *)
Definition of_result (f : list issue -> result (list issue)) (issues : list issue)
    : list issue * ending :=
  match f issues with
  | Ret issues' => (issues', None)
  | Raise e => (issues, Some e)
  end.

(** One call [check_xxx()] of [main]. *)
Definition call (w : world) (c : check_id) (s : state) : state * ending :=
  let '(issues', e) := check w c (issues s) in
  ({| issues := issues'; started := started s ++ [c];
      files := files s; report_file := report_file s |}, e).

(** The calls in sequence: an exception ends the sequence. *)
Fixpoint run_checks (w : world) (cs : list check_id) (s : state) : state * ending :=
  match cs with
  | [] => (s, None)
  | c :: rest =>
      match call w c s with
      | (s', None) => run_checks w rest s'
      | (s', Some e) => (s', Some e)
      end
  end.

(** [os.path.join(directory, name)] for a relative [name]. *)
Definition path_join (directory name : string) : string :=
  match directory with
  | EmptyString => name
  | _ =>
      if String.eqb (String.substring (String.length directory - 1) 1 directory) "/"
      then directory +:+ name
      else directory +:+ "/" +:+ name
  end.

(** The report in the requested format and the file it goes to. *)
Definition render (w : world) (os_info : list (string * option string))
    (issues : list issue) : string * string :=
  let h := {| Report.HOSTNAME := hostname w; Report.OS_INFO := os_info |} in
  let export_format :=
    Py.lower (match EXPORT_FORMAT w with Some f => f | None => "markdown" end) in
  let file ext := path_join (OUTPUT_DIR w) ("health_report_" +:+ hostname w +:+ ext) in
  if String.eqb export_format "json" then
    (Report.export_json (json_dumps w) h (isoformat_now w) issues, file ".json")
  else if String.eqb export_format "xml" then
    (Report.export_xml (xml_tostring w) h (isoformat_now w) issues, file ".xml")
  else if String.eqb export_format "text" then
    (Report.export_text h (strftime_now w) issues, file ".txt")
  else
    (Report.export_markdown h (strftime_now w) issues, file ".md").

(** The status passed to [sys.exit] at the end of [main]. *)
Definition exit_code (issues : list issue) : Z :=
  let severity_counts := Report.severity_counts issues in
  if 0 <? Report.dict_get_or severity_eqb CRITICAL 0 severity_counts then 2
  else if 0 <? Report.dict_get_or severity_eqb HIGH 0 severity_counts then 1
  else 0.

(** How [main] ends: with [sys.exit(status)] or with an exception. *)
Inductive main_end := SysExit (status : Z) | Uncaught (e : exn).

Definition with_files (s : state) (files' : gmap string string) (report : option string)
    : state :=
  {| issues := issues s; started := started s; files := files'; report_file := report |}.

(** The part of [main] after the checks. *)
Definition report_and_exit (w : world) (os_info : list (string * option string))
    (s : state) : state * main_end :=
  let '(report_content, path) := render w os_info (issues s) in
  (* Write report *)
  match open_for_writing w path with
  | Some e => (s, Uncaught e)
  | None =>
      let s := with_files s (<[path := report_content]> (files s)) (Some path) in
      (* Encrypt if configured *)
      let encrypted :=
        if Delivery.GPG_ENABLED (gpg w)
        then Delivery.encrypt_file_gpg (run_command w) (gpg w) path (files s)
        else Ret (path, files s) in
      match encrypted with
      | Raise e => (s, Uncaught e)
      | Ret (path, files') =>
          let s := with_files s files' (Some path) in
          (* Send email if configured *)
          let sent :=
            if EMAIL_ENABLED w then send_email_report w path (files s) else None in
          match sent with
          | Some e => (s, Uncaught e)
          | None => (s, SysExit (exit_code (issues s)))
          end
      end
  end.

Definition main (w : world) (s : state) : state * main_end :=
  (* Detect OS *)
  match detect_os w with
  | Raise e => (s, Uncaught e)
  | Ret os_info =>
      match run_checks w run_order s with
      | (s', Some e) => (s', Uncaught e)
      | (s', None) => report_and_exit w os_info s'
      end
  end.

(** The guard under [if __name__ == "__main__"]: the status the process
    exits with once the guard is entered.  The module-level code above it
    (configuration, logging) runs before and outside the guard and is not
    part of this function. *)
Definition script (w : world) (s : state) : state * Z :=
  match main w s with
  | (s', SysExit status) => (s', status)
  | (s', Uncaught e) =>
      match exn_class e with
      | KeyboardInterrupt => (s', 130)
      | _ => (s', 1)
      end
  end.

(** The same world with another value of [GPG_DELETE_UNENCRYPTED]. *)
Definition with_delete_unencrypted (b : bool) (w : world) : world :=
  {| check := check w;
     detect_os := detect_os w;
     hostname := hostname w;
     OUTPUT_DIR := OUTPUT_DIR w;
     EXPORT_FORMAT := EXPORT_FORMAT w;
     gpg := {| Delivery.GPG_ENABLED := Delivery.GPG_ENABLED (gpg w);
               Delivery.GPG_RECIPIENT := Delivery.GPG_RECIPIENT (gpg w);
               Delivery.GPG_DELETE_UNENCRYPTED := b |};
     EMAIL_ENABLED := EMAIL_ENABLED w;
     strftime_now := strftime_now w;
     isoformat_now := isoformat_now w;
     json_dumps := json_dumps w;
     xml_tostring := xml_tostring w;
     open_for_writing := open_for_writing w;
     run_command := run_command w;
     send_email_report := send_email_report w |}.

(** The state a run starts from. *)
Definition initial (files : gmap string string) : state :=
  {| issues := []; started := []; files := files; report_file := None |}.

End Runner.

(* ===================================================================== *)
(** * The script on a machine *)
(* ===================================================================== *)

Module Machine.

Import Store.

(** [__version__] *)
Definition __version__ : string := "1.2.1".

(** A machine as one run of the script finds it: the clock, the outcome of
    every command line, the paths that exist, what reading a file gives,
    what [glob.glob] and [os.cpu_count()] return, the version check (the
    switch [DISABLE_VERSION_CHECK], the repository and the latest release
    when the request succeeds) and the thresholds in force. *)
Record machine := {
  clock : nat -> string;
  run_command : list string -> completed;
  path_exists : string -> bool;
  read_file : string -> result string;
  glob : string -> list string;
  os_cpu_count : option Z;
  version_check_disabled : bool;
  GITHUB_REPO : string;
  latest_release : option (string * string);
  limits : Checks.thresholds
}.

Definition detect_os (m : machine) : result Audit.os_info :=
  Audit.detect_os (run_command m) (path_exists m).

Definition returns (f : list issue -> list issue) (issues : list issue)
    : list issue * Runner.ending :=
  (f issues, None).

(** The function behind each call of [main], on the machine [m] with
    [OS_INFO] as [detect_os] left it.  A command line and the request for
    the latest release always have an outcome here: [run_command] and
    [check_github_releases] catch every [Exception], and an exception that
    is none (a [KeyboardInterrupt] while they wait) is not modelled. *)
Definition run_check (m : machine) (info : Audit.os_info) (c : Runner.check_id)
    : list issue -> list issue * Runner.ending :=
  let now := clock m in
  let run := run_command m in
  let there := path_exists m in
  let read := read_file m in
  match c with
  | Runner.version_update =>
      returns (Checks.check_version_update now __version__ (GITHUB_REPO m)
                 (version_check_disabled m) (latest_release m))
  | Runner.ssh_status =>
      Runner.of_result
        (Checks.check_ssh_status now (glob m) read
           (run ["systemctl"; "is-active"; "sshd"]) (there "/etc/ssh/sshd_config"))
  | Runner.wheel_group => Runner.of_result (Audit.check_wheel_group now run)
  | Runner.firewall => returns (Audit.check_firewall now run info)
  | Runner.selinux_apparmor => returns (Audit.check_selinux_apparmor now run info)
  | Runner.failed_logins => Runner.of_result (Audit.check_failed_logins now there read)
  | Runner.open_ports => returns (Audit.check_open_ports now run)
  | Runner.root_login => Runner.of_result (Audit.check_root_login now there read)
  | Runner.password_policy => Runner.of_result (Audit.check_password_policy now there read)
  | Runner.uptime => returns (Audit.check_uptime now run)
  | Runner.load_average =>
      Runner.of_result
        (Checks.check_load_average now (limits m) (read "/proc/loadavg") (os_cpu_count m))
  | Runner.memory_usage =>
      Runner.of_result (Checks.check_memory_usage now (limits m) (run ["free"; "-m"]))
  | Runner.cpu_info => Runner.of_result (Audit.check_cpu_info now there read)
  | Runner.zombie_processes => returns (Audit.check_zombie_processes now run)
  | Runner.systemd_failed => returns (Audit.check_systemd_failed now run)
  | Runner.dmesg_errors => returns (Audit.check_dmesg_errors now run)
  | Runner.filesystem_usage =>
      returns (Checks.check_filesystem_usage now (limits m) (run ["df"; "-h"]))
  | Runner.inode_usage => returns (Audit.check_inode_usage now run)
  | Runner.disk_smart => returns (Audit.check_disk_smart now run)
  | Runner.package_updates => returns (Audit.check_package_updates now run info)
  | Runner.kernel_version =>
      Runner.of_result (Audit.check_kernel_version now run there info)
  | Runner.security_updates => returns (Audit.check_security_updates now run info)
  | Runner.network_interfaces => Runner.of_result (Audit.check_network_interfaces now run)
  | Runner.dns_resolution => returns (Audit.check_dns_resolution now run)
  | Runner.default_gateway => returns (Audit.check_default_gateway now run)
  | Runner.listening_services => Runner.of_result (Audit.check_listening_services now run)
  | Runner.network_errors => returns (Audit.check_network_errors now run)
  | Runner.connectivity => returns (Audit.check_connectivity now run)
  | Runner.iscsi_service => returns (Audit.check_iscsi_service now run)
  | Runner.iscsi_sessions => returns (Audit.check_iscsi_sessions now run)
  | Runner.iscsi_multipath => returns (Audit.check_iscsi_multipath now run)
  | Runner.iscsi_targets => returns (Audit.check_iscsi_targets now run)
  | Runner.iscsi_performance => returns (Audit.check_iscsi_performance now run)
  | Runner.iscsi_timeouts => Runner.of_result (Audit.check_iscsi_timeouts now there read)
  | Runner.iscsi_errors => returns (Audit.check_iscsi_errors now run)
  end.

(** The world of [main] on the machine [m]: [detect_os] and the checks are
    the functions of the script; the reporting side (output directory,
    format, serialisers, GPG, email) is that of [w]. *)
Definition world (m : machine) (w : Runner.world) : Runner.world :=
  {| Runner.check :=
       fun c issues =>
         match detect_os m with
         | Ret info => run_check m info c issues
         | Raise e => (issues, Some e)
         end;
     Runner.detect_os :=
       match detect_os m with
       | Ret info => Ret (Audit.os_info_dict info)
       | Raise e => Raise e
       end;
     Runner.hostname := Runner.hostname w;
     Runner.OUTPUT_DIR := Runner.OUTPUT_DIR w;
     Runner.EXPORT_FORMAT := Runner.EXPORT_FORMAT w;
     Runner.gpg := Runner.gpg w;
     Runner.EMAIL_ENABLED := Runner.EMAIL_ENABLED w;
     Runner.strftime_now := Runner.strftime_now w;
     Runner.isoformat_now := Runner.isoformat_now w;
     Runner.json_dumps := Runner.json_dumps w;
     Runner.xml_tostring := Runner.xml_tostring w;
     Runner.open_for_writing := Runner.open_for_writing w;
     Runner.run_command := Runner.run_command w;
     Runner.send_email_report := Runner.send_email_report w |}.

(** Equality of checks is decidable. *)
#[export] Instance check_id_eq_dec : EqDecision Runner.check_id.
Proof. solve_decision. Defined.

(** The checks that add at least one issue on every path that returns. *)
Definition always_reports : list Runner.check_id :=
  [Runner.ssh_status; Runner.wheel_group; Runner.failed_logins; Runner.open_ports;
   Runner.root_login; Runner.password_policy;
   Runner.load_average; Runner.memory_usage; Runner.zombie_processes;
   Runner.systemd_failed; Runner.dmesg_errors;
   Runner.network_interfaces; Runner.dns_resolution; Runner.default_gateway;
   Runner.connectivity;
   Runner.iscsi_service; Runner.iscsi_sessions; Runner.iscsi_multipath;
   Runner.iscsi_performance].

(** The checks that let an exception of a file read through, and the
    memory check with its unguarded conversions and division. *)
Definition can_raise : list Runner.check_id :=
  [Runner.ssh_status; Runner.failed_logins; Runner.root_login; Runner.password_policy;
   Runner.load_average; Runner.memory_usage; Runner.cpu_info; Runner.iscsi_timeouts].

End Machine.

(* ===================================================================== *)
(** * test_health_check.py: the validators of the output files *)
(* ===================================================================== *)

Module Tests.

Import Report.

(** [field in data] and [data[key]] on a loaded JSON value that is an
    object; on any other value the validator ends in its
    [except Exception] branch or on a missing field. *)
Definition validate_json_output (data : json) : bool :=
  match data with
  | JDict members =>
      (* Check required fields *)
      forallb (fun field => bool_decide (is_Some (dict_get String.eqb field members)))
        ["hostname"; "timestamp"; "os_info"; "summary"; "issues"]
      (* Validate issues structure *)
      && match dict_get String.eqb "issues" members with
         | Some (JList _) => true
         | _ => false
         end
  | _ => false
  end.

Definition tag_of (e : element) : string :=
  match e with Element tag _ _ _ => tag end.

Definition children_of (e : element) : list element :=
  match e with Element _ _ _ children => children end.

(** [e.find(tag)] and [e.findall(tag)] for a plain tag: the children with
    that tag, the first of them. *)
Definition findall (tag : string) (e : element) : list element :=
  List.filter (fun child => String.eqb (tag_of child) tag) (children_of e).

Definition find (tag : string) (e : element) : option element :=
  head (findall tag e).

(** [validate_xml_output] on the root of the parsed tree: the number of
    issues it prints when the file passes, [None] when it fails. *)
Definition validate_xml_output (root : element) : option nat :=
  if negb (String.eqb (tag_of root) "health_check_report") then None
  else
    (* Check for required elements *)
    match find "metadata" root, find "summary" root, find "issues" root with
    | Some _, Some _, Some issues => Some (length (findall "issue" issues))
    | _, _, _ => None
    end.

(** [validate_markdown_output] on the content of the file. *)
Definition validate_markdown_output (content : string) : bool :=
  (* Check for required sections *)
  forallb (fun section => Py.contains section content)
    ["# Linux Health Check Report"; "## Summary"; "**Hostname:**"; "**Date:**"].

End Tests.

(* ===================================================================== *)
(** * Concrete inputs used by the examples *)
(* ===================================================================== *)

Module Sample.

Import Store Checks.

(** A clock that reads the same instant at every call. *)
Definition clock : nat -> string := fun _ => "2024-05-01T10:00:00".

(** An environment that sets the filesystem thresholds to 85/98 and the
    load multipliers to 0.7/1.0, and no configuration file. *)
Definition environment : Config.settings :=
  {| Config.environ :=
       {[ "FILESYSTEM_WARNING" := "85"; "FILESYSTEM_CRITICAL" := "98";
          "LOAD_WARNING" := "70"; "LOAD_CRITICAL" := "100" ]};
     Config._has_config := false;
     Config._config := None |}.

(** A configuration file with [enabled = maybe] in section
    [version_check], and an empty environment. *)
Definition settings_maybe : Config.settings :=
  {| Config.environ := ∅;
     Config._has_config := true;
     Config._config := Some {[ ("version_check", "enabled") := Config.Text "maybe" ]} |}.

(** The thresholds that environment gives: filesystem 85/98, memory 80/90
    (the defaults), load 0.7/1.0. *)
Definition limits : thresholds :=
  {| FILESYSTEM_WARNING_THRESHOLD := 85;
     FILESYSTEM_CRITICAL_THRESHOLD := 98;
     MEMORY_WARNING_THRESHOLD := 80;
     MEMORY_CRITICAL_THRESHOLD := 90;
     LOAD_WARNING_MULTIPLIER := PrimFloat.div 70 100;
     LOAD_CRITICAL_MULTIPLIER := PrimFloat.div 100 100 |}.

(** Rows of [df -h]. *)
Definition df_row_97 : string := "/dev/sda1        50G   48G  1.5G  97% /".
Definition df_row_tmpfs : string := "tmpfs           7.8G  7.7G  100M  99% /dev/shm".

Definition df_output : string :=
  "Filesystem      Size  Used Avail Use% Mounted on" +:+ Py.nl +:+
  df_row_tmpfs +:+ Py.nl +:+ df_row_97 +:+ Py.nl.

(** Output of [free -m] with the given total and used columns. *)
Definition free_output (total used : string) : string :=
  "               total        used        free      shared  buff/cache   available"
  +:+ Py.nl +:+ "Mem:  " +:+ total +:+ "   " +:+ used +:+ "   10   0   0   10"
  +:+ Py.nl +:+ "Swap:  0   0   0" +:+ Py.nl.

(** The start of [/proc/loadavg] on a machine under load. *)
Definition loadavg : string := "4.00 2.00 1.00 5/180 12345" +:+ Py.nl.

(** An [sshd_config] with an enabled directive followed by a commented one. *)
Definition sshd_config : string :=
  "PasswordAuthentication yes" +:+ Py.nl +:+ "#PasswordAuthentication no" +:+ Py.nl.


Definition sshd_active : completed := Completed 0 ("active" +:+ Py.nl) "".

(** A machine on which every file holds [sshd_config] and no
    [authorized_keys] file exists. *)
Definition no_files : string -> list string := fun _ => [].
Definition read_sshd_config : string -> result string := fun _ => Ret sshd_config.

(** A machine with [gpg] installed: [which] succeeds and [gpg] writes the
    file named after [--output]. *)
Definition gpg_works (cmd : list string) (files : gmap string string)
    : completed * gmap string string :=
  match cmd with
  | "gpg" :: _ =>
      match nth_error cmd 8, nth_error cmd 7 with
      | Some input, Some output =>
          match files !! input with
          | Some text => (Completed 0 "" "", <[output := "encrypted " +:+ text]> files)
          | None => (Completed 2 "" "gpg: can't open input", files)
          end
      | _, _ => (Completed 2 "" "usage", files)
      end
  | _ => (Completed 0 "/usr/bin/gpg" "", files)
  end.

(** A machine without [gpg]. *)
Definition gpg_missing (cmd : list string) (files : gmap string string)
    : completed * gmap string string :=
  (Completed 1 "" "", files).

Definition gpg_on (delete_unencrypted : bool) : Delivery.gpg_config :=
  {| Delivery.GPG_ENABLED := true;
     Delivery.GPG_RECIPIENT := "root@localhost";
     Delivery.GPG_DELETE_UNENCRYPTED := delete_unencrypted |}.

Definition report_path : string := "/tmp/health_report_host.md".

Definition one_report : gmap string string := {[ report_path := "# report" ]}.

(** A machine for whole runs.  The latest release is the running version,
    the SSH daemon runs with [sshd_config], the load averages are those of
    [loadavg] on 4 CPUs, [free -m] prints the given total and used memory
    and [df -h] prints [df_output]; the other checks find nothing to
    report.  The report is Markdown,
    written to [/tmp]; encryption and mail are off. *)
Definition machine (total used : string) : Runner.world :=
  {| Runner.check := fun c =>
       match c with
       | Runner.version_update =>
           fun issues =>
             (check_version_update clock "1.2.1" "0xgruber/linux-health-checks" false
                (Some ("v1.2.1", "https://github.com/0xgruber/linux-health-checks/releases"))
                issues, None)
       | Runner.ssh_status =>
           Runner.of_result
             (check_ssh_status clock no_files read_sshd_config sshd_active true)
       | Runner.load_average =>
           Runner.of_result (check_load_average clock limits (Ret loadavg) (Some 4))
       | Runner.memory_usage =>
           Runner.of_result
             (check_memory_usage clock limits (Completed 0 (free_output total used) ""))
       | Runner.filesystem_usage =>
           fun issues =>
             (check_filesystem_usage clock limits (Completed 0 df_output "") issues, None)
       | _ => fun issues => (issues, None)
       end;
     Runner.detect_os := Ret [("distribution", Some "debian"); ("version", Some "12")];
     Runner.hostname := "host";
     Runner.OUTPUT_DIR := "/tmp";
     Runner.EXPORT_FORMAT := None;
     Runner.gpg := gpg_on false;
     Runner.EMAIL_ENABLED := false;
     Runner.strftime_now := "2024-05-01 10:00:00";
     Runner.isoformat_now := "2024-05-01T10:00:00";
     Runner.json_dumps := fun _ => EmptyString;
     Runner.xml_tostring := fun _ => EmptyString;
     Runner.open_for_writing := fun _ => None;
     Runner.run_command := gpg_missing;
     Runner.send_email_report := fun _ _ => None |}.

End Sample.

(* ===================================================================== *)
(** * Machines used by the examples *)
(* ===================================================================== *)

Module Scenario.

Import Store.

(** What [run_command] returns for a command that is not installed. *)
Definition not_found (cmd : list string) : completed :=
  Completed (-1) "" ("Command not found: " +:+ hd EmptyString cmd).

(** What a read gives for a path that does not exist. *)
Definition no_such_file (path : string) : result string :=
  Raise (Exn OSError ("[Errno 2] No such file or directory: " +:+ Py.repr_str path)).

(** A machine on which nothing the script looks for is there: no command
    is installed, no path exists, the version check is switched off. *)
Definition bare : Machine.machine :=
  {| Machine.clock := Sample.clock;
     Machine.run_command := not_found;
     Machine.path_exists := fun _ => false;
     Machine.read_file := no_such_file;
     Machine.glob := fun _ => [];
     Machine.os_cpu_count := None;
     Machine.version_check_disabled := true;
     Machine.GITHUB_REPO := "0xgruber/linux-health-checks";
     Machine.latest_release := None;
     Machine.limits := Sample.limits |}.

(** The same machine with the commands of [commands] installed; a command
    line that is not listed is not found. *)
Definition with_commands (commands : list (list string * completed)) (m : Machine.machine)
    : Machine.machine :=
  {| Machine.clock := Machine.clock m;
     Machine.run_command :=
       fun cmd =>
         match Report.dict_get (fun a b => bool_decide (a = b)) cmd commands with
         | Some outcome => outcome
         | None => Machine.run_command m cmd
         end;
     Machine.path_exists := Machine.path_exists m;
     Machine.read_file := Machine.read_file m;
     Machine.glob := Machine.glob m;
     Machine.os_cpu_count := Machine.os_cpu_count m;
     Machine.version_check_disabled := Machine.version_check_disabled m;
     Machine.GITHUB_REPO := Machine.GITHUB_REPO m;
     Machine.latest_release := Machine.latest_release m;
     Machine.limits := Machine.limits m |}.

(** The same machine with the files of [files]: each exists and reads as
    given. *)
Definition with_files (files : list (string * string)) (m : Machine.machine)
    : Machine.machine :=
  {| Machine.clock := Machine.clock m;
     Machine.run_command := Machine.run_command m;
     Machine.path_exists :=
       fun path =>
         match Report.dict_get String.eqb path files with
         | Some _ => true
         | None => Machine.path_exists m path
         end;
     Machine.read_file :=
       fun path =>
         match Report.dict_get String.eqb path files with
         | Some text => Ret text
         | None => Machine.read_file m path
         end;
     Machine.glob := Machine.glob m;
     Machine.os_cpu_count := Machine.os_cpu_count m;
     Machine.version_check_disabled := Machine.version_check_disabled m;
     Machine.GITHUB_REPO := Machine.GITHUB_REPO m;
     Machine.latest_release := Machine.latest_release m;
     Machine.limits := Machine.limits m |}.

(** A [free] that reports a total of zero. *)
Definition no_memory : Machine.machine :=
  with_commands [(["free"; "-m"], Completed 0 (Sample.free_output "0" "0") "")] bare.

(** An RPM machine with two kernels installed that runs the newer one,
    and [OS_INFO] as it would be there. *)
Definition rocky : Machine.machine :=
  with_commands
    [(["uname"; "-r"], Completed 0 ("5.14.0-362.el9.x86_64" +:+ Py.nl) "");
     (["rpm"; "-q"; "kernel"],
      Completed 0
        ("kernel-5.14.0-284.el9.x86_64" +:+ Py.nl
           +:+ "kernel-5.14.0-362.el9.x86_64" +:+ Py.nl) "")]
    bare.

Definition rocky_info : Audit.os_info :=
  {| Audit.distribution := "rocky";
     Audit.version := "9.3";
     Audit.package_manager := Some "rpm";
     Audit.firewall := None;
     Audit.security_framework := None |}.

(** No configuration file and an empty environment. *)
Definition no_settings : Config.settings :=
  {| Config.environ := ∅; Config._has_config := false; Config._config := None |}.

(** No configuration file, and the variables the example configuration
    names in its section on environment overrides. *)
Definition documented_names : Config.settings :=
  {| Config.environ :=
       {[ "EMAIL_ENABLED" := "True"; "SMTP_PASSWORD" := "secret-password";
          "FILESYSTEM_WARNING_THRESHOLD" := "90" ]};
     Config._has_config := false;
     Config._config := None |}.

(** The reporting side: Markdown into [/tmp], no encryption, no email. *)
Definition reporting : Runner.world := Sample.machine "100" "50".

End Scenario.

(* ===================================================================== *)
(** * Properties *)
(* ===================================================================== *)

Example split_on_ex : Py.split_on "." "v1.2..3" = ["v1"; "2"; ""; "3"].
Proof. reflexivity. Qed.

Example split_ws_ex :
  Py.split_ws "  /dev/sda1   50G  97% /  " = ["/dev/sda1"; "50G"; "97%"; "/"].
Proof. reflexivity. Qed.

Example int_of_str_ex :
  map Py.int_of_str [" 42 "; "-7"; "+0"; "1_000"; "1__0"; "_1"; ""; "4 2"; "0x10"; "007"]
  = [Some 42; Some (-7); Some 0; Some 1000; None; None; None; None; None; Some 7].
Proof. reflexivity. Qed.

Example str_of_int_ex : map Py.str_of_int [0; 12; -305] = ["0"; "12"; "-305"].
Proof. reflexivity. Qed.

(** ** Facts about the text primitives *)

Section PyFacts.

Lemma digit_not_int_space c : Py.is_digit c = true -> Py.is_int_space c = false.
Proof.
  unfold Py.is_digit, Py.is_int_space. intros H.
  apply andb_true_iff in H as [H1 H2].
  apply N.leb_le in H1. apply N.leb_le in H2.
  apply orb_false_iff. split.
  - apply andb_false_iff. right. apply N.leb_gt. lia.
  - apply N.eqb_neq. lia.
Qed.

Lemma digit_neq c k :
  Py.is_digit c = true -> Py.is_digit k = false -> Ascii.eqb c k = false.
Proof.
  intros Hc Hk. destruct (Ascii.eqb_spec c k) as [->|]; [congruence | reflexivity].
Qed.

Lemma lstrip_by_head f c r : f c = false -> Py.lstrip_by f (String c r) = String c r.
Proof. intros H. simpl. now rewrite H. Qed.

Lemma rstrip_by_none f s :
  Py.all_chars (fun c => negb (f c)) s = true -> Py.rstrip_by f s = s.
Proof.
  induction s as [|c r IH]; simpl; [reflexivity|].
  intros H. apply andb_true_iff in H as [Hc Hr].
  rewrite (IH Hr). destruct r; [|reflexivity].
  apply negb_true_iff in Hc. now rewrite Hc.
Qed.

Lemma all_chars_impl (f g : ascii -> bool) s :
  (forall c, f c = true -> g c = true) ->
  Py.all_chars f s = true -> Py.all_chars g s = true.
Proof.
  intros Hfg. induction s as [|c r IH]; simpl; [reflexivity|].
  intros H. apply andb_true_iff in H as [Hc Hr].
  now rewrite (Hfg _ Hc), (IH Hr).
Qed.

Lemma append_assoc (a b c : string) : (a +:+ b) +:+ c = a +:+ (b +:+ c).
Proof.
  induction a as [|x a IH]; [reflexivity|].
  change (String x ((a +:+ b) +:+ c) = String x (a +:+ (b +:+ c))).
  now rewrite IH.
Qed.

Lemma all_chars_app f s t :
  Py.all_chars f (s +:+ t) = Py.all_chars f s && Py.all_chars f t.
Proof. induction s as [|c r IH]; simpl; [reflexivity|]. now rewrite IH, andb_assoc. Qed.

(** Splitting: a separator-free prefix becomes the first field. *)
Lemma split_on_nonempty sep s : Py.split_on sep s <> [].
Proof.
  destruct s as [|c r]; simpl; [discriminate|].
  destruct (Ascii.eqb c sep); [discriminate|].
  destruct (Py.split_on sep r); discriminate.
Qed.

Lemma split_on_prefix sep s rest :
  Py.all_chars (fun c => negb (Ascii.eqb c sep)) s = true ->
  Py.split_on sep (s +:+ String sep rest) = s :: Py.split_on sep rest.
Proof.
  induction s as [|c r IH]; simpl.
  - intros _. now rewrite Ascii.eqb_refl.
  - intros H. apply andb_true_iff in H as [Hc Hr].
    apply negb_true_iff in Hc. rewrite Hc, (IH Hr). reflexivity.
Qed.

Lemma split_on_single sep s :
  Py.all_chars (fun c => negb (Ascii.eqb c sep)) s = true ->
  Py.split_on sep s = [s].
Proof.
  induction s as [|c r IH]; simpl; [reflexivity|].
  intros H. apply andb_true_iff in H as [Hc Hr].
  apply negb_true_iff in Hc. rewrite Hc, (IH Hr). reflexivity.
Qed.

(** Decimal rendering produces digits only. *)
Lemma string_of_uint_digits d :
  Py.all_chars Py.is_digit (NilEmpty.string_of_uint d) = true.
Proof. induction d; simpl; auto. Qed.

Lemma string_of_pos_nonempty p :
  exists c r, NilEmpty.string_of_uint (Pos.to_uint p) = String c r /\ Py.is_digit c = true.
Proof.
  pose proof (Unsigned.to_uint_nonnil p) as Hn.
  pose proof (string_of_uint_digits (Pos.to_uint p)) as Hd.
  destruct (Pos.to_uint p) eqn:E; try congruence; simpl in *;
    eexists _, _; split; try reflexivity; reflexivity.
Qed.

Lemma int_digits_pos d acc :
  Py.int_digits (Zpos acc) true (NilEmpty.string_of_uint d)
  = Some (Zpos (Pos.of_uint_acc d acc)).
Proof.
  revert acc. induction d; intros acc; simpl; try reflexivity;
    match goal with
    | |- Py.int_digits ?z true _ = Some (Zpos (Pos.of_uint_acc _ ?q)) =>
        replace z with (Zpos q) by (unfold Py.digit_val; simpl; lia); apply IHd
    end.
Qed.

Lemma int_digits_zero d :
  Py.int_digits 0 true (NilEmpty.string_of_uint d) = Some (Z.of_N (Pos.of_uint d)).
Proof.
  induction d; simpl; try reflexivity; try assumption;
    match goal with
    | |- Py.int_digits ?z true _ = Some (Zpos (Pos.of_uint_acc _ ?q)) =>
        replace z with (Zpos q) by (unfold Py.digit_val; simpl; lia);
        apply int_digits_pos
    end.
Qed.

Lemma int_digits_start d :
  d <> Decimal.Nil ->
  Py.int_digits 0 false (NilEmpty.string_of_uint d) = Some (Z.of_N (Pos.of_uint d)).
Proof.
  intros Hd. rewrite <- int_digits_zero. destruct d; try congruence; reflexivity.
Qed.

Lemma int_digits_of_pos p :
  Py.int_digits 0 false (NilEmpty.string_of_uint (Pos.to_uint p)) = Some (Zpos p).
Proof.
  rewrite int_digits_start by apply Unsigned.to_uint_nonnil.
  now rewrite DecimalPos.Unsigned.of_to.
Qed.

Lemma strip_digits s :
  Py.all_chars Py.is_digit s = true -> Py.strip_by Py.is_int_space s = s.
Proof.
  intros H. unfold Py.strip_by.
  assert (Hl : Py.lstrip_by Py.is_int_space s = s).
  { destruct s as [|c r]; [reflexivity|]. simpl in H.
    apply andb_true_iff in H as [Hc _].
    apply lstrip_by_head. now apply digit_not_int_space. }
  rewrite Hl. apply rstrip_by_none.
  eapply all_chars_impl; [|exact H].
  intros c Hc. simpl. now rewrite digit_not_int_space.
Qed.

(** [int(str(n)) == n] *)
Lemma int_of_str_of_int n : Py.int_of_str (Py.str_of_int n) = Some n.
Proof.
  destruct n as [|p|p]; [reflexivity| |].
  - unfold Py.int_of_str, Py.str_of_int.
    rewrite strip_digits by apply string_of_uint_digits.
    destruct (string_of_pos_nonempty p) as (c & r & E & Hc).
    pose proof (int_digits_of_pos p) as Hp. rewrite E in *.
    assert (Hm : Ascii.eqb c "-" = false) by (apply digit_neq; auto).
    assert (Hq : Ascii.eqb c "+" = false) by (apply digit_neq; auto).
    apply Ascii.eqb_neq in Hm, Hq.
    destruct c as [[] [] [] [] [] [] [] []]; try exact Hp; congruence.
  - unfold Py.int_of_str, Py.str_of_int, Py.strip_by.
    rewrite lstrip_by_head by reflexivity.
    assert (Hr : Py.rstrip_by Py.is_int_space
                   (String "-" (NilEmpty.string_of_uint (Pos.to_uint p)))
                 = String "-" (NilEmpty.string_of_uint (Pos.to_uint p))).
    { apply rstrip_by_none. simpl.
      eapply all_chars_impl; [|apply string_of_uint_digits].
      intros c Hc. simpl. now rewrite digit_not_int_space. }
    rewrite Hr. rewrite int_digits_of_pos. reflexivity.
Qed.

End PyFacts.

(** ** Version comparator *)

Example parse_docstring_examples :
  map Version.parse_semantic_version
    ["1.2.3"; "v1.2.3"; "invalid"; "1.2"; "1.2.3.4"; "1.-2.3"; "1.2.x"; ""]
  = [Some (1, 2, 3); Some (1, 2, 3); None; None; None; None; None; None].
Proof. reflexivity. Qed.

Example compare_docstring_examples :
  Version.compare_versions (1, 0, 0) (1, 1, 0) = -1 /\
  Version.compare_versions (1, 1, 0) (1, 1, 0) = 0 /\
  Version.compare_versions (1, 2, 0) (1, 1, 0) = 1.
Proof. repeat split; reflexivity. Qed.

(** The update notice: a newer release adds one INFO issue; the same
    release, an unreadable tag, a failed request and a disabled check add
    nothing. *)
Example check_version_update_scenarios :
  map Store.severity_of
    (Checks.check_version_update Sample.clock "1.2.1" "0xgruber/linux-health-checks" false
       (Some ("v1.3.0", "https://example.org/release")) []) = [Store.INFO] /\
  Checks.check_version_update Sample.clock "1.2.1" "0xgruber/linux-health-checks" false
    (Some ("v1.2.1", "https://example.org/release")) [] = [] /\
  Checks.check_version_update Sample.clock "1.2.1" "0xgruber/linux-health-checks" false
    (Some ("bogus", "https://example.org/release")) [] = [] /\
  Checks.check_version_update Sample.clock "1.2.1" "0xgruber/linux-health-checks" false
    None [] = [] /\
  Checks.check_version_update Sample.clock "1.2.1" "0xgruber/linux-health-checks" true
    (Some ("v1.3.0", "https://example.org/release")) [] = [].
Proof. repeat split; reflexivity. Qed.

Section VersionFacts.

Import Version.

Lemma str_of_int_digits n :
  0 <= n -> Py.all_chars Py.is_digit (Py.str_of_int n) = true.
Proof.
  destruct n as [|p|p]; intros Hn; [reflexivity| |lia].
  apply string_of_uint_digits.
Qed.

Lemma str_of_int_head n :
  0 <= n -> exists c r, Py.str_of_int n = String c r /\ Py.is_digit c = true.
Proof.
  destruct n as [|p|p]; intros Hn; [|apply string_of_pos_nonempty|lia].
  now exists "0"%char, EmptyString.
Qed.

Lemma digits_no_sep k s :
  Py.is_digit k = false ->
  Py.all_chars Py.is_digit s = true ->
  Py.all_chars (fun c => negb (Ascii.eqb c k)) s = true.
Proof.
  intros Hk. apply all_chars_impl. intros c Hc.
  now rewrite (digit_neq c k Hc Hk).
Qed.

(** Three digit fields joined by dots split back into the fields, and a
    leading digit stops [lstrip]. *)
Lemma split_dotted_fields s1 s2 s3 :
  s1 <> EmptyString ->
  Py.all_chars Py.is_digit s1 = true ->
  Py.all_chars Py.is_digit s2 = true ->
  Py.all_chars Py.is_digit s3 = true ->
  Py.split_on "." (Py.lstrip_char "v" (s1 +:+ "." +:+ s2 +:+ "." +:+ s3))
  = [s1; s2; s3].
Proof.
  intros Hne H1 H2 H3.
  assert (Hl : Py.lstrip_char "v" (s1 +:+ "." +:+ s2 +:+ "." +:+ s3)
               = s1 +:+ "." +:+ s2 +:+ "." +:+ s3).
  { destruct s1 as [|c r]; [congruence|]. simpl in H1.
    apply andb_true_iff in H1 as [Hc _].
    apply lstrip_by_head. rewrite Ascii.eqb_sym. now apply digit_neq. }
  rewrite Hl.
  change (s1 +:+ "." +:+ s2 +:+ "." +:+ s3)
    with (s1 +:+ String "." (s2 +:+ String "." s3)).
  rewrite !split_on_prefix by (apply digits_no_sep; auto).
  rewrite split_on_single by (apply digits_no_sep; auto).
  reflexivity.
Qed.

Lemma split_version_string major minor patch :
  0 <= major -> 0 <= minor -> 0 <= patch ->
  Py.split_on "." (Py.lstrip_char "v" (version_string (major, minor, patch)))
  = [Py.str_of_int major; Py.str_of_int minor; Py.str_of_int patch].
Proof.
  intros H1 H2 H3. unfold version_string.
  apply split_dotted_fields; auto using str_of_int_digits.
  destruct (str_of_int_head major H1) as (c & r & E & _). now rewrite E.
Qed.

Lemma parse_version_string v :
  valid v -> parse_semantic_version (version_string v) = Some v.
Proof.
  destruct v as [[major minor] patch]. intros (H1 & H2 & H3).
  unfold parse_semantic_version.
  rewrite split_version_string by assumption. simpl.
  rewrite !int_of_str_of_int. simpl.
  destruct (Z.ltb_spec major 0); [lia|].
  destruct (Z.ltb_spec minor 0); [lia|].
  destruct (Z.ltb_spec patch 0); [lia|].
  reflexivity.
Qed.

Lemma tuple_lt_lex a b : tuple_lt a b = true <-> lex_lt a b.
Proof.
  destruct a as [[a1 a2] a3], b as [[b1 b2] b3]. unfold tuple_lt, lex_lt.
  destruct (Z.eqb_spec a1 b1), (Z.eqb_spec a2 b2); simpl;
    rewrite Z.ltb_lt; lia.
Qed.

Lemma tuple_eq_iff a b : tuple_eq a b = true <-> a = b.
Proof.
  destruct a as [[a1 a2] a3], b as [[b1 b2] b3]. unfold tuple_eq.
  rewrite !andb_true_iff, !Z.eqb_eq. split.
  - intros [[-> ->] ->]. reflexivity.
  - intros [= -> -> ->]. auto.
Qed.

(** The three outcomes of [compare_versions], each with its meaning. *)
Lemma compare_versions_cases a b :
  (compare_versions a b = -1 /\ lex_lt a b) \/
  (compare_versions a b = 0 /\ a = b) \/
  (compare_versions a b = 1 /\ lex_lt b a).
Proof.
  unfold compare_versions.
  destruct (tuple_lt a b) eqn:Hlt.
  - left. split; [reflexivity|]. now apply tuple_lt_lex.
  - destruct (tuple_eq a b) eqn:Heq.
    + right; left. split; [reflexivity|]. now apply tuple_eq_iff.
    + right; right. split; [reflexivity|].
      assert (Hn : ~ lex_lt a b) by (rewrite <- tuple_lt_lex; congruence).
      assert (Hd : a <> b) by (rewrite <- tuple_eq_iff; congruence).
      destruct a as [[a1 a2] a3], b as [[b1 b2] b3]. unfold lex_lt in *.
      assert (a1 <> b1 \/ a2 <> b2 \/ a3 <> b3).
      { destruct (Z.eq_dec a1 b1), (Z.eq_dec a2 b2), (Z.eq_dec a3 b3);
          subst; auto; congruence. }
      lia.
Qed.

Lemma lex_lt_irrefl a : ~ lex_lt a a.
Proof. destruct a as [[a1 a2] a3]. unfold lex_lt. lia. Qed.

Lemma lex_lt_asym a b : lex_lt a b -> ~ lex_lt b a.
Proof.
  destruct a as [[a1 a2] a3], b as [[b1 b2] b3]. unfold lex_lt. lia.
Qed.

Lemma lex_lt_trans a b c : lex_lt a b -> lex_lt b c -> lex_lt a c.
Proof.
  destruct a as [[a1 a2] a3], b as [[b1 b2] b3], c as [[c1 c2] c3].
  unfold lex_lt. lia.
Qed.

Lemma compare_lt_iff a b : compare_versions a b = -1 <-> lex_lt a b.
Proof.
  destruct (compare_versions_cases a b) as [[E H]|[[E H]|[E H]]]; rewrite E.
  - tauto.
  - subst. split; [discriminate|]. intros F. now apply lex_lt_irrefl in F.
  - split; [discriminate|]. intros F. now apply lex_lt_asym in F.
Qed.

Lemma compare_eq_iff a b : compare_versions a b = 0 <-> a = b.
Proof.
  destruct (compare_versions_cases a b) as [[E H]|[[E H]|[E H]]]; rewrite E.
  - split; [discriminate|]. intros ->. now apply lex_lt_irrefl in H.
  - tauto.
  - split; [discriminate|]. intros ->. now apply lex_lt_irrefl in H.
Qed.

Lemma compare_antisym a b : compare_versions a b = - compare_versions b a.
Proof.
  destruct (compare_versions_cases a b) as [[E H]|[[E H]|[E H]]];
  destruct (compare_versions_cases b a) as [[E' H']|[[E' H']|[E' H']]];
    rewrite E, E'; try reflexivity; subst;
    try (exfalso; eapply lex_lt_irrefl; eassumption);
    try (exfalso; eapply lex_lt_asym; eassumption).
Qed.

Lemma compare_trans a b c r :
  compare_versions a b = r -> compare_versions b c = r -> compare_versions a c = r.
Proof.
  intros Hab Hbc.
  destruct (compare_versions_cases a b) as [[E H]|[[E H]|[E H]]];
  destruct (compare_versions_cases b c) as [[E' H']|[[E' H']|[E' H']]];
    rewrite E in Hab; rewrite E' in Hbc; subst r; try discriminate.
  - apply compare_lt_iff. eapply lex_lt_trans; eassumption.
  - subst. now apply compare_eq_iff.
  - rewrite compare_antisym.
    assert (Hca : compare_versions c a = -1).
    { apply compare_lt_iff. eapply lex_lt_trans; eassumption. }
    now rewrite Hca.
Qed.

(** Where the parser and the specification's wording part ways: only on
    texts that begin with two [v]. *)
Lemma lstrip_v_once s :
  (forall r, s <> String "v" (String "v" r)) ->
  Py.lstrip_char "v" s = strip_one_v s.
Proof.
  intros Hvv. destruct s as [|c s]; [reflexivity|].
  unfold Py.lstrip_char. cbn [Py.lstrip_by].
  destruct (Ascii.eqb "v" c) eqn:Ec.
  - apply Ascii.eqb_eq in Ec. subst c.
    change (strip_one_v (String "v" s)) with s.
    destruct s as [|d s]; [reflexivity|]. cbn [Py.lstrip_by].
    destruct (Ascii.eqb "v" d) eqn:Ed; [|reflexivity].
    apply Ascii.eqb_eq in Ed. subst d. now specialize (Hvv s).
  - apply Ascii.eqb_neq in Ec.
    destruct c as [[] [] [] [] [] [] [] []]; try reflexivity. congruence.
Qed.

Lemma parse_body_spec t :
  (if negb (Nat.eqb (length (Py.split_on "." t)) 3) then None
   else
     match ints_of (Py.split_on "." t) with
     | Some [major; minor; patch] =>
         if (major <? 0) || (minor <? 0) || (patch <? 0) then None
         else Some (major, minor, patch)
     | _ => None
     end)
  = match Py.split_on "." t with
    | [p1; p2; p3] =>
        match Py.int_of_str p1, Py.int_of_str p2, Py.int_of_str p3 with
        | Some major, Some minor, Some patch =>
            if (0 <=? major) && (0 <=? minor) && (0 <=? patch)
            then Some (major, minor, patch) else None
        | _, _, _ => None
        end
    | _ => None
    end.
Proof.
  destruct (Py.split_on "." t) as [|p1 [|p2 [|p3 [|p4 l]]]]; try reflexivity.
  simpl. destruct (Py.int_of_str p1) as [major|]; [|reflexivity].
  destruct (Py.int_of_str p2) as [minor|]; [|reflexivity].
  destruct (Py.int_of_str p3) as [patch|]; [|reflexivity].
  simpl.
  destruct (Z.ltb_spec major 0), (Z.ltb_spec minor 0), (Z.ltb_spec patch 0),
    (Z.leb_spec 0 major), (Z.leb_spec 0 minor), (Z.leb_spec 0 patch);
    simpl; try reflexivity; lia.
Qed.

Lemma parse_agrees_with_spec s :
  (forall r, s <> String "v" (String "v" r)) ->
  parse_semantic_version s = parse_spec s.
Proof.
  intros Hvv. unfold parse_semantic_version, parse_spec.
  rewrite (lstrip_v_once s Hvv). apply parse_body_spec.
Qed.

End VersionFacts.

(** C8. [compare_versions] is a strict total order that agrees with the
    lexicographic order on triples: its value is -1, 0 or 1; swapping the
    arguments negates it; it is 0 exactly on equal triples and -1 exactly
    when the first triple is lexicographically smaller; it is transitive
    (two comparisons with the same outcome compose to that outcome).
    Moreover a valid version rendered as major.minor.patch parses back to
    itself. *)
Theorem compare_order_and_parse_roundtrip (a b c v : Version.version) :
  (Version.compare_versions a b = -1 \/ Version.compare_versions a b = 0
   \/ Version.compare_versions a b = 1) /\
  Version.compare_versions a b = - Version.compare_versions b a /\
  (Version.compare_versions a b = 0 <-> a = b) /\
  (Version.compare_versions a b = -1 <-> Version.lex_lt a b) /\
  (forall r, Version.compare_versions a b = r -> Version.compare_versions b c = r ->
   Version.compare_versions a c = r) /\
  (Version.valid v ->
   Version.parse_semantic_version (Version.version_string v) = Some v).
Proof.
  repeat split.
  - destruct (compare_versions_cases a b) as [[E _]|[[E _]|[E _]]]; auto.
  - apply compare_antisym.
  - apply compare_eq_iff.
  - apply compare_eq_iff.
  - apply compare_lt_iff.
  - apply compare_lt_iff.
  - intros r. apply compare_trans.
  - apply parse_version_string.
Qed.

Lemma compare_order_and_parse_roundtrip_witness :
  Version.valid (1, 2, 1) /\
  Version.compare_versions (1, 2, 1) (1, 3, 0) = -1 /\
  Version.compare_versions (1, 3, 0) (2, 0, 0) = -1 /\
  Version.compare_versions (1, 2, 1) (2, 0, 0) = -1 /\
  Version.parse_semantic_version (Version.version_string (1, 2, 1)) = Some (1, 2, 1).
Proof.
  assert (Hv : Version.valid (1, 2, 1)) by (simpl; lia).
  pose proof (compare_order_and_parse_roundtrip (1, 2, 1) (1, 3, 0) (2, 0, 0) (1, 2, 1))
    as (_ & _ & _ & _ & Htrans & Hround).
  split; [exact Hv|].
  split; [reflexivity|]. split; [reflexivity|].
  split; [exact (Htrans (-1) eq_refl eq_refl) | exact (Hround Hv)].
Defined.

(** C7.  The parser removes every leading [v], not just one: the tag
    [vv1.2.3] is accepted as version 1.2.3, whereas stripping one optional
    [v] leaves the segment [v1], which is no integer.  On every text that
    does not begin with two [v] the parser does what the specification
    says: one optional [v] removed, exactly three dot-separated segments,
    each read by [int] as a non-negative integer, and no exception. *)
Theorem parse_strips_every_leading_v :
  Version.parse_semantic_version "vv1.2.3" = Some (1, 2, 3) /\
  Version.parse_spec "vv1.2.3" = None /\
  (forall s, (forall r, s <> String "v" (String "v" r)) ->
             Version.parse_semantic_version s = Version.parse_spec s).
Proof. split; [reflexivity|]. split; [reflexivity|]. apply parse_agrees_with_spec. Qed.

Lemma parse_strips_every_leading_v_witness :
  Version.parse_semantic_version "v1.2.3" = Version.parse_spec "v1.2.3".
Proof.
  refine (proj2 (proj2 parse_strips_every_leading_v) "v1.2.3" _).
  intros r. discriminate.
Defined.

(** ** Configuration resolver *)

Section ConfigFacts.

Import Config.

(** The environment [try] block: what it yields is the specification's
    coercion, a [ValueError] being swallowed. *)
Lemma attempt_env_coerce ty env_val :
  attempt (env_coerce ty env_val) [ValueError; TypeError]
  = Ret (spec_coerce ty env_val).
Proof.
  destruct ty; simpl; try reflexivity.
  - unfold Py.int_call. now destruct (Py.int_of_str env_val).
  - unfold PyFloat.float_call. now destruct (PyFloat.of_str env_val).
Qed.

(** The file [try] block on an option that holds text. *)
Lemma attempt_file_coerce c section key ty s :
  c !! (section, Py.lower key) = Some (Text s) ->
  attempt (file_coerce c section key ty)
          [ValueError; TypeError; ConfigParserError]
  = Ret (file_spec_coerce ty s).
Proof.
  intros Hs.
  destruct ty; unfold file_coerce, file_spec_coerce, spec_coerce, get;
    rewrite Hs; cbn [bind].
  - reflexivity.
  - unfold Py.int_call. now destruct (Py.int_of_str s).
  - unfold PyFloat.float_call. now destruct (PyFloat.of_str s).
  - unfold convert_to_boolean.
    destruct (Py.str_in (Py.lower s) ["1"; "yes"; "true"; "on"]); [reflexivity|].
    now destruct (Py.str_in (Py.lower s) ["0"; "no"; "false"; "off"]).
Qed.

(** The file [try] block on an option whose [get] raises. *)
Lemma attempt_file_malformed c section key ty :
  c !! (section, Py.lower key) = Some Malformed ->
  attempt (file_coerce c section key ty)
          [ValueError; TypeError; ConfigParserError]
  = Ret None.
Proof. intros Hs. destruct ty; simpl; unfold get; now rewrite Hs. Qed.

Lemma has_option_lookup c section key :
  has_option c section key = true <-> is_Some (c !! (section, Py.lower key)).
Proof. unfold has_option. apply bool_decide_eq_true. Qed.

Lemma cfg_file_layer st section key default ty :
  (try! from_file :=
     match _has_config st, _config st with
     | true, Some c =>
         if has_option c section key
         then attempt (file_coerce c section key ty)
                      [ValueError; TypeError; ConfigParserError]
         else Ret None
     | _, _ => Ret None
     end in
   match from_file with
   | Some v => Ret v
   | None => Ret default
   end)
  = Ret match file_text st section key with
        | Some s =>
            match file_spec_coerce ty s with
            | Some v => v
            | None => default
            end
        | None => default
        end.
Proof.
  unfold file_text.
  destruct (_has_config st); [|reflexivity].
  destruct (_config st) as [c|]; [|reflexivity].
  destruct (has_option c section key) eqn:Ho.
  - apply has_option_lookup in Ho as [[s|] Hs]; rewrite Hs.
    + rewrite (attempt_file_coerce _ _ _ _ _ Hs). simpl.
      now destruct (file_spec_coerce ty s).
    + now rewrite (attempt_file_malformed _ _ _ _ Hs).
  - assert (Hn : c !! (section, Py.lower key) = None).
    { destruct (c !! (section, Py.lower key)) eqn:E; [|reflexivity].
      assert (has_option c section key = true) by (apply has_option_lookup; eauto).
      congruence. }
    now rewrite Hn.
Qed.

Lemma cfg_layered st section key default ty :
  _cfg st section key default ty
  = Ret (layered (spec_coerce) (file_spec_coerce)
           st section key default ty).
Proof.
  unfold _cfg, layered.
  destruct (environ st !! Py.upper key) as [env_val|].
  - rewrite attempt_env_coerce. simpl.
    destruct (spec_coerce ty env_val); [reflexivity|].
    apply cfg_file_layer.
  - simpl. apply cfg_file_layer.
Qed.

End ConfigFacts.

(** C6, as stated, fails: a boolean option of the file whose text is none
    of true/1/yes/on is not read as false.  With [enabled = maybe] and the
    default [True], [_cfg] returns the default, where the stated rule gives
    [False]. *)
Lemma cfg_file_boolean_counterexample :
  Config._cfg Sample.settings_maybe "version_check" "enabled"
    (Config.VBool true) Config.TBool = Ret (Config.VBool true) /\
  Config.spec_resolve Sample.settings_maybe "version_check" "enabled"
    (Config.VBool true) Config.TBool = Config.VBool false.
Proof. split; reflexivity. Qed.

(** C6, amended.  [_cfg] never raises and resolves in three layers: the
    environment variable named by the upper-cased key when it is set and
    coerces; otherwise the file's value under (section, key) when a file
    was loaded, holds the option and the value coerces; otherwise the
    default.  An environment boolean is true on true/1/yes/on (any case)
    and false on every other text; a file boolean is true on 1/yes/true/on,
    false on 0/no/false/off, and any other text does not coerce, so the
    default is returned. *)
Theorem cfg_resolution_order st section key default ty :
  let resolved := Config._cfg st section key default ty in
  let env := Config.environ st !! Py.upper key in
  let from_file :=
    match Config.file_text st section key with
    | Some s =>
        match Config.file_spec_coerce ty s with
        | Some v => v
        | None => default
        end
    | None => default
    end in
  (forall env_val v,
     env = Some env_val -> Config.spec_coerce ty env_val = Some v ->
     resolved = Ret v) /\
  (forall env_val,
     env = Some env_val -> Config.spec_coerce ty env_val = None ->
     resolved = Ret from_file) /\
  (env = None -> resolved = Ret from_file) /\
  (forall env_val,
     Config.spec_coerce Config.TBool env_val
     = Some (Config.VBool (Py.str_in (Py.lower env_val) ["true"; "1"; "yes"; "on"]))) /\
  (forall s,
     Config.file_spec_coerce Config.TBool s
     = if Py.str_in (Py.lower s) ["1"; "yes"; "true"; "on"] then Some (Config.VBool true)
       else if Py.str_in (Py.lower s) ["0"; "no"; "false"; "off"]
            then Some (Config.VBool false)
            else None).
Proof.
  cbv zeta. rewrite cfg_layered. unfold Config.layered.
  split; [|split; [|split; [|split]]].
  - intros env_val v -> ->. reflexivity.
  - intros env_val -> ->. reflexivity.
  - intros ->. reflexivity.
  - reflexivity.
  - reflexivity.
Qed.

Lemma cfg_resolution_order_witness :
  Config._cfg Sample.environment "thresholds" "filesystem_warning"
    (Config.VInt 80) Config.TInt = Ret (Config.VInt 85) /\
  Config._cfg Sample.environment "thresholds" "memory_warning"
    (Config.VInt 80) Config.TInt = Ret (Config.VInt 80).
Proof.
  split.
  - refine (proj1 (cfg_resolution_order Sample.environment "thresholds"
                     "filesystem_warning" (Config.VInt 80) Config.TInt) "85" _ _ _);
      reflexivity.
  - refine (proj1 (proj2 (proj2 (cfg_resolution_order Sample.environment
                                   "thresholds" "memory_warning" (Config.VInt 80)
                                   Config.TInt))) _).
    reflexivity.
Defined.

(** The thresholds of the examples are what the script computes from the
    sample environment. *)
Example limits_from_environment :
  Checks.load_thresholds Sample.environment = Ret Sample.limits.
Proof. vm_compute. reflexivity. Qed.

(** ** Filesystem usage *)

Section FilesystemFacts.

Import Store Checks.

Variable now : nat -> string.



End FilesystemFacts.




(** The whole check on a [df -h] listing: the header and the pseudo
    filesystem are skipped, the full disk is reported. *)
Example check_filesystem_usage_listing :
  Checks.check_filesystem_usage Sample.clock Sample.limits
    (Store.Completed 0 Sample.df_output "") []
  = [Store.Issue Store.HIGH "Storage" "Filesystem / filling up: 97%"
       (Some "/dev/sda1 mounted at /") "2024-05-01T10:00:00"].
Proof. reflexivity. Qed.

(** ** Memory usage and load average *)

Section FloatFacts.

(** A float equal to an integer is not greater than it, and is greater
    than every smaller integer. *)
Lemma eq_int_not_gt x n : PyFloat.eq_int x n = true -> PyFloat.gt_int x n = false.
Proof.
  unfold PyFloat.eq_int, PyFloat.gt_int.
  destruct (Prim2SF x) as [s|s| |s m e]; try discriminate.
  - intros H. apply Z.eqb_eq in H. subst. reflexivity.
  - destruct (0 <=? e); intros H; apply Z.eqb_eq in H; rewrite H; apply Z.ltb_irrefl.
Qed.

Lemma eq_int_gt_smaller x n k :
  PyFloat.eq_int x n = true -> k < n -> PyFloat.gt_int x k = true.
Proof.
  unfold PyFloat.eq_int, PyFloat.gt_int.
  destruct (Prim2SF x) as [s|s| |s m e]; try discriminate.
  - intros H Hk. apply Z.eqb_eq in H. apply Z.ltb_lt. lia.
  - destruct (Z.leb_spec 0 e) as [He|He]; intros H Hk; apply Z.eqb_eq in H; apply Z.ltb_lt.
    + now rewrite <- H.
    + rewrite <- H. apply Z.mul_lt_mono_pos_r; [|exact Hk].
      apply Z.pow_pos_nonneg; lia.
Qed.

End FloatFacts.

Section MemoryFacts.

Import Store Checks.

Variable now : nat -> string.

(** The check once the two fields of the [Mem:] line are read and divided. *)
Lemma check_memory_usage_parsed t free issues total used ratio :
  rc free = 0 ->
  (2 <= length (Py.split_on Py.LF (stdout free)))%nat ->
  (3 <= length (Py.split_ws (nth 1 (Py.split_on Py.LF (stdout free)) EmptyString)))%nat ->
  Py.int_of_str (nth 1 (Py.split_ws (nth 1 (Py.split_on Py.LF (stdout free)) EmptyString))
                   EmptyString) = Some total ->
  Py.int_of_str (nth 2 (Py.split_ws (nth 1 (Py.split_on Py.LF (stdout free)) EmptyString))
                   EmptyString) = Some used ->
  PyFloat.int_true_div used total = Ret ratio ->
  check_memory_usage now t free issues =
    let percent := PrimFloat.mul ratio 100%float in
    let usage :=
      PyFloat.format_fixed 1 percent +:+ "% (" +:+ Py.str_of_int used +:+ "MB/"
        +:+ Py.str_of_int total +:+ "MB)" in
    if PyFloat.gt_int percent (MEMORY_CRITICAL_THRESHOLD t) then
      Ret (add_issue now CRITICAL "System Health"
             ("Memory usage critically high: " +:+ usage)
             (Some "Consider adding more RAM or reducing memory usage") issues)
    else if PyFloat.gt_int percent (MEMORY_WARNING_THRESHOLD t) then
      Ret (add_issue now HIGH "System Health" ("Memory usage high: " +:+ usage) None issues)
    else
      Ret (add_issue now INFO "System Health" ("Memory usage normal: " +:+ usage) None issues).
Proof.
  intros Hrc Hl Hm Ht Hu Hd. unfold check_memory_usage.
  apply Z.eqb_eq in Hrc. apply Nat.leb_le in Hl, Hm.
  rewrite Hrc, Hl, Hm. unfold Py.int_call. rewrite Ht, Hu. cbn [bind].
  rewrite Hd. reflexivity.
Qed.

End MemoryFacts.

(** C3, as stated, fails at the boundary: 90 MB used of 100 MB is exactly
    the critical threshold 90, and the issue is HIGH, not CRITICAL. *)
Lemma memory_boundary_counterexample :
  (exists ratio,
     PyFloat.int_true_div 90 100 = Ret ratio /\
     PyFloat.eq_int (PrimFloat.mul ratio 100%float)
       (Checks.MEMORY_CRITICAL_THRESHOLD Sample.limits) = true) /\
  Checks.check_memory_usage Sample.clock Sample.limits
    (Store.Completed 0 (Sample.free_output "100" "90") "") []
  = Ret [Store.Issue Store.HIGH "System Health" "Memory usage high: 90.0% (90MB/100MB)"
           None "2024-05-01T10:00:00"].
Proof.
  split; [|vm_compute; reflexivity].
  eexists. split; [vm_compute; reflexivity|]. vm_compute. reflexivity.
Qed.

(** C3, amended.  Once [free -m] gives integers [total] and [used] whose
    quotient exists, the check appends exactly one issue, decided by the
    percentage [used/total*100] alone: CRITICAL when it is strictly above
    the critical threshold; otherwise HIGH when it is strictly above the
    warning threshold; otherwise INFO.  A percentage exactly equal to the
    critical threshold therefore belongs to the tier below CRITICAL: it is
    HIGH whenever the warning threshold is lower than the critical one. *)
Theorem memory_usage_tiers now t free issues total used ratio :
  let lines := Py.split_on Py.LF (Store.stdout free) in
  let mem_line := Py.split_ws (nth 1 lines EmptyString) in
  let warning := Checks.MEMORY_WARNING_THRESHOLD t in
  let critical := Checks.MEMORY_CRITICAL_THRESHOLD t in
  let percent := PrimFloat.mul ratio 100%float in
  let emits severity text details :=
    Checks.check_memory_usage now t free issues
    = Ret (issues ++ [Store.Issue severity "System Health"
                        (text +:+ PyFloat.format_fixed 1 percent +:+ "% ("
                           +:+ Py.str_of_int used +:+ "MB/" +:+ Py.str_of_int total +:+ "MB)")
                        details (now (length issues))]) in
  Store.rc free = 0 ->
  (2 <= length lines)%nat ->
  (3 <= length mem_line)%nat ->
  Py.int_of_str (nth 1 mem_line EmptyString) = Some total ->
  Py.int_of_str (nth 2 mem_line EmptyString) = Some used ->
  PyFloat.int_true_div used total = Ret ratio ->
  (PyFloat.gt_int percent critical = true ->
   emits Store.CRITICAL "Memory usage critically high: "
     (Some "Consider adding more RAM or reducing memory usage")) /\
  (PyFloat.gt_int percent critical = false -> PyFloat.gt_int percent warning = true ->
   emits Store.HIGH "Memory usage high: " None) /\
  (PyFloat.gt_int percent critical = false -> PyFloat.gt_int percent warning = false ->
   emits Store.INFO "Memory usage normal: " None) /\
  (PyFloat.eq_int percent critical = true -> warning < critical ->
   emits Store.HIGH "Memory usage high: " None).
Proof.
  cbv zeta. intros Hrc Hl Hm Ht Hu Hd.
  rewrite (check_memory_usage_parsed now t free issues total used ratio Hrc Hl Hm Ht Hu Hd).
  cbv zeta. unfold Store.add_issue.
  repeat split.
  - intros ->. reflexivity.
  - intros -> ->. reflexivity.
  - intros -> ->. reflexivity.
  - intros He Hw.
    rewrite (eq_int_not_gt _ _ He), (eq_int_gt_smaller _ _ _ He Hw). reflexivity.
Qed.

Lemma memory_usage_tiers_witness :
  Checks.check_memory_usage Sample.clock Sample.limits
    (Store.Completed 0 (Sample.free_output "2000" "1900") "") []
  = Ret [Store.Issue Store.CRITICAL "System Health"
           "Memory usage critically high: 95.0% (1900MB/2000MB)"
           (Some "Consider adding more RAM or reducing memory usage")
           "2024-05-01T10:00:00"].
Proof.
  refine (proj1 (memory_usage_tiers Sample.clock Sample.limits
                   (Store.Completed 0 (Sample.free_output "2000" "1900") "") []
                   2000 1900 (PrimFloat.div 1900 2000) _ _ _ _ _ _) _);
    vm_compute; first [reflexivity | lia].
Defined.

Section LoadFacts.

Import Store Checks.

Variable now : nat -> string.

(** When the three averages are read, the check is their classification,
    any exception of which becomes the LOW issue. *)
Lemma check_load_average_read t text loads os_cpu_count issues :
  read_loadavg (Ret text) = Ret loads ->
  check_load_average now t (Ret text) os_cpu_count issues
  = match classify_load now t loads os_cpu_count issues with
    | Ret issues' => Ret issues'
    | Raise e =>
        if is_Exception e
        then Ret (add_issue now LOW "System Health" "Cannot check load average"
                    (Some (exn_msg e)) issues)
        else Raise e
    end.
Proof. intros Hr. unfold check_load_average. rewrite Hr. reflexivity. Qed.

(** The tier of a per-CPU load: both comparisons are strict. *)
Lemma classify_load_tiers t load_1min load_5min load_15min n issues load_per_cpu :
  PyFloat.div_int load_1min (match n with Some k => if k =? 0 then 1 else k | None => 1 end)
  = Ret load_per_cpu ->
  exists description detail,
    classify_load now t (load_1min, load_5min, load_15min) n issues
    = Ret (add_issue now
             (if PyFloat.gt load_per_cpu (LOAD_CRITICAL_MULTIPLIER t) then CRITICAL
              else if PyFloat.gt load_per_cpu (LOAD_WARNING_MULTIPLIER t) then HIGH
              else INFO)
             "System Health" description (Some detail) issues).
Proof.
  intros Hd. unfold classify_load. rewrite Hd. cbn [bind].
  destruct (PyFloat.gt load_per_cpu (LOAD_CRITICAL_MULTIPLIER t));
    [eexists _, _; reflexivity|].
  destruct (PyFloat.gt load_per_cpu (LOAD_WARNING_MULTIPLIER t));
    eexists _, _; reflexivity.
Qed.

End LoadFacts.

(** C2.  With load averages (4.0, 2.0, 1.0) on 4 CPUs and the multipliers
    0.7 and 1.0, the per-CPU load equals the critical multiplier and the
    check reports HIGH: the comparison with the critical multiplier is
    strict. *)
Theorem load_at_critical_multiplier_is_high now issues :
  Checks.load_thresholds Sample.environment = Ret Sample.limits /\
  PyFloat.div_int 4 4 = Ret (Checks.LOAD_CRITICAL_MULTIPLIER Sample.limits) /\
  Checks.check_load_average now Sample.limits (Ret Sample.loadavg) (Some 4) issues
  = Ret (issues ++
           [Store.Issue Store.HIGH "System Health"
              "Load average high: 4.0 (1.00 per CPU)"
              (Some "CPU count: 4, 1/5/15 min: 4.0/2.0/1.0")
              (now (length issues))]).
Proof. repeat split; vm_compute; reflexivity. Qed.

(** ** SSH posture *)

Section SshFacts.

Import Store Checks.


(** A line that matches the keyword pattern is never a comment: the
    pattern admits only blanks before the keyword. *)
Lemma lstrip_strip_head f s c r :
  Py.lstrip_by f s = String c r ->
  exists r', Py.strip_by f s = String c r'.
Proof.
  intros H. unfold Py.strip_by. rewrite H. simpl.
  assert (Hc : f c = false).
  { clear -H. induction s as [|a s IH]; simpl in H; [discriminate|].
    destruct (f a) eqn:Ha; [auto|]. now injection H as -> _. }
  destruct (Py.rstrip_by f r); [rewrite Hc|]; eauto.
Qed.












End SshFacts.




(** ** Exporters *)

Section ReportFacts.

Import Store Report.

Lemma severity_eqb_eq a b : severity_eqb a b = true <-> a = b.
Proof. destruct a, b; simpl; split; congruence. Qed.

Lemma severity_eqb_refl a : severity_eqb a a = true.
Proof. now destruct a. Qed.

Lemma severity_name_inj a b : severity_name a = severity_name b -> a = b.
Proof. destruct a, b; simpl; congruence. Qed.

Lemma dict_get_set_same (k : severity) (v : Z) d :
  dict_get severity_eqb k (dict_set severity_eqb k v d) = Some v.
Proof.
  induction d as [|[k' v'] d IH]; simpl.
  - now rewrite severity_eqb_refl.
  - destruct (severity_eqb k k') eqn:E; simpl.
    + now rewrite severity_eqb_refl.
    + now rewrite E.
Qed.

Lemma dict_get_set_other (k k0 : severity) (v : Z) d :
  k0 <> k ->
  dict_get severity_eqb k0 (dict_set severity_eqb k v d) = dict_get severity_eqb k0 d.
Proof.
  intros Hne. induction d as [|[k' v'] d IH]; simpl.
  - destruct (severity_eqb k0 k) eqn:E; [|reflexivity].
    apply severity_eqb_eq in E. congruence.
  - destruct (severity_eqb k k') eqn:E; simpl.
    + apply severity_eqb_eq in E. subst k'.
      destruct (severity_eqb k0 k) eqn:E0; [|reflexivity].
      apply severity_eqb_eq in E0. congruence.
    + now rewrite IH.
Qed.

Lemma count_by_severity_snoc sev issues i :
  count_by_severity sev (issues ++ [i])
  = count_by_severity sev issues + (if severity_eqb (severity_of i) sev then 1 else 0).
Proof.
  unfold count_by_severity. rewrite List.filter_app, length_app. simpl.
  destruct (severity_eqb (severity_of i) sev); simpl; lia.
Qed.

Lemma count_by_severity_nonneg sev issues : 0 <= count_by_severity sev issues.
Proof. unfold count_by_severity. lia. Qed.

Lemma severity_counts_snoc issues i :
  severity_counts (issues ++ [i])
  = dict_set severity_eqb (severity_of i)
      (dict_get_or severity_eqb (severity_of i) 0 (severity_counts issues) + 1)
      (severity_counts issues).
Proof. unfold severity_counts. now rewrite fold_left_app. Qed.

(** The dictionary built by the counting loop holds, for each severity
    that occurs, the number of its issues, and nothing else. *)
Lemma severity_counts_get issues sev :
  dict_get severity_eqb sev (severity_counts issues)
  = if count_by_severity sev issues =? 0 then None
    else Some (count_by_severity sev issues).
Proof.
  induction issues as [|i issues IH] using rev_ind; [reflexivity|].
  rewrite severity_counts_snoc, count_by_severity_snoc.
  pose proof (count_by_severity_nonneg sev issues) as Hn.
  destruct (severity_eqb (severity_of i) sev) eqn:E.
  - apply severity_eqb_eq in E. subst sev.
    rewrite dict_get_set_same. unfold dict_get_or. rewrite IH.
    destruct (Z.eqb_spec (count_by_severity (severity_of i) issues) 0) as [H0|H0];
      destruct (Z.eqb_spec (count_by_severity (severity_of i) issues + 1) 0);
      try lia.
    + now rewrite H0.
    + reflexivity.
  - rewrite dict_get_set_other.
    + now rewrite Z.add_0_r.
    + intros ->. now rewrite severity_eqb_refl in E.
Qed.

Lemma severity_counts_get_or issues sev :
  dict_get_or severity_eqb sev 0 (severity_counts issues) = count_by_severity sev issues.
Proof.
  unfold dict_get_or. rewrite severity_counts_get.
  now destruct (Z.eqb_spec (count_by_severity sev issues) 0).
Qed.

(** The JSON summary is the same dictionary under the severity names. *)
Lemma json_summary_get issues sev :
  dict_get String.eqb (severity_name sev) (json_summary issues)
  = option_map JInt (dict_get severity_eqb sev (severity_counts issues)).
Proof.
  unfold json_summary.
  induction (severity_counts issues) as [|[k v] d IH]; simpl; [reflexivity|].
  destruct (severity_eqb sev k) eqn:E.
  - apply severity_eqb_eq in E. subst k. now rewrite String.eqb_refl.
  - destruct (String.eqb_spec (severity_name sev) (severity_name k)) as [Hn|Hn].
    + apply severity_name_inj in Hn. subst k. now rewrite severity_eqb_refl in E.
    + exact IH.
Qed.

(** So is the XML summary, with the counts as text. *)
Lemma xml_summary_level issues sev :
  xml_level (severity_name sev) (xml_summary issues)
  = option_map Py.str_of_int (dict_get severity_eqb sev (severity_counts issues)).
Proof.
  unfold xml_summary.
  induction (severity_counts issues) as [|[k v] d IH]; simpl; [reflexivity|].
  destruct (severity_eqb sev k) eqn:E.
  - apply severity_eqb_eq in E. subst k. now rewrite String.eqb_refl.
  - destruct (String.eqb_spec (severity_name k) (severity_name sev)) as [Hn|Hn].
    + apply severity_name_inj in Hn. subst k. now rewrite severity_eqb_refl in E.
    + exact IH.
Qed.

(** The five counts add up to the number of issues. *)
Lemma counts_add_up issues :
  count_by_severity CRITICAL issues + count_by_severity HIGH issues
  + count_by_severity MEDIUM issues + count_by_severity LOW issues
  + count_by_severity INFO issues = Z.of_nat (length issues).
Proof.
  induction issues as [|i issues IH] using rev_ind; [reflexivity|].
  rewrite !count_by_severity_snoc, length_app. simpl length.
  destruct (severity_of i); simpl; lia.
Qed.

End ReportFacts.

(** C9.  For every issue list, the empty one included, the four exporters
    report the direct count of each severity.  What [export_json] hands to
    [json.dumps] carries, as its summary, one entry for each severity that
    occurs, with its direct count, and one item per issue; what
    [export_xml] hands to [ET.tostring] carries them as [severity]
    elements and one [issue] element per issue; the Markdown and text
    reports print the five severities in order with their direct counts,
    zero when none, and the total number of issues; the five counts add up
    to that total.  On the empty list [export_json] serialises an empty
    summary and an empty issue list, and the Markdown and text summaries
    show five zeros. *)
Theorem exporters_agree_on_counts dumps tostring h date timestamp issues :
  let count sev := Report.count_by_severity sev issues in
  let total := Z.of_nat (length issues) in
  (* JSON *)
  (exists summary items,
     Report.export_json dumps h timestamp issues
     = dumps
         (Report.JDict
            [("hostname", Report.JStr (Report.HOSTNAME h));
             ("timestamp", Report.JStr timestamp);
             ("os_info",
               Report.JDict
                 (map (fun '(k, v) => (k, Report.json_opt v)) (Report.OS_INFO h)));
             ("summary", Report.JDict summary);
             ("issues", Report.JList items)]) /\
     length items = length issues /\
     forall sev,
       Report.dict_get String.eqb (Store.severity_name sev) summary
       = if count sev =? 0 then None else Some (Report.JInt (count sev))) /\
  (* XML *)
  (exists metadata summary items,
     Report.export_xml tostring h timestamp issues
     = tostring
         (Report.Element "health_check_report" [] None
            [Report.Element "metadata" [] None metadata;
             Report.Element "summary" [] None summary;
             Report.Element "issues" [] None items]) /\
     length items = length issues /\
     forall sev,
       Report.xml_level (Store.severity_name sev) summary
       = if count sev =? 0 then None else Some (Py.str_of_int (count sev))) /\
  (* Markdown *)
  Report.export_markdown h date issues
  = Report.markdown_header h date +:+ "## Summary" +:+ Py.nl +:+ Py.nl
      +:+ ("- **CRITICAL:** " +:+ Py.str_of_int (count Store.CRITICAL) +:+ Py.nl
           +:+ "- **HIGH:** " +:+ Py.str_of_int (count Store.HIGH) +:+ Py.nl
           +:+ "- **MEDIUM:** " +:+ Py.str_of_int (count Store.MEDIUM) +:+ Py.nl
           +:+ "- **LOW:** " +:+ Py.str_of_int (count Store.LOW) +:+ Py.nl
           +:+ "- **INFO:** " +:+ Py.str_of_int (count Store.INFO) +:+ Py.nl)
      +:+ Py.nl +:+ "**Total Issues:** " +:+ Py.str_of_int total +:+ Py.nl +:+ Py.nl
      +:+ "---" +:+ Py.nl +:+ Py.nl +:+ Report.markdown_categories issues /\
  (* Plain text *)
  Report.export_text h date issues
  = Report.text_header h date
      +:+ ("CRITICAL     " +:+ Py.str_of_int (count Store.CRITICAL) +:+ Py.nl
           +:+ "HIGH         " +:+ Py.str_of_int (count Store.HIGH) +:+ Py.nl
           +:+ "MEDIUM       " +:+ Py.str_of_int (count Store.MEDIUM) +:+ Py.nl
           +:+ "LOW          " +:+ Py.str_of_int (count Store.LOW) +:+ Py.nl
           +:+ "INFO         " +:+ Py.str_of_int (count Store.INFO) +:+ Py.nl)
      +:+ Py.nl +:+ "Total Issues: " +:+ Py.str_of_int total +:+ Py.nl +:+ Py.nl
      +:+ Py.repeat_str "=" 80 +:+ Py.nl +:+ "ISSUES" +:+ Py.nl
      +:+ Py.repeat_str "=" 80 +:+ Py.nl +:+ Py.nl +:+ Report.text_categories issues /\
  (* the counts account for every issue *)
  count Store.CRITICAL + count Store.HIGH + count Store.MEDIUM + count Store.LOW
  + count Store.INFO = total /\
  (* the empty store *)
  Report.export_json dumps h timestamp []
  = dumps
      (Report.JDict
         [("hostname", Report.JStr (Report.HOSTNAME h));
          ("timestamp", Report.JStr timestamp);
          ("os_info",
            Report.JDict (map (fun '(k, v) => (k, Report.json_opt v)) (Report.OS_INFO h)));
          ("summary", Report.JDict []);
          ("issues", Report.JList [])]) /\
  Report.export_xml tostring h timestamp []
  = tostring
      (Report.Element "health_check_report" [] None
         [Report.Element "metadata" [] None
            [Report.leaf "hostname" (Some (Report.HOSTNAME h));
             Report.leaf "timestamp" (Some timestamp);
             Report.leaf "distribution" (Report.os_get h "distribution" (Some "Unknown"));
             Report.leaf "version" (Report.os_get h "version" (Some "Unknown"))];
          Report.Element "summary" [] None [];
          Report.Element "issues" [] None []]) /\
  Report.export_markdown h date []
  = Report.markdown_header h date +:+ "## Summary" +:+ Py.nl +:+ Py.nl
      +:+ ("- **CRITICAL:** 0" +:+ Py.nl +:+ "- **HIGH:** 0" +:+ Py.nl
           +:+ "- **MEDIUM:** 0" +:+ Py.nl +:+ "- **LOW:** 0" +:+ Py.nl
           +:+ "- **INFO:** 0" +:+ Py.nl)
      +:+ Py.nl +:+ "**Total Issues:** 0" +:+ Py.nl +:+ Py.nl
      +:+ "---" +:+ Py.nl +:+ Py.nl /\
  Report.export_text h date []
  = Report.text_header h date
      +:+ ("CRITICAL     0" +:+ Py.nl +:+ "HIGH         0" +:+ Py.nl
           +:+ "MEDIUM       0" +:+ Py.nl +:+ "LOW          0" +:+ Py.nl
           +:+ "INFO         0" +:+ Py.nl)
      +:+ Py.nl +:+ "Total Issues: 0" +:+ Py.nl +:+ Py.nl
      +:+ Py.repeat_str "=" 80 +:+ Py.nl +:+ "ISSUES" +:+ Py.nl
      +:+ Py.repeat_str "=" 80 +:+ Py.nl +:+ Py.nl.
Proof.
  cbv zeta.
  split.
  { eexists _, _. split; [reflexivity|]. split; [apply length_map|].
    intros sev. rewrite json_summary_get, severity_counts_get.
    now destruct (Report.count_by_severity sev issues =? 0). }
  split.
  { eexists _, _, _. split; [reflexivity|]. split; [apply length_map|].
    intros sev. rewrite xml_summary_level, severity_counts_get.
    now destruct (Report.count_by_severity sev issues =? 0). }
  split.
  { unfold Report.export_markdown, Report.markdown_summary, Report.concat_map,
      Report.SEVERITIES.
    cbn [fold_left]. rewrite !severity_counts_get_or. cbn [Store.severity_name].
    rewrite !append_assoc. reflexivity. }
  split.
  { unfold Report.export_text, Report.text_summary, Report.concat_map,
      Report.SEVERITIES.
    cbn [fold_left]. rewrite !severity_counts_get_or.
    change (Py.ljust 12 (Store.severity_name Store.CRITICAL)) with "CRITICAL    ".
    change (Py.ljust 12 (Store.severity_name Store.HIGH)) with "HIGH        ".
    change (Py.ljust 12 (Store.severity_name Store.MEDIUM)) with "MEDIUM      ".
    change (Py.ljust 12 (Store.severity_name Store.LOW)) with "LOW         ".
    change (Py.ljust 12 (Store.severity_name Store.INFO)) with "INFO        ".
    rewrite !append_assoc. reflexivity. }
  split; [apply counts_add_up|].
  split; [reflexivity|]. split; [reflexivity|].
  split.
  - unfold Report.export_markdown, Report.markdown_categories. cbn.
    rewrite !append_assoc. reflexivity.
  - unfold Report.export_text, Report.text_categories. cbn.
    rewrite !append_assoc. reflexivity.
Qed.

(** ** Encryption *)

Section DeliveryFacts.

Import Delivery.

(** The three GPG constants as the resolver yields them; loading never
    fails. *)
Lemma load_gpg_config_layers st :
  load_gpg_config st
  = Ret {| GPG_ENABLED :=
             truthy (Config.layered Config.spec_coerce
                       Config.file_spec_coerce st "gpg" "encrypt"
                       (Config.VBool false) Config.TBool);
           GPG_RECIPIENT :=
             str_of
               (Config.layered Config.spec_coerce
                  Config.file_spec_coerce st "gpg" "recipient"
                  (Config.VStr "root@localhost") Config.TStr);
           GPG_DELETE_UNENCRYPTED :=
             truthy (Config.layered Config.spec_coerce
                       Config.file_spec_coerce st "gpg" "delete_unencrypted"
                       (Config.VBool false) Config.TBool) |}.
Proof. unfold load_gpg_config. now rewrite !cfg_layered. Qed.

(** The encryption step never reads [GPG_DELETE_UNENCRYPTED]. *)
Lemma encrypt_file_gpg_delete_irrelevant run_command g b file_path files :
  encrypt_file_gpg run_command
    {| GPG_ENABLED := GPG_ENABLED g; GPG_RECIPIENT := GPG_RECIPIENT g;
       GPG_DELETE_UNENCRYPTED := b |} file_path files
  = encrypt_file_gpg run_command g file_path files.
Proof. reflexivity. Qed.

(** Nor does anything else in a run. *)
Lemma main_delete_irrelevant b w s :
  Runner.main (Runner.with_delete_unencrypted b w) s = Runner.main w s.
Proof.
  unfold Runner.main. cbn [Runner.detect_os Runner.with_delete_unencrypted].
  destruct (Runner.detect_os w) as [os_info|e]; [|reflexivity].
  assert (Hrun : forall cs s0,
             Runner.run_checks (Runner.with_delete_unencrypted b w) cs s0
             = Runner.run_checks w cs s0).
  { induction cs as [|c cs IH]; intros s0; [reflexivity|].
    cbn [Runner.run_checks]. unfold Runner.call.
    cbn [Runner.check Runner.with_delete_unencrypted].
    destruct (Runner.check w c (Runner.issues s0)) as [issues' [e|]]; [reflexivity|].
    apply IH. }
  rewrite Hrun. destruct (Runner.run_checks w Runner.run_order s) as [s' [e|]];
    reflexivity.
Qed.

End DeliveryFacts.

(** C10.  [GPG_DELETE_UNENCRYPTED] is read from the configuration (the
    option [delete_unencrypted] of section [gpg], default false) and plays
    no part in a run.  With encryption enabled and a recipient set,
    whatever its value: when [gpg] is found, its run succeeds and the
    plaintext is still there, the plaintext is removed and the path with
    the suffix [.gpg] is returned; when [gpg] is not found, or its run
    fails, the script removes nothing and returns the original path. *)
Theorem encrypt_ignores_delete_setting run_command enabled_recipient delete_unencrypted
    file_path files :
  enabled_recipient <> EmptyString ->
  let g := {| Delivery.GPG_ENABLED := true;
              Delivery.GPG_RECIPIENT := enabled_recipient;
              Delivery.GPG_DELETE_UNENCRYPTED := delete_unencrypted |} in
  let which := run_command ["which"; "gpg"] files in
  let gpg :=
    run_command
      ["gpg"; "--encrypt"; "--recipient"; enabled_recipient; "--trust-model"; "always";
       "--output"; file_path +:+ ".gpg"; file_path]
      (snd which) in
  (Store.rc (fst which) = 0 -> Store.rc (fst gpg) = 0 ->
   is_Some (snd gpg !! file_path) ->
   Delivery.encrypt_file_gpg run_command g file_path files
   = Ret (file_path +:+ ".gpg", delete file_path (snd gpg))) /\
  (Store.rc (fst which) <> 0 ->
   Delivery.encrypt_file_gpg run_command g file_path files = Ret (file_path, snd which)) /\
  (Store.rc (fst which) = 0 -> Store.rc (fst gpg) <> 0 ->
   Delivery.encrypt_file_gpg run_command g file_path files = Ret (file_path, snd gpg)) /\
  (forall st,
     exists c,
       Delivery.load_gpg_config st = Ret c /\
       Delivery.GPG_DELETE_UNENCRYPTED c
       = Delivery.truthy
           (Config.layered Config.spec_coerce
              Config.file_spec_coerce st "gpg" "delete_unencrypted"
              (Config.VBool false) Config.TBool)) /\
  (forall w s,
     Runner.main (Runner.with_delete_unencrypted delete_unencrypted w) s = Runner.main w s).
Proof.
  intros Hr. cbv zeta.
  unfold Delivery.encrypt_file_gpg, Delivery.command_exists.
  cbn [Delivery.GPG_ENABLED Delivery.GPG_RECIPIENT negb orb].
  apply String.eqb_neq in Hr. rewrite Hr.
  destruct (run_command ["which"; "gpg"] files) as [which files1]. cbn [fst snd].
  destruct (run_command _ files1) as [gpg files2]. cbn [fst snd].
  split; [|split; [|split; [|split]]].
  - intros Hw Hg [text Hf]. apply Z.eqb_eq in Hw, Hg. rewrite Hw, Hg. cbn [negb].
    unfold Delivery.os_remove. rewrite Hf. reflexivity.
  - intros Hw. apply Z.eqb_neq in Hw. rewrite Hw. reflexivity.
  - intros Hw Hg. apply Z.eqb_eq in Hw. apply Z.eqb_neq in Hg. rewrite Hw, Hg. reflexivity.
  - intros st. eexists. split; [apply load_gpg_config_layers|].
    reflexivity.
  - intros w s. apply main_delete_irrelevant.
Qed.

Lemma encrypt_ignores_delete_setting_witness :
  Delivery.encrypt_file_gpg Sample.gpg_works (Sample.gpg_on false) Sample.report_path
    Sample.one_report
  = Ret (Sample.report_path +:+ ".gpg",
         delete Sample.report_path
           (<[Sample.report_path +:+ ".gpg" := "encrypted # report"]> Sample.one_report)) /\
  Delivery.encrypt_file_gpg Sample.gpg_missing (Sample.gpg_on true) Sample.report_path
    Sample.one_report
  = Ret (Sample.report_path, Sample.one_report).
Proof.
  assert (Hr : "root@localhost" <> EmptyString) by discriminate.
  split.
  - refine (proj1 (encrypt_ignores_delete_setting Sample.gpg_works "root@localhost" false
                     Sample.report_path Sample.one_report Hr) _ _ _);
      [reflexivity | reflexivity | vm_compute; eauto].
  - refine (proj1 (proj2 (encrypt_ignores_delete_setting Sample.gpg_missing "root@localhost"
                            true Sample.report_path Sample.one_report Hr)) _).
    discriminate.
Defined.

(** ** The runner *)

Section RunnerFacts.

Import Store Runner.

Variable w : world.

Lemma run_checks_app before after s :
  run_checks w (before ++ after) s
  = match run_checks w before s with
    | (s', None) => run_checks w after s'
    | (s', Some e) => (s', Some e)
    end.
Proof.
  revert s. induction before as [|c before IH]; intros s; simpl; [reflexivity|].
  destruct (call w c s) as [s' [e|]]; [reflexivity|]. apply IH.
Qed.

(** Checks that return leave the files and the report path alone and are
    recorded in the order of their calls. *)
Lemma run_checks_returned cs s s' :
  run_checks w cs s = (s', None) ->
  started s' = started s ++ cs /\ files s' = files s /\ report_file s' = report_file s.
Proof.
  revert s. induction cs as [|c cs IH]; intros s; simpl.
  - intros [= <-]. now rewrite app_nil_r.
  - unfold call. destruct (check w c (issues s)) as [issues' [e|]]; [discriminate|].
    intros H. apply IH in H as (Hs & Hf & Hr). simpl in *.
    now rewrite Hs, <- app_assoc.
Qed.

(** The first check that raises ends the sequence: it is the last one
    started. *)
Lemma run_checks_raised before c after s s1 e :
  run_checks w before s = (s1, None) ->
  snd (check w c (issues s1)) = Some e ->
  exists s2,
    run_checks w (before ++ c :: after) s = (s2, Some e) /\
    started s2 = started s ++ before ++ [c] /\
    files s2 = files s /\ report_file s2 = report_file s.
Proof.
  intros Hb Hc. rewrite run_checks_app, Hb. simpl. unfold call.
  destruct (check w c (issues s1)) as [issues' r]. simpl in Hc. subst r.
  apply run_checks_returned in Hb as (Hs & Hf & Hr).
  eexists. split; [reflexivity|]. simpl. now rewrite Hs, app_assoc.
Qed.

End RunnerFacts.

(** C4, as stated, fails.  On a machine whose [free -m] reports a total of
    0, [check_memory_usage] raises [ZeroDivisionError]; the run stops
    there: the checks after it (among them [check_filesystem_usage], which
    has a full disk to report) are never started, no report is written,
    and the process exits with status 1. *)
Lemma runner_does_not_isolate_counterexample :
  Checks.check_memory_usage Sample.clock Sample.limits
    (Store.Completed 0 (Sample.free_output "0" "0") "") []
  = Raise (Exn ZeroDivisionError "division by zero") /\
  Runner.script (Sample.machine "0" "0") (Runner.initial ∅)
  = ({| Runner.issues :=
          [Store.Issue Store.HIGH "Security"
             "SSH is running with password authentication enabled"
             (Some "Password authentication should be disabled. Use key-based authentication with ed25519 or better")
             "2024-05-01T10:00:00";
           Store.Issue Store.HIGH "System Health"
             "Load average high: 4.0 (1.00 per CPU)"
             (Some "CPU count: 4, 1/5/15 min: 4.0/2.0/1.0")
             "2024-05-01T10:00:00"];
        Runner.started :=
          [Runner.version_update; Runner.ssh_status; Runner.wheel_group; Runner.firewall;
           Runner.selinux_apparmor; Runner.failed_logins; Runner.open_ports;
           Runner.root_login; Runner.password_policy; Runner.uptime;
           Runner.load_average; Runner.memory_usage];
        Runner.files := ∅;
        Runner.report_file := None |}, 1).
Proof. split; vm_compute; reflexivity. Qed.

(** C4, amended.  The runner calls the checks in the documented order and
    does not isolate them: when the checks before [c] return and an
    exception leaves [c], the run ends at [c] -- no later check is
    started, no report is written, no file is touched -- and the process
    exits with status 130 for [KeyboardInterrupt] and 1 for any other
    exception.  When no exception leaves any check, all of them are
    started, in the documented order. *)
Theorem runner_stops_at_first_exception w files before c after s1 e :
  Runner.run_order = before ++ c :: after ->
  (exists os_info, Runner.detect_os w = Ret os_info) ->
  Runner.run_checks w before (Runner.initial files) = (s1, None) ->
  snd (Runner.check w c (Runner.issues s1)) = Some e ->
  (exists final,
     Runner.script w (Runner.initial files)
     = (final, match exn_class e with KeyboardInterrupt => 130 | _ => 1 end) /\
     Runner.started final = before ++ [c] /\
     Runner.files final = files /\
     Runner.report_file final = None) /\
  (forall s,
     Runner.run_checks w Runner.run_order (Runner.initial files) = (s, None) ->
     Runner.started s = Runner.run_order).
Proof.
  intros Horder [os_info Hos] Hbefore Hraise. split.
  - destruct (run_checks_raised w before c after _ _ e Hbefore Hraise)
      as (s2 & Hrun & Hs & Hf & Hr).
    exists s2. unfold Runner.script, Runner.main.
    rewrite Hos, Horder, Hrun. repeat split; try assumption.
    now destruct (exn_class e).
  - intros s Hs. now apply run_checks_returned in Hs as (-> & _ & _).
Qed.

Lemma runner_stops_at_first_exception_witness :
  exists final,
    Runner.script (Sample.machine "0" "0") (Runner.initial ∅) = (final, 1) /\
    Runner.started final
    = [Runner.version_update; Runner.ssh_status; Runner.wheel_group; Runner.firewall;
       Runner.selinux_apparmor; Runner.failed_logins; Runner.open_ports;
       Runner.root_login; Runner.password_policy; Runner.uptime;
       Runner.load_average] ++ [Runner.memory_usage] /\
    Runner.files final = ∅ /\
    Runner.report_file final = None.
Proof.
  refine (proj1 (runner_stops_at_first_exception (Sample.machine "0" "0") ∅
                   [Runner.version_update; Runner.ssh_status; Runner.wheel_group;
                    Runner.firewall; Runner.selinux_apparmor; Runner.failed_logins;
                    Runner.open_ports; Runner.root_login; Runner.password_policy;
                    Runner.uptime; Runner.load_average]
                   Runner.memory_usage _ _
                   (Exn ZeroDivisionError "division by zero") _ _ _ _)).
  - reflexivity.
  - eexists. reflexivity.
  - vm_compute. reflexivity.
  - vm_compute. reflexivity.
Defined.

(** A run in which no check raises: every check is started, the Markdown
    report is written, and the exit status is 1 for the HIGH issues. *)
Example run_completes :
  let '(final, status) := Runner.script (Sample.machine "100" "50") (Runner.initial ∅) in
  status = 1 /\
  Runner.started final = Runner.run_order /\
  Runner.report_file final = Some "/tmp/health_report_host.md" /\
  map Store.severity_of (Runner.issues final)
  = [Store.HIGH; Store.HIGH; Store.INFO; Store.HIGH] /\
  is_Some (Runner.files final !! "/tmp/health_report_host.md").
Proof. vm_compute. repeat split; eauto. Qed.

(** ** Lines: splitting, joining, slicing *)

Section LineFacts.

Import Store Checks.

(** No field of a split contains the separator. *)
Lemma split_on_clean sep s :
  Forall (fun x => Py.all_chars (fun c => negb (Ascii.eqb c sep)) x = true)
         (Py.split_on sep s).
Proof.
  induction s as [|c r IH]; simpl.
  - repeat constructor.
  - destruct (Ascii.eqb c sep) eqn:E.
    + constructor; [reflexivity | exact IH].
    + destruct (Py.split_on sep r) as [|h t]; inversion IH; subst;
        constructor; simpl; rewrite ?E; auto.
Qed.

(** Joining the fields of a split with the separator gives the text back. *)
Lemma join_cons sep x y l :
  Py.join sep (x :: y :: l) = x +:+ sep +:+ Py.join sep (y :: l).
Proof. reflexivity. Qed.

Lemma join_split sep s : Py.join (Py.chr sep) (Py.split_on sep s) = s.
Proof.
  induction s as [|c r IH]; [reflexivity|].
  cbn [Py.split_on]. destruct (Ascii.eqb_spec c sep) as [->|Hc].
  - destruct (Py.split_on sep r) as [|h t] eqn:E; [now apply split_on_nonempty in E|].
    rewrite join_cons, IH. reflexivity.
  - destruct (Py.split_on sep r) as [|h t] eqn:E; [now apply split_on_nonempty in E|].
    destruct t as [|y t].
    + simpl in *. now rewrite IH.
    + rewrite join_cons. rewrite join_cons in IH. simpl. now rewrite <- IH.
Qed.

(** Splitting a join of separator-free fields gives the fields back. *)
Lemma split_join sep l :
  l <> [] ->
  Forall (fun x => Py.all_chars (fun c => negb (Ascii.eqb c sep)) x = true) l ->
  Py.split_on sep (Py.join (Py.chr sep) l) = l.
Proof.
  induction l as [|x l IH]; [congruence|]. intros _ H. inversion H as [|? ? Hx Hl]; subst.
  destruct l as [|y l].
  - simpl. now apply split_on_single.
  - rewrite join_cons. unfold Py.chr at 1.
    change (x +:+ String sep "" +:+ Py.join (Py.chr sep) (y :: l))
      with (x +:+ String sep (Py.join (Py.chr sep) (y :: l))).
    rewrite (split_on_prefix _ _ _ Hx), IH; [reflexivity | discriminate | exact Hl].
Qed.

(** A text has one line more than it has newlines. *)
Lemma split_on_length sep s :
  length (Py.split_on sep s) = S (Py.count_char sep s).
Proof.
  induction s as [|c r IH]; [reflexivity|]. simpl.
  destruct (Ascii.eqb c sep); simpl; [now rewrite IH|].
  destruct (Py.split_on sep r) as [|h t] eqn:E; [now apply split_on_nonempty in E|].
  simpl in *. exact IH.
Qed.

Lemma Forall_firstn {A} (P : A -> Prop) n l : Forall P l -> Forall P (firstn n l).
Proof.
  intros H. revert n. induction H; intros [|n]; simpl; constructor; auto.
Qed.

Lemma Forall_skipn {A} (P : A -> Prop) n l : Forall P l -> Forall P (skipn n l).
Proof.
  intros H. revert n. induction H; intros [|n]; simpl; auto.
Qed.

End LineFacts.

(** X1.  [head_lines(text, n)] for [n >= 1] keeps exactly the first [n]
    lines of the text (all of them when there are fewer), and gives the
    text back unchanged as soon as [n] reaches the number of lines. *)
Theorem head_lines_keeps_first_lines text n :
  1 <= n ->
  Py.split_on Py.LF (Audit.head_lines text n)
  = firstn (Z.to_nat n) (Py.split_on Py.LF text)
  /\ (Z.of_nat (length (Py.split_on Py.LF text)) <= n -> Audit.head_lines text n = text).
Proof.
  intros Hn. unfold Audit.head_lines, Py.slice_to, Py.nl.
  destruct (Z.ltb_spec n 0) as [|_]; [lia|]. split.
  - apply split_join.
    + destruct (Py.split_on Py.LF text) as [|h t] eqn:E; [now apply split_on_nonempty in E|].
      destruct (Z.to_nat n) eqn:En; [lia | discriminate].
    + apply Forall_firstn, split_on_clean.
  - intros Hlen. rewrite firstn_all2 by lia. apply join_split.
Qed.

Lemma head_lines_keeps_first_lines_witness :
  Py.split_on Py.LF (Audit.head_lines ("a" +:+ Py.nl +:+ "b" +:+ Py.nl +:+ "c") 2) = ["a"; "b"].
Proof.
  exact (proj1 (head_lines_keeps_first_lines ("a" +:+ Py.nl +:+ "b" +:+ Py.nl +:+ "c") 2
                  ltac:(lia))).
Defined.

(** X2.  [tail_lines(text, n)] for [n >= 1] keeps exactly the last [n]
    lines of the text (all of them when there are fewer); for [n = 0] it
    returns the whole text, not the empty string. *)
Theorem tail_lines_keeps_last_lines text n :
  1 <= n ->
  Py.split_on Py.LF (Audit.tail_lines text n)
  = skipn (length (Py.split_on Py.LF text) - Z.to_nat n) (Py.split_on Py.LF text)
  /\ Audit.tail_lines text 0 = text.
Proof.
  intros Hn. unfold Audit.tail_lines, Py.slice_from, Py.nl. split.
  - destruct (Z.leb_spec n (Z.of_nat (length (Py.split_on Py.LF text)))) as [Hle|Hgt].
    + destruct (Z.ltb_spec (- n) 0) as [_|]; [|lia].
      replace (Z.to_nat (Z.of_nat (length (Py.split_on Py.LF text)) + - n))
        with (length (Py.split_on Py.LF text) - Z.to_nat n)%nat by lia.
      apply split_join.
      * intros E. apply (f_equal (@length _)) in E. rewrite length_skipn in E.
        simpl in E. lia.
      * apply Forall_skipn, split_on_clean.
    + replace (length (Py.split_on Py.LF text) - Z.to_nat n)%nat with O by lia.
      simpl. rewrite join_split. reflexivity.
  - destruct (Z.leb_spec 0 (Z.of_nat (length (Py.split_on Py.LF text)))) as [_|]; [|lia].
    simpl. apply join_split.
Qed.

Lemma tail_lines_keeps_last_lines_witness :
  Py.split_on Py.LF (Audit.tail_lines ("a" +:+ Py.nl +:+ "b" +:+ Py.nl +:+ "c") 2) = ["b"; "c"].
Proof.
  exact (proj1 (tail_lines_keeps_last_lines ("a" +:+ Py.nl +:+ "b" +:+ Py.nl +:+ "c") 2
                  ltac:(lia))).
Defined.

(** ** What a check adds to the issue list *)

Section AddsFacts.

Import Store Audit.

Lemma adds_refl issues : adds 0 issues issues.
Proof. exists []. now rewrite app_nil_r. Qed.

Lemma adds_add_issue now sev cat desc det issues :
  adds 1 issues (add_issue now sev cat desc det issues).
Proof. unfold add_issue. eexists. split; [reflexivity | simpl; lia]. Qed.

Lemma adds_trans a b x y z : adds a x y -> adds b y z -> adds (a + b) x z.
Proof.
  intros (k1 & -> & H1) (k2 & -> & H2). exists (k1 ++ k2).
  rewrite app_assoc, length_app. split; [reflexivity | lia].
Qed.

Lemma adds_weaken a b x y : (b <= a)%nat -> adds a x y -> adds b x y.
Proof. intros Hle (k & -> & H). exists k. split; [reflexivity | lia]. Qed.

Lemma adds_step a now sev cat desc det x y :
  adds a x y -> adds (S a) x (add_issue now sev cat desc det y).
Proof.
  intros H. replace (S a) with (a + 1)%nat by lia.
  eapply adds_trans; [exact H | apply adds_add_issue].
Qed.

Lemma adds_fold_left {A} (f : list issue -> A -> list issue) l issues :
  (forall acc x, adds 0 acc (f acc x)) -> adds 0 issues (fold_left f l issues).
Proof.
  intros Hf. revert issues. induction l as [|x l IH]; intros issues; simpl.
  - apply adds_refl.
  - apply (adds_trans 0 0 _ (f issues x)); [apply Hf | apply IH].
Qed.

Lemma adds_prefix lo issues issues' : adds lo issues issues' -> issues `prefix_of` issues'.
Proof. intros (k & -> & _). now exists k. Qed.

Lemma adds_length lo issues issues' :
  adds lo issues issues' -> (length issues + lo <= length issues')%nat.
Proof. intros (k & -> & H). rewrite length_app. lia. Qed.

End AddsFacts.

Create HintDb adds.
#[local] Hint Resolve adds_refl adds_add_issue adds_step : adds.

(** Every branch of a check's body, one goal each. *)
Ltac branches :=
  repeat match goal with
         | |- context [if ?b then _ else _] => destruct b eqn:?
         | |- context [match ?x with _ => _ end] => destruct x eqn:?
         end.

(** A goal [adds lo issues (add_issue ... (add_issue ... issues))]. *)
Ltac count_added :=
  solve [ eapply adds_weaken; [| eauto 8 with adds]; lia ].

(** ** The checks that only run commands *)

Section PlainChecks.

Import Store Checks Audit.

Variable now : nat -> string.
Variable run_command : list string -> completed.
Variable path_exists : string -> bool.

Lemma check_firewall_adds info issues :
  adds 0 issues (check_firewall now run_command info issues).
Proof. unfold check_firewall. branches; count_added. Qed.

Lemma check_selinux_apparmor_adds info issues :
  adds 0 issues (check_selinux_apparmor now run_command info issues).
Proof. unfold check_selinux_apparmor. branches; count_added. Qed.

Lemma check_open_ports_adds issues :
  adds 1 issues (check_open_ports now run_command issues).
Proof.
  unfold check_open_ports, dangerous_ports. cbn [fold_left]. branches; count_added.
Qed.

Lemma check_uptime_adds issues : adds 0 issues (check_uptime now run_command issues).
Proof. unfold check_uptime. branches; count_added. Qed.

Lemma check_zombie_processes_adds issues :
  adds 1 issues (check_zombie_processes now run_command issues).
Proof. unfold check_zombie_processes. branches; count_added. Qed.

Lemma check_systemd_failed_adds issues :
  adds 1 issues (check_systemd_failed now run_command issues).
Proof. unfold check_systemd_failed. branches; count_added. Qed.

Lemma check_dmesg_errors_adds issues :
  adds 1 issues (check_dmesg_errors now run_command issues).
Proof. unfold check_dmesg_errors. branches; count_added. Qed.

Lemma inode_row_adds line issues : adds 0 issues (inode_row now line issues).
Proof. unfold inode_row. branches; count_added. Qed.

Lemma check_inode_usage_adds issues :
  adds 0 issues (check_inode_usage now run_command issues).
Proof.
  unfold check_inode_usage. destruct (rc _ =? 0); [|count_added].
  apply adds_fold_left. intros. apply inode_row_adds.
Qed.

Lemma check_disk_smart_adds issues :
  adds 0 issues (check_disk_smart now run_command issues).
Proof.
  unfold check_disk_smart.
  destruct (negb (command_exists run_command "smartctl")); [count_added|].
  destruct (negb _); [count_added|].
  apply adds_fold_left. intros. branches; count_added.
Qed.

Lemma check_package_updates_adds info issues :
  adds 0 issues (check_package_updates now run_command info issues).
Proof. unfold check_package_updates. branches; count_added. Qed.

Lemma check_security_updates_adds info issues :
  adds 0 issues (check_security_updates now run_command info issues).
Proof. unfold check_security_updates. branches; count_added. Qed.

Lemma check_dns_resolution_adds issues :
  adds 1 issues (check_dns_resolution now run_command issues).
Proof. unfold check_dns_resolution. cbn [dns_loop]. branches; count_added. Qed.

Lemma check_default_gateway_adds issues :
  adds 1 issues (check_default_gateway now run_command issues).
Proof. unfold check_default_gateway. branches; count_added. Qed.

Lemma check_network_errors_adds issues :
  adds 0 issues (check_network_errors now run_command issues).
Proof. unfold check_network_errors. branches; count_added. Qed.

Lemma check_connectivity_adds issues :
  adds 1 issues (check_connectivity now run_command issues).
Proof. unfold check_connectivity. cbn [connectivity_loop]. branches; count_added. Qed.

Lemma check_iscsi_service_adds issues :
  adds 1 issues (check_iscsi_service now run_command issues).
Proof. unfold check_iscsi_service. cbn [iscsi_service_loop]. branches; count_added. Qed.

Lemma check_iscsi_sessions_adds issues :
  adds 1 issues (check_iscsi_sessions now run_command issues).
Proof. unfold check_iscsi_sessions. branches; count_added. Qed.

Lemma check_iscsi_multipath_adds issues :
  adds 1 issues (check_iscsi_multipath now run_command issues).
Proof. unfold check_iscsi_multipath. branches; count_added. Qed.

Lemma check_iscsi_targets_adds issues :
  adds 0 issues (check_iscsi_targets now run_command issues).
Proof. unfold check_iscsi_targets. branches; count_added. Qed.

Lemma check_iscsi_performance_adds issues :
  adds 1 issues (check_iscsi_performance now run_command issues).
Proof. unfold check_iscsi_performance. branches; count_added. Qed.

Lemma check_iscsi_errors_adds issues :
  adds 0 issues (check_iscsi_errors now run_command issues).
Proof. unfold check_iscsi_errors. branches; count_added. Qed.

Lemma filesystem_row_adds t line issues :
  adds 0 issues (filesystem_row now t line issues).
Proof. unfold filesystem_row. branches; count_added. Qed.

Lemma check_filesystem_usage_adds t df issues :
  adds 0 issues (check_filesystem_usage now t df issues).
Proof.
  unfold check_filesystem_usage. destruct (rc _ =? 0); [|count_added].
  apply adds_fold_left. intros. apply filesystem_row_adds.
Qed.

Lemma check_version_update_adds current repo disabled latest issues :
  adds 0 issues (check_version_update now current repo disabled latest issues).
Proof. unfold check_version_update. branches; count_added. Qed.

End PlainChecks.

(** ** The checks with an index, a conversion or a file read *)

Section IndexFacts.

Import Store Checks Audit.

(** [l[-1]] of a split never fails. *)
Lemma last_item_split sep s :
  exists field, Py.last_item (Py.split_on sep s) = Ret field.
Proof.
  unfold Py.last_item.
  destruct (last (Py.split_on sep s)) as [x|] eqn:E; [eauto|].
  apply last_None in E. now apply split_on_nonempty in E.
Qed.

Lemma startswith_app p s : Py.startswith p s = true -> exists rest, s = p +:+ rest.
Proof.
  revert s. induction p as [|a p IH]; intros s H; [now exists s|].
  destruct s as [|b s]; [discriminate|]. cbn [Py.startswith] in H.
  apply andb_true_iff in H as [Hab Hp]. apply Ascii.eqb_eq in Hab. subst b.
  destruct (IH _ Hp) as [rest ->]. now exists rest.
Qed.

(** After a prefix that ends with the separator, [split(sep)[1]] exists. *)
Lemma index_after_prefix sep p rest :
  Py.all_chars (fun c => negb (Ascii.eqb c sep)) p = true ->
  exists value,
    Py.index (Py.split_on sep (p +:+ String sep rest)) 1 = Ret value
    /\ nth 1 (Py.split_on sep (p +:+ String sep rest)) EmptyString = value.
Proof.
  intros Hp. rewrite (split_on_prefix _ _ _ Hp).
  destruct (Py.split_on sep rest) as [|h t] eqn:E; [now apply split_on_nonempty in E|].
  exists h. split; reflexivity.
Qed.

(** A line that matches [^\d+:] has a second field when split at colons. *)
Lemma split_after_digits line :
  Py.startswith ":" (Py.lstrip_by Py.is_digit line) = true ->
  (2 <= length (Py.split_on ":" line))%nat.
Proof.
  induction line as [|c r IH]; [discriminate|]. cbn [Py.lstrip_by].
  destruct (Py.is_digit c) eqn:Hd.
  - intros H. specialize (IH H). cbn [Py.split_on].
    destruct (Ascii.eqb_spec c ":") as [->|_]; [discriminate|].
    destruct (Py.split_on ":" r); simpl in *; lia.
  - cbn [Py.startswith]. intros H. apply andb_true_iff in H as [Hc _].
    apply Ascii.eqb_eq in Hc. subst c. cbn [Py.split_on]. rewrite Ascii.eqb_refl.
    pose proof (split_on_nonempty ":" r). destruct (Py.split_on ":" r); simpl; [congruence|lia].
Qed.

Lemma matches_index_field line :
  matches_index line = true ->
  exists field, Py.index (Py.split_on ":" line) 1 = Ret field.
Proof.
  unfold matches_index. destruct line as [|c r]; [discriminate|].
  intros H. apply andb_true_iff in H as [_ H]. apply split_after_digits in H.
  unfold Py.index. destruct (Py.split_on ":" (String c r)) as [|a [|b l]]; simpl in *; try lia.
  eauto.
Qed.

(** A line that matches [^\s*KEYWORD] is never a comment, whatever the
    keyword, as long as it does not itself start with the comment sign. *)
Lemma keyword_not_comment c keyword line :
  Ascii.eqb "#" c = false ->
  matches_keyword (String c keyword) line = true -> not_comment line = true.
Proof.
  unfold matches_keyword, not_comment, Py.strip. intros Hc H.
  destruct (Py.lstrip_by Py.is_space line) as [|a r] eqn:E; [discriminate|].
  destruct (lstrip_strip_head _ _ _ _ E) as [r' ->].
  cbn [Py.startswith] in H. apply andb_true_iff in H as [Ha _].
  apply Ascii.eqb_eq in Ha. subst a. cbn [Py.startswith]. now rewrite Hc.
Qed.

Lemma grep_output_matches matches text line :
  In line (grep_output matches text) -> matches line = true.
Proof. unfold grep_output. intros H. now apply List.filter_In in H. Qed.

End IndexFacts.

Section ResultChecks.

Import Store Checks Audit.

Variable now : nat -> string.
Variable run_command : list string -> completed.
Variable path_exists : string -> bool.
Variable read_file : string -> result string.

Lemma wheel_group_loop_one groups issues :
  exists i, wheel_group_loop now run_command groups issues = Ret (issues ++ [i]).
Proof.
  induction groups as [|group rest IH]; cbn [wheel_group_loop].
  - unfold add_issue. eauto.
  - destruct (rc _ =? 0); [|exact IH].
    destruct (last_item_split ":" (stdout (run_command ["getent"; "group"; group])))
      as [field ->].
    cbn [bind]. unfold add_issue. destruct (negb _); eauto.
Qed.

Lemma check_kernel_version_adds info issues :
  exists issues',
    check_kernel_version now run_command path_exists info issues = Ret issues'
    /\ adds 0 issues issues'.
Proof.
  unfold check_kernel_version.
  destruct (rc (run_command ["uname"; "-r"]) =? 0); [|eauto with adds].
  destruct (Py.opt_eqb _ _); [|eexists; split; [reflexivity|branches; count_added]].
  destruct (rc (run_command ["rpm"; "-q"; "kernel"]) =? 0);
    [|eexists; split; [reflexivity|branches; count_added]].
  destruct (last_item_split Py.LF (Py.strip (stdout (run_command ["rpm"; "-q"; "kernel"]))))
    as [newest ->].
  cbn [bind]. destruct (negb (Py.contains _ _));
    (eexists; split; [reflexivity|branches; count_added]).
Qed.

Lemma interface_rows_add lines issues :
  Forall (fun line => matches_index line = true) lines ->
  exists issues',
    for_each (interface_row now) lines issues = Ret issues' /\ adds 0 issues issues'.
Proof.
  intros H. revert issues. induction H as [|line lines Hl _ IH]; intros issues.
  - simpl. eauto with adds.
  - cbn [for_each]. unfold interface_row at 1.
    destruct (_ && _).
    + destruct (matches_index_field _ Hl) as [field ->]. cbn [bind].
      destruct (IH (add_issue now LOW "Networking"
                      ("Interface " +:+ Py.strip field +:+ " is DOWN") None issues))
        as (issues' & -> & Hadd).
      eexists. split; [reflexivity|].
      apply (adds_trans 1 0 _ _ _ (adds_add_issue _ _ _ _ _ _)) in Hadd.
      eapply adds_weaken; [|exact Hadd]. lia.
    + cbn [bind]. apply IH.
Qed.

Lemma check_network_interfaces_adds issues :
  exists issues',
    check_network_interfaces now run_command issues = Ret issues' /\ adds 1 issues issues'.
Proof.
  unfold check_network_interfaces.
  destruct (rc _ =? 0); [|eauto with adds].
  match goal with
  | |- context [for_each _ ?l ?i] =>
      destruct (interface_rows_add l i) as (issues' & -> & Hadd)
  end.
  - apply List.Forall_forall. intros line Hin. now apply grep_output_matches in Hin.
  - eexists. split; [reflexivity|].
    apply (adds_trans 1 0 _ _ _ (adds_add_issue _ _ _ _ _ _)) in Hadd. exact Hadd.
Qed.

Lemma listening_rows_return lines services :
  exists services', for_each listening_row lines services = Ret services'.
Proof.
  revert services. induction lines as [|line lines IH]; intros services; [simpl; eauto|].
  cbn [for_each]. unfold listening_row at 1.
  destruct (_ <=? _)%nat; [|cbn [bind]; apply IH].
  destruct (Py.contains _ _); [|cbn [bind]; apply IH].
  destruct (last_item_split ":" (nth 4 (Py.split_ws line) EmptyString)) as [port ->].
  cbn [bind]. apply IH.
Qed.

Lemma check_listening_services_adds issues :
  exists issues',
    check_listening_services now run_command issues = Ret issues' /\ adds 0 issues issues'.
Proof.
  unfold check_listening_services. cbv zeta.
  match goal with
  | |- context [for_each _ ?l ?i] =>
      destruct (listening_rows_return l i) as (services & ->)
  end.
  cbn [bind]. branches; (eexists; split; [reflexivity|count_added]).
Qed.

(** Only a failing read makes these checks raise. *)
Lemma check_failed_logins_adds issues :
  match check_failed_logins now path_exists read_file issues with
  | Ret issues' => exists i, issues' = issues ++ [i]
  | Raise e => is_PermissionError e = false /\ exists path, read_file path = Raise e
  end.
Proof.
  unfold check_failed_logins, add_issue.
  destruct (_ && _); [eauto|].
  destruct (read_file _) as [content|e] eqn:E.
  - branches; eauto.
  - destruct (is_PermissionError e) eqn:Hp; eauto.
Qed.

Lemma root_login_loop_one lines issues :
  lines <> [] ->
  Forall (fun line => not_comment line = true) lines ->
  exists i, root_login_loop now (rev lines) issues = issues ++ [i].
Proof.
  intros Hne H. destruct lines as [|x l] using rev_ind; [congruence|].
  rewrite rev_unit. cbn [root_login_loop].
  apply Forall_app in H as [_ Hx]. inversion Hx as [|? ? Hc _]; subst. rewrite Hc.
  unfold add_issue. destruct (Py.contains _ _); eauto.
Qed.

Lemma check_root_login_adds issues :
  match check_root_login now path_exists read_file issues with
  | Ret issues' => exists i, issues' = issues ++ [i]
  | Raise e => is_PermissionError e = false /\ exists path, read_file path = Raise e
  end.
Proof.
  unfold check_root_login.
  destruct (negb _); [unfold add_issue; eauto|].
  destruct (read_file _) as [content|e] eqn:E.
  - destruct (grep_output _ content) as [|line lines] eqn:G; [unfold add_issue; eauto|].
    rewrite <- G. apply root_login_loop_one; [rewrite G; discriminate|].
    apply List.Forall_forall. intros l Hin. apply grep_output_matches in Hin.
    revert Hin. apply keyword_not_comment. reflexivity.
  - destruct (is_PermissionError e) eqn:Hp; [unfold add_issue|]; eauto.
Qed.

Lemma check_password_policy_adds issues :
  match check_password_policy now path_exists read_file issues with
  | Ret issues' => exists i, issues' = issues ++ [i]
  | Raise e => is_PermissionError e = false /\ exists path, read_file path = Raise e
  end.
Proof.
  unfold check_password_policy, password_policy_body, add_issue.
  destruct (path_exists _); [|eauto].
  destruct (read_file _) as [content|e] eqn:E; cbn [bind].
  - destruct (grep_output _ content) as [|line lines]; [simpl; eauto|].
    destruct (existsb _ _); simpl; eauto.
  - destruct (is_PermissionError e) eqn:Hp; eauto.
Qed.

Lemma check_cpu_info_adds issues :
  match check_cpu_info now path_exists read_file issues with
  | Ret issues' => adds 0 issues issues'
  | Raise e => is_Exception e = false /\ exists path, read_file path = Raise e
  end.
Proof.
  unfold check_cpu_info. destruct (path_exists _); [|apply adds_refl].
  destruct (cpu_info_body now read_file issues) as [issues'|e] eqn:E.
  - unfold cpu_info_body in E. destruct (read_file _); [|discriminate]. cbn [bind] in E.
    destruct (grep_output (Py.contains "model name") _).
    + injection E as <-. count_added.
    + destruct (Py.index _ 0); [|discriminate]. cbn [bind] in E.
      destruct (Py.index _ 1); [|discriminate]. cbn [bind] in E.
      injection E as <-. count_added.
  - destruct (is_Exception e) eqn:He; [count_added|]. split; [exact He|].
    unfold cpu_info_body in E. destruct (read_file _) as [content|e'] eqn:R.
    + cbn [bind] in E. exfalso.
      destruct (grep_output (Py.contains "model name") _); [discriminate|].
      unfold Py.index in E.
      repeat match type of E with
             | context [match ?x with _ => _ end] => destruct x; cbn [bind] in E
             end; try discriminate; injection E as <-; discriminate.
    + cbn [bind] in E. injection E as ->. eauto.
Qed.

Lemma check_iscsi_timeouts_adds issues :
  match check_iscsi_timeouts now path_exists read_file issues with
  | Ret issues' => adds 0 issues issues'
  | Raise e => is_Exception e = false /\ exists path, read_file path = Raise e
  end.
Proof.
  unfold check_iscsi_timeouts. destruct (path_exists _); [|apply adds_refl].
  destruct (read_file _) as [text|e] eqn:E; [count_added|].
  destruct (is_Exception e) eqn:He; [apply adds_refl|eauto].
Qed.

End ResultChecks.


(** ** The memory, load and SSH checks, seen the same way *)

Section ClaimedChecks.

Import Store Checks.

Variable now : nat -> string.

Lemma check_memory_usage_one t free issues issues' :
  check_memory_usage now t free issues = Ret issues' -> exists i, issues' = issues ++ [i].
Proof.
  unfold check_memory_usage, add_issue. intros H.
  repeat match type of H with
         | context [if ?b then _ else _] => destruct b
         | context [bind ?m _] => destruct m; cbn [bind] in H
         end; try discriminate; injection H as <-; eauto.
Qed.

Lemma index_raises_exception {A} (l : list A) i e :
  Py.index l i = Raise e -> is_Exception e = true.
Proof. unfold Py.index. destruct (nth_error l i); [discriminate|]. now intros [= <-]. Qed.

Lemma float_call_raises_exception s e :
  PyFloat.float_call s = Raise e -> is_Exception e = true.
Proof. unfold PyFloat.float_call. destruct (PyFloat.of_str s); [discriminate|]. now intros [= <-]. Qed.

Lemma div_int_raises_exception x n e :
  PyFloat.div_int x n = Raise e -> is_Exception e = true.
Proof.
  unfold PyFloat.div_int, PyFloat.of_int. destruct (n =? 0); [now intros [= <-]|].
  destruct (PyFloat.is_infinite _); cbn [bind]; [now intros [= <-]|discriminate].
Qed.

Lemma bind_raise {A B} (m : result A) (k : A -> result B) e :
  bind m k = Raise e -> m = Raise e \/ exists a, m = Ret a /\ k a = Raise e.
Proof. destruct m as [a|e']; cbn [bind]; intros H; [right; eauto | left; now injection H as ->]. Qed.

Lemma read_loadavg_raises text e :
  read_loadavg (Ret text) = Raise e -> is_Exception e = true.
Proof.
  unfold read_loadavg. cbn [bind]. intros H.
  repeat (apply bind_raise in H as [H|(? & _ & H)];
          [first [now apply index_raises_exception in H
                 |now apply float_call_raises_exception in H]|]).
  discriminate.
Qed.

Lemma classify_load_raises t loads os_cpu_count issues e :
  classify_load now t loads os_cpu_count issues = Raise e -> is_Exception e = true.
Proof.
  unfold classify_load. destruct loads as [[load_1min load_5min] load_15min]. intros H.
  apply bind_raise in H as [H|(? & _ & H)]; [now apply div_int_raises_exception in H|].
  repeat match type of H with context [if ?b then _ else _] => destruct b end; discriminate.
Qed.

Lemma check_load_average_one t proc_loadavg os_cpu_count issues :
  match check_load_average now t proc_loadavg os_cpu_count issues with
  | Ret issues' => exists i, issues' = issues ++ [i]
  | Raise e => is_Exception e = false /\ proc_loadavg = Raise e
  end.
Proof.
  unfold check_load_average.
  destruct (bind _ _) as [issues'|e] eqn:E.
  - destruct (read_loadavg proc_loadavg) as [[[l1 l5] l15]|]; [|discriminate].
    cbn [bind] in E. unfold classify_load, add_issue in E.
    destruct (PyFloat.div_int _ _); [|discriminate]. cbn [bind] in E.
    repeat match type of E with context [if ?b then _ else _] => destruct b end;
      injection E as <-; eauto.
  - destruct (is_Exception e) eqn:He; [unfold add_issue; eauto|]. split; [exact He|].
    destruct proc_loadavg as [text|e'].
    + exfalso. apply bind_raise in E as [E|(? & _ & E)].
      * apply read_loadavg_raises in E. congruence.
      * apply classify_load_raises in E. congruence.
    + unfold read_loadavg in E. cbn [bind] in E. now injection E as ->.
Qed.

Section SshChecks.

Variable glob : string -> list string.
Variable read_file : string -> result string.

Lemma scan_authorized_keys_raises files rsa ed25519 e :
  scan_authorized_keys read_file files rsa ed25519 = Raise e ->
  is_PermissionError e = false /\ exists path, read_file path = Raise e.
Proof.
  revert rsa ed25519. induction files as [|f files IH]; intros rsa ed25519; [discriminate|].
  cbn [scan_authorized_keys]. destruct (read_file f) as [content|e'] eqn:R; [apply IH|].
  destruct (is_IOError e') eqn:Hio; [apply IH|]. intros [= ->]. split; [|eauto].
  unfold is_IOError in Hio. unfold is_PermissionError. destruct (exn_class e); congruence.
Qed.

Lemma check_ssh_status_one systemctl_sshd config_exists issues :
  match check_ssh_status now glob read_file systemctl_sshd config_exists issues with
  | Ret issues' => exists i, issues' = issues ++ [i]
  | Raise e => is_PermissionError e = false /\ exists path, read_file path = Raise e
  end.
Proof.
  unfold check_ssh_status.
  destruct (_ || _); [unfold add_issue; eauto|].
  destruct (negb config_exists); [unfold add_issue; eauto|].
  destruct (ssh_authentication now glob read_file issues) as [issues'|e] eqn:E.
  - unfold ssh_authentication, inspect_keys, add_issue in E.
    repeat match type of E with
           | context [bind ?m _] => destruct m; cbn [bind] in E
           | context [let '(_, _) := ?p in _] => destruct p
           | context [if ?b then _ else _] => destruct b
           end; try discriminate; injection E as <-; eauto.
  - destruct (is_PermissionError e) eqn:Hp; [unfold add_issue; eauto|]. split; [exact Hp|].
    unfold ssh_authentication in E.
    destruct (read_file "/etc/ssh/sshd_config") as [content|e'] eqn:R; cbn [bind] in E.
    + destruct (password_auth_enabled content); [discriminate|].
      destruct (pubkey_auth_enabled content); [|discriminate].
      unfold inspect_keys in E.
      destruct (host_keys _ _ _) as [weak strong].
      destruct (scan_authorized_keys _ _ _ _) as [[rsa ed]|e''] eqn:S; cbn [bind] in E.
      * repeat match type of E with
               | context [if ?b then _ else _] => destruct b
               end; discriminate.
      * injection E as ->. now apply scan_authorized_keys_raises in S.
    + injection E as ->. eauto.
Qed.

End SshChecks.

End ClaimedChecks.

(** ** [detect_os] *)

Section DetectFacts.

Import Store Checks Audit.

Variable run_command : list string -> completed.
Variable path_exists : string -> bool.

Lemma os_release_value_cons key default line lines :
  os_release_value key default (line :: lines)
  = if Py.startswith key line
    then os_release_value key
           (Py.strip_char Py.DQUOTE (nth 1 (Py.split_on "=" line) EmptyString)) lines
    else os_release_value key default lines.
Proof.
  unfold os_release_value. cbn [List.filter]. destruct (Py.startswith key line); [|reflexivity].
  rewrite last_cons. now destruct (last _).
Qed.

Lemma os_release_field key line :
  Py.startswith (key +:+ "=") line = true ->
  Py.all_chars (fun c => negb (Ascii.eqb c "=")) key = true ->
  exists value,
    Py.index (Py.split_on "=" line) 1 = Ret value
    /\ nth 1 (Py.split_on "=" line) EmptyString = value.
Proof.
  intros H Hk. apply startswith_app in H as [rest ->].
  rewrite append_assoc. now apply index_after_prefix.
Qed.

Lemma version_id_is_no_id line :
  Py.startswith "VERSION_ID=" line = true -> Py.startswith "ID=" line = false.
Proof.
  destruct line as [|c r]; [discriminate|]. cbn [Py.startswith].
  intros H. apply andb_true_iff in H as [Hc _]. apply Ascii.eqb_eq in Hc. now subst c.
Qed.

Lemma os_release_lines lines info :
  exists info',
    for_each os_release_line lines info = Ret info'
    /\ distribution info' = os_release_value "ID=" (distribution info) lines
    /\ version info' = os_release_value "VERSION_ID=" (version info) lines.
Proof.
  revert info. induction lines as [|line lines IH]; intros info.
  - exists info. repeat split.
  - cbn [for_each]. rewrite !os_release_value_cons. unfold os_release_line at 1.
    destruct (Py.startswith "ID=" line) eqn:Hid.
    + destruct (os_release_field "ID" line Hid eq_refl) as (value & -> & ->).
      cbn [bind].
      destruct (Py.startswith "VERSION_ID=" line) eqn:Hv;
        [apply version_id_is_no_id in Hv; congruence|].
      match goal with |- context [for_each _ _ ?i] => exact (IH i) end.
    + destruct (Py.startswith "VERSION_ID=" line) eqn:Hv.
      * destruct (os_release_field "VERSION_ID" line Hv eq_refl) as (value & -> & ->).
        cbn [bind]. match goal with |- context [for_each _ _ ?i] => exact (IH i) end.
      * cbn [bind]. apply IH.
Qed.

Lemma detect_os_returns :
  exists info, detect_os run_command path_exists = Ret info.
Proof.
  unfold detect_os.
  destruct (path_exists "/etc/os-release"); [|cbn [bind]; eauto].
  destruct (rc _ =? 0); [|cbn [bind]; eauto].
  match goal with
  | |- context [for_each _ ?l ?i] => destruct (os_release_lines l i) as (info & -> & _)
  end.
  cbn [bind]. eauto.
Qed.

End DetectFacts.

(** X3.  [detect_os] never raises: the index [[1]] it takes after
    splitting an [ID=] or [VERSION_ID=] line at the equals signs is always
    in range.  The distribution and the version it reports are the values
    of the last [ID=] and the last [VERSION_ID=] line of [/etc/os-release]
    (the text between the first and the second equals sign, without
    surrounding double quotes), and [Unknown] when there is no such line,
    the file does not exist or [cat] fails. *)
Theorem detect_os_reads_os_release run_command path_exists :
  let lines :=
    if path_exists "/etc/os-release" && (Store.rc (run_command ["cat"; "/etc/os-release"]) =? 0)
    then Py.split_on Py.LF (Store.stdout (run_command ["cat"; "/etc/os-release"]))
    else [] in
  exists info,
    Audit.detect_os run_command path_exists = Ret info
    /\ Audit.distribution info = Audit.os_release_value "ID=" "Unknown" lines
    /\ Audit.version info = Audit.os_release_value "VERSION_ID=" "Unknown" lines.
Proof.
  cbv zeta. unfold Audit.detect_os.
  destruct (path_exists "/etc/os-release"); [|cbn [bind andb]; eauto].
  destruct (Store.rc _ =? 0); [|cbn [bind andb]; eauto].
  cbn [andb].
  match goal with
  | |- context [Audit.for_each _ ?l ?i] =>
      destruct (os_release_lines l i) as (info & -> & Hd & Hv)
  end.
  cbn [bind]. eexists. split; [reflexivity|]. cbn [Audit.distribution Audit.version].
  now rewrite Hd, Hv.
Qed.

(** ** The whole sequence of checks on a machine *)

(** Membership in a list that is written out. *)
Ltac in_list := solve [repeat constructor].

Ltac decide_membership :=
  repeat match goal with
         | |- context [bool_decide ?P] =>
             let b := eval vm_compute in (bool_decide P) in
             change (bool_decide P) with b
         end;
  cbv iota.

(** A check that only runs commands. *)
Ltac plain_check lemma :=
  eapply adds_weaken; [|apply lemma]; lia.

(** A check that returns on every path. *)
Ltac total_check lemma :=
  unfold Runner.of_result;
  let H := fresh "H" in
  let issues' := fresh "issues'" in
  destruct lemma as (issues' & -> & H);
  eapply adds_weaken; [|exact H]; lia.

(** A check that adds to the list or lets an exception of a file read
    through. *)
Ltac reading_check lemma :=
  unfold Runner.of_result;
  let H := fresh "H" in
  pose proof lemma as H;
  match type of H with
  | match ?r with _ => _ end => destruct r
  end;
  [ first [ destruct H as [? ->]; eexists; split; [reflexivity|simpl; lia]
          | eapply adds_weaken; [|exact H]; lia ]
  | destruct H as [? ?]; repeat split;
    [ in_list
    | first [right; assumption | right; eauto]
    | intros; first [in_list | congruence] ] ].

Section MachineFacts.

Import Store Checks Audit Machine.

Lemma run_check_spec m info c issues :
  match run_check m info c issues with
  | (issues', None) =>
      adds (if bool_decide (c ∈ always_reports) then 1 else 0) issues issues'
  | (issues', Some e) =>
      issues' = issues
      /\ c ∈ can_raise
      /\ (c = Runner.memory_usage \/ exists path, read_file m path = Raise e)
      /\ (is_Exception e = true ->
          c ∈ [Runner.ssh_status; Runner.failed_logins; Runner.root_login;
               Runner.password_policy; Runner.memory_usage])
  end.
Proof.
  destruct c; cbn [run_check returns]; decide_membership.
  - plain_check check_version_update_adds.
  - reading_check (check_ssh_status_one (clock m) (glob m) (read_file m)
                     (run_command m ["systemctl"; "is-active"; "sshd"])
                     (path_exists m "/etc/ssh/sshd_config") issues).
  - unfold Runner.of_result, check_wheel_group.
    destruct (wheel_group_loop_one (clock m) (run_command m) ["wheel"; "sudo"] issues)
      as [i ->].
    eexists. split; [reflexivity|simpl; lia].
  - plain_check check_firewall_adds.
  - plain_check check_selinux_apparmor_adds.
  - reading_check (check_failed_logins_adds (clock m) (path_exists m) (read_file m) issues).
  - plain_check check_open_ports_adds.
  - reading_check (check_root_login_adds (clock m) (path_exists m) (read_file m) issues).
  - reading_check (check_password_policy_adds (clock m) (path_exists m) (read_file m) issues).
  - plain_check check_uptime_adds.
  - reading_check (check_load_average_one (clock m) (limits m)
                     (read_file m "/proc/loadavg") (os_cpu_count m) issues).
  - unfold Runner.of_result.
    destruct (check_memory_usage _ _ _ _) as [issues'|e] eqn:E.
    + apply check_memory_usage_one in E as [i ->].
      eexists. split; [reflexivity|simpl; lia].
    + repeat split; [in_list|now left|intros; in_list].
  - reading_check (check_cpu_info_adds (clock m) (path_exists m) (read_file m) issues).
  - plain_check check_zombie_processes_adds.
  - plain_check check_systemd_failed_adds.
  - plain_check check_dmesg_errors_adds.
  - plain_check check_filesystem_usage_adds.
  - plain_check check_inode_usage_adds.
  - plain_check check_disk_smart_adds.
  - plain_check check_package_updates_adds.
  - total_check (check_kernel_version_adds (clock m) (run_command m) (path_exists m)
                   info issues).
  - plain_check check_security_updates_adds.
  - total_check (check_network_interfaces_adds (clock m) (run_command m) issues).
  - plain_check check_dns_resolution_adds.
  - plain_check check_default_gateway_adds.
  - total_check (check_listening_services_adds (clock m) (run_command m) issues).
  - plain_check check_network_errors_adds.
  - plain_check check_connectivity_adds.
  - plain_check check_iscsi_service_adds.
  - plain_check check_iscsi_sessions_adds.
  - plain_check check_iscsi_multipath_adds.
  - plain_check check_iscsi_targets_adds.
  - plain_check check_iscsi_performance_adds.
  - reading_check (check_iscsi_timeouts_adds (clock m) (path_exists m) (read_file m) issues).
  - plain_check check_iscsi_errors_adds.
Qed.

Lemma world_check m w info c issues :
  detect_os m = Ret info ->
  Runner.check (world m w) c issues = run_check m info c issues.
Proof. intros H. unfold world. cbn [Runner.check]. now rewrite H. Qed.

Lemma run_checks_spec m w info cs s :
  detect_os m = Ret info ->
  match Runner.run_checks (world m w) cs s with
  | (s', None) =>
      adds (length (List.filter (fun c => bool_decide (c ∈ always_reports)) cs))
           (Runner.issues s) (Runner.issues s')
      /\ (forall c, c ∈ cs ->
          exists before after,
            adds 0 (Runner.issues s) before
            /\ run_check m info c before = (after, None)
            /\ adds 0 after (Runner.issues s'))
  | (s', Some e) =>
      adds 0 (Runner.issues s) (Runner.issues s')
      /\ exists c,
          last (Runner.started s') = Some c
          /\ c ∈ cs
          /\ c ∈ can_raise
          /\ (c = Runner.memory_usage \/ exists path, read_file m path = Raise e)
          /\ (is_Exception e = true ->
              c ∈ [Runner.ssh_status; Runner.failed_logins; Runner.root_login;
                   Runner.password_policy; Runner.memory_usage])
  end.
Proof.
  intros Hos. revert s. induction cs as [|c cs IH]; intros s.
  - simpl. split; [apply adds_refl|]. intros c Hc. inversion Hc.
  - cbn [Runner.run_checks]. unfold Runner.call.
    rewrite (world_check _ _ _ _ _ Hos).
    pose proof (run_check_spec m info c (Runner.issues s)) as Hc.
    destruct (run_check m info c (Runner.issues s)) as [issues1 [e|]] eqn:E.
    + destruct Hc as (-> & Hcan & Hfrom & Hexc). cbn [Runner.issues Runner.started].
      split; [apply adds_refl|]. exists c. rewrite last_snoc.
      repeat split; [constructor|assumption..].
    + specialize (IH {| Runner.issues := issues1;
                        Runner.started := Runner.started s ++ [c];
                        Runner.files := Runner.files s;
                        Runner.report_file := Runner.report_file s |}).
      destruct (Runner.run_checks _ cs _) as [s' [e|]]; cbn [Runner.issues] in IH.
      * destruct IH as (Hadd & c' & Hlast & Hin & Hrest).
        split.
        -- eapply adds_weaken; [|exact (adds_trans _ _ _ _ _ Hc Hadd)]. lia.
        -- exists c'. split; [exact Hlast|]. split; [now constructor|exact Hrest].
      * destruct IH as (Hadd & Hran). split.
        -- cbn [List.filter]. pose proof (adds_trans _ _ _ _ _ Hc Hadd) as Hall.
           eapply adds_weaken; [|exact Hall].
           destruct (bool_decide _); simpl; lia.
        -- intros c' Hin. apply elem_of_cons in Hin as [->|Hin].
           ++ exists (Runner.issues s), issues1.
              repeat split; [apply adds_refl|exact E|].
              eapply adds_weaken; [|exact Hadd]. lia.
           ++ destruct (Hran c' Hin) as (before & after & Hb & Hr & Ha).
              exists before, after. repeat split; [|exact Hr|exact Ha].
              eapply adds_weaken; [|exact (adds_trans _ _ _ _ _ Hc Hb)]. lia.
Qed.

End MachineFacts.

(** ** Exit status *)

Section ExitFacts.

Import Store Report Runner.

Lemma count_positive sev issues :
  0 < count_by_severity sev issues <-> exists i, In i issues /\ severity_of i = sev.
Proof.
  unfold count_by_severity. split.
  - intros H. destruct (List.filter _ issues) as [|i l] eqn:E; [simpl in H; lia|].
    assert (Hin : In i (List.filter (fun i => severity_eqb (severity_of i) sev) issues))
      by (rewrite E; now left).
    apply List.filter_In in Hin as [Hin Hs]. apply severity_eqb_eq in Hs. eauto.
  - intros (i & Hin & Hs).
    assert (Hf : In i (List.filter (fun i => severity_eqb (severity_of i) sev) issues)).
    { apply List.filter_In. split; [exact Hin|]. now apply severity_eqb_eq. }
    destruct (List.filter _ issues); [destruct Hf | simpl; lia].
Qed.

Lemma exit_code_counts issues :
  exit_code issues
  = if 0 <? count_by_severity CRITICAL issues then 2
    else if 0 <? count_by_severity HIGH issues then 1 else 0.
Proof. unfold exit_code. now rewrite !severity_counts_get_or. Qed.

Lemma report_and_exit_issues w os_info s :
  issues (fst (report_and_exit w os_info s)) = issues s.
Proof.
  unfold report_and_exit. destruct (render w os_info (issues s)) as [content path].
  destruct (open_for_writing w path); [reflexivity|].
  cbn [with_files issues files].
  destruct (if Delivery.GPG_ENABLED (gpg w) then _ else _) as [[p f]|e]; [|reflexivity].
  cbn [with_files issues files].
  destruct (if EMAIL_ENABLED w then _ else _); reflexivity.
Qed.

Lemma report_and_exit_status w os_info s s' status :
  report_and_exit w os_info s = (s', SysExit status) -> status = exit_code (issues s).
Proof.
  unfold report_and_exit. destruct (render w os_info (issues s)) as [content path].
  destruct (open_for_writing w path); [discriminate|].
  cbn [with_files issues files].
  destruct (if Delivery.GPG_ENABLED (gpg w) then _ else _) as [[p f]|e]; [|discriminate].
  cbn [with_files issues files].
  destruct (if EMAIL_ENABLED w then _ else _); [discriminate|]. now intros [= <- <-].
Qed.

(** A run that ends with [sys.exit]: the checks all returned, and the
    status is that of the issues they left. *)
Lemma main_exits w s s' status :
  main w s = (s', SysExit status) ->
  exists s1,
    run_checks w run_order s = (s1, None)
    /\ issues s' = issues s1 /\ status = exit_code (issues s1).
Proof.
  unfold main. destruct (detect_os w) as [os_info|]; [|discriminate].
  destruct (run_checks w run_order s) as [s1 [e|]]; [discriminate|].
  intros H. exists s1. split; [reflexivity|]. split.
  - rewrite <- (report_and_exit_issues w os_info s1). now rewrite H.
  - eapply report_and_exit_status. exact H.
Qed.

End ExitFacts.

(** X4.  The status [main] passes to [sys.exit] reflects the worst
    severity in the issue list: 2 exactly when some issue is CRITICAL,
    1 exactly when some issue is HIGH and none is CRITICAL, 0 exactly when
    no issue is CRITICAL or HIGH.  MEDIUM, LOW and INFO issues never
    change it. *)
Theorem exit_code_reflects_the_worst_severity issues :
  (Runner.exit_code issues = 2
   <-> exists i, In i issues /\ Store.severity_of i = Store.CRITICAL)
  /\ (Runner.exit_code issues = 1
      <-> (exists i, In i issues /\ Store.severity_of i = Store.HIGH)
          /\ ~ exists i, In i issues /\ Store.severity_of i = Store.CRITICAL)
  /\ (Runner.exit_code issues = 0
      <-> forall i, In i issues ->
            Store.severity_of i <> Store.CRITICAL /\ Store.severity_of i <> Store.HIGH).
Proof.
  rewrite exit_code_counts.
  pose proof (count_positive Store.CRITICAL issues) as Hc.
  pose proof (count_positive Store.HIGH issues) as Hh.
  assert (Hnone :
    (forall i, In i issues ->
       Store.severity_of i <> Store.CRITICAL /\ Store.severity_of i <> Store.HIGH)
    <-> ~ (exists i, In i issues /\ Store.severity_of i = Store.CRITICAL)
        /\ ~ (exists i, In i issues /\ Store.severity_of i = Store.HIGH)).
  { split.
    - intros H. split; intros (i & Hin & Hs); destruct (H i Hin); congruence.
    - intros [HC HH] i Hin. split; intros Hs; [apply HC|apply HH]; eauto. }
  rewrite Hnone. clear Hnone.
  destruct (Z.ltb_spec 0 (Report.count_by_severity Store.CRITICAL issues)) as [C|C];
    [|destruct (Z.ltb_spec 0 (Report.count_by_severity Store.HIGH issues)) as [H|H]].
  - apply Hc in C. repeat split; try discriminate; try tauto.
  - apply Hh in H. assert (~ exists i, In i issues /\ Store.severity_of i = Store.CRITICAL)
      by (intros X; apply Hc in X; lia).
    repeat split; try discriminate; try tauto.
  - assert (~ exists i, In i issues /\ Store.severity_of i = Store.CRITICAL)
      by (intros X; apply Hc in X; lia).
    assert (~ exists i, In i issues /\ Store.severity_of i = Store.HIGH)
      by (intros X; apply Hh in X; lia).
    repeat split; try discriminate; try tauto.
Qed.

(** ** A whole run *)

Section RunFacts.

Import Store Runner.

Lemma script_status w s s' status :
  script w s = (s', status) ->
  (exists st, main w s = (s', SysExit st) /\ status = st)
  \/ (exists e, main w s = (s', Uncaught e)
                /\ status = match exn_class e with KeyboardInterrupt => 130 | _ => 1 end).
Proof.
  unfold script. destruct (main w s) as [s1 [st|e]].
  - intros [= <- <-]. left. eauto.
  - intros H. right. exists e. destruct (exn_class e); injection H as <- <-; eauto.
Qed.

End RunFacts.

(** X5.  What the status means that the entry-point guard exits with,
    once the module-level code has run and the guard is entered, for every
    world: 0 means that [main] ran to its end and no issue is CRITICAL or
    HIGH; 2 means that it ran to its end and some issue is CRITICAL; 130
    means that a [KeyboardInterrupt] left [main]; 1 means either that
    [main] ran to its end with a HIGH issue, or that any other exception
    left [main]: the status does not tell the two apart. *)
Theorem exit_status_meaning w s s' status :
  Runner.script w s = (s', status) ->
  (status = 0
   /\ Runner.main w s = (s', Runner.SysExit 0)
   /\ forall i, In i (Runner.issues s') ->
        Store.severity_of i <> Store.CRITICAL /\ Store.severity_of i <> Store.HIGH)
  \/ (status = 2
      /\ Runner.main w s = (s', Runner.SysExit 2)
      /\ exists i, In i (Runner.issues s') /\ Store.severity_of i = Store.CRITICAL)
  \/ (status = 1
      /\ (Runner.main w s = (s', Runner.SysExit 1)
          /\ (exists i, In i (Runner.issues s') /\ Store.severity_of i = Store.HIGH)
          \/ exists e, Runner.main w s = (s', Runner.Uncaught e)
                       /\ exn_class e <> KeyboardInterrupt))
  \/ (status = 130
      /\ exists e, Runner.main w s = (s', Runner.Uncaught e)
                   /\ exn_class e = KeyboardInterrupt).
Proof.
  intros H. apply script_status in H as [(st & Hm & ->)|(e & Hm & ->)].
  - destruct (main_exits _ _ _ _ Hm) as (s1 & _ & Hi & Hst).
    rewrite <- Hi, exit_code_counts in Hst.
    pose proof (count_positive Store.CRITICAL (Runner.issues s')) as Hc.
    pose proof (count_positive Store.HIGH (Runner.issues s')) as Hh.
    destruct (Z.ltb_spec 0 (Report.count_by_severity Store.CRITICAL (Runner.issues s')))
      as [C|C];
      [|destruct (Z.ltb_spec 0 (Report.count_by_severity Store.HIGH (Runner.issues s')))
          as [H|H]]; subst st.
    + right. left. split; [reflexivity|]. split; [exact Hm|]. now apply Hc.
    + right. right. left. split; [reflexivity|]. left. split; [exact Hm|]. now apply Hh.
    + left. split; [reflexivity|]. split; [exact Hm|]. intros i Hin.
      split; intros Hs; [assert (X : 0 < Report.count_by_severity Store.CRITICAL
                                          (Runner.issues s')) by (apply Hc; eauto)
                        |assert (X : 0 < Report.count_by_severity Store.HIGH
                                          (Runner.issues s')) by (apply Hh; eauto)]; lia.
  - destruct (exn_class e) eqn:E.
    all: try (right; right; left; split; [reflexivity|]; right; exists e;
              split; [exact Hm|congruence]).
    right. right. right. split; [reflexivity|]. eauto.
Qed.

Lemma exit_status_meaning_witness :
  (1 = 0
   /\ Runner.main (Machine.world Scenario.no_memory Scenario.reporting) (Runner.initial ∅)
      = (fst (Runner.script (Machine.world Scenario.no_memory Scenario.reporting)
                (Runner.initial ∅)), Runner.SysExit 0)
   /\ forall i,
        In i (Runner.issues
                (fst (Runner.script (Machine.world Scenario.no_memory Scenario.reporting)
                        (Runner.initial ∅)))) ->
        Store.severity_of i <> Store.CRITICAL /\ Store.severity_of i <> Store.HIGH)
  \/ (1 = 2
      /\ Runner.main (Machine.world Scenario.no_memory Scenario.reporting) (Runner.initial ∅)
         = (fst (Runner.script (Machine.world Scenario.no_memory Scenario.reporting)
                   (Runner.initial ∅)), Runner.SysExit 2)
      /\ exists i,
           In i (Runner.issues
                   (fst (Runner.script (Machine.world Scenario.no_memory Scenario.reporting)
                           (Runner.initial ∅))))
           /\ Store.severity_of i = Store.CRITICAL)
  \/ (1 = 1
      /\ (Runner.main (Machine.world Scenario.no_memory Scenario.reporting)
            (Runner.initial ∅)
          = (fst (Runner.script (Machine.world Scenario.no_memory Scenario.reporting)
                    (Runner.initial ∅)), Runner.SysExit 1)
          /\ (exists i,
                In i (Runner.issues
                        (fst (Runner.script
                                (Machine.world Scenario.no_memory Scenario.reporting)
                                (Runner.initial ∅))))
                /\ Store.severity_of i = Store.HIGH)
          \/ exists e,
               Runner.main (Machine.world Scenario.no_memory Scenario.reporting)
                 (Runner.initial ∅)
               = (fst (Runner.script (Machine.world Scenario.no_memory Scenario.reporting)
                         (Runner.initial ∅)), Runner.Uncaught e)
               /\ exn_class e <> KeyboardInterrupt))
  \/ (1 = 130
      /\ exists e,
           Runner.main (Machine.world Scenario.no_memory Scenario.reporting)
             (Runner.initial ∅)
           = (fst (Runner.script (Machine.world Scenario.no_memory Scenario.reporting)
                     (Runner.initial ∅)), Runner.Uncaught e)
           /\ exn_class e = KeyboardInterrupt).
Proof.
  apply (exit_status_meaning (Machine.world Scenario.no_memory Scenario.reporting)
           (Runner.initial ∅)
           (fst (Runner.script (Machine.world Scenario.no_memory Scenario.reporting)
                   (Runner.initial ∅))) 1).
  vm_compute. reflexivity.
Defined.

Section WholeRun.

Import Store Runner.

Lemma machine_detect_os m : exists info, Machine.detect_os m = Ret info.
Proof. apply detect_os_returns. Qed.

Lemma adds_In lo issues issues' i : Audit.adds lo issues issues' -> In i issues -> In i issues'.
Proof. intros (k & -> & _) H. apply in_or_app. now left. Qed.

End WholeRun.

(** X6.  On every machine, an exception of class [Exception] can cut the
    sequence of checks short in five checks only: the four security checks
    that read a file and catch nothing but [PermissionError] (SSH status,
    failed logins, root login, password policy) and the memory check.
    Apart from the memory check it is always one that reading a file
    raised.  From the other 30 checks no [Exception] gets out:
    [run_command] and [check_github_releases] catch every [Exception], and
    the load, CPU and iSCSI timeout checks read their file under
    [except Exception].  Exceptions that are no [Exception], such as a
    [KeyboardInterrupt] while a command runs, are not spoken of. *)
Theorem only_file_reads_and_the_memory_check_abort m w s s' e :
  Runner.run_checks (Machine.world m w) Runner.run_order s = (s', Some e) ->
  is_Exception e = true ->
  exists c,
    last (Runner.started s') = Some c
    /\ c ∈ [Runner.ssh_status; Runner.failed_logins; Runner.root_login;
             Runner.password_policy; Runner.memory_usage]
    /\ (c = Runner.memory_usage \/ exists path, Machine.read_file m path = Raise e).
Proof.
  intros H He. destruct (machine_detect_os m) as [info Hos].
  pose proof (run_checks_spec m w info Runner.run_order s Hos) as Hspec.
  rewrite H in Hspec. destruct Hspec as (_ & c & Hlast & _ & _ & Hfrom & Hexc).
  exists c. repeat split; auto.
Qed.

Lemma only_file_reads_and_the_memory_check_abort_witness :
  exists c,
    last (Runner.started
            (fst (Runner.run_checks (Machine.world Scenario.no_memory Scenario.reporting)
                    Runner.run_order (Runner.initial ∅)))) = Some c
    /\ c ∈ [Runner.ssh_status; Runner.failed_logins; Runner.root_login;
             Runner.password_policy; Runner.memory_usage]
    /\ (c = Runner.memory_usage
        \/ exists path,
             Machine.read_file Scenario.no_memory path
             = Raise (Exn ZeroDivisionError "division by zero")).
Proof.
  apply (only_file_reads_and_the_memory_check_abort Scenario.no_memory Scenario.reporting
           (Runner.initial ∅)).
  - vm_compute. reflexivity.
  - reflexivity.
Defined.

(** X7.  On every machine, a run of [main] that reaches [sys.exit] has
    added at least 19 issues to the list it started with, and has removed
    or changed none: 19 of the checks add an issue on every path that
    returns.  So the report of a completed run is never empty. *)
Theorem completed_run_reports_at_least_19_issues m w s s' status :
  Runner.main (Machine.world m w) s = (s', Runner.SysExit status) ->
  exists added,
    Runner.issues s' = Runner.issues s ++ added /\ (19 <= length added)%nat.
Proof.
  intros H. apply main_exits in H as (s1 & Hrun & -> & _).
  destruct (machine_detect_os m) as [info Hos].
  pose proof (run_checks_spec m w info Runner.run_order s Hos) as Hspec.
  rewrite Hrun in Hspec. destruct Hspec as [Hadd _]. exact Hadd.
Qed.

Lemma completed_run_reports_at_least_19_issues_witness :
  exists added,
    Runner.issues (fst (Runner.main (Machine.world Scenario.bare Scenario.reporting)
                          (Runner.initial ∅)))
    = Runner.issues (Runner.initial ∅) ++ added /\ (19 <= length added)%nat.
Proof.
  apply (completed_run_reports_at_least_19_issues Scenario.bare Scenario.reporting
           (Runner.initial ∅) _ 1).
  vm_compute. reflexivity.
Defined.

Section FirewallFacts.

Import Store Runner.

Lemma detect_os_firewall run_command path_exists info :
  Audit.detect_os run_command path_exists = Ret info ->
  Audit.firewall info
  = if Audit.command_exists run_command "firewall-cmd" then Some "firewalld"
    else if Audit.command_exists run_command "ufw" then Some "ufw"
    else if Audit.command_exists run_command "iptables" then Some "iptables"
    else None.
Proof.
  unfold Audit.detect_os. intros H.
  match type of H with bind ?m _ = _ => destruct m; cbn [bind] in H; [|discriminate] end.
  now injection H as <-.
Qed.

Lemma exit_code_with_high issues i :
  In i issues -> severity_of i = HIGH -> exit_code issues <> 0.
Proof.
  intros Hin Hs. rewrite exit_code_counts.
  assert (0 < Report.count_by_severity HIGH issues) by (apply count_positive; eauto).
  destruct (0 <? Report.count_by_severity CRITICAL issues); [discriminate|].
  destruct (Z.ltb_spec 0 (Report.count_by_severity HIGH issues)); [discriminate|lia].
Qed.

End FirewallFacts.

(** X8.  On a machine where none of [firewall-cmd], [ufw] and [iptables]
    is found by [which], the script never exits with status 0, whatever
    else the machine holds: [detect_os] leaves the firewall unset,
    [check_firewall] adds its HIGH issue, no later check removes it, and
    every other way for the run to end gives status 1 or 130. *)
Theorem no_firewall_never_exits_zero m w s s' status :
  (forall cmd, In cmd ["firewall-cmd"; "ufw"; "iptables"] ->
     Store.rc (Machine.run_command m ["which"; cmd]) <> 0) ->
  Runner.script (Machine.world m w) s = (s', status) ->
  status <> 0.
Proof.
  intros Hnone H. apply script_status in H as [(st & Hm & ->)|(e & Hm & ->)];
    [|destruct (exn_class e); discriminate].
  apply main_exits in Hm as (s1 & Hrun & _ & ->).
  destruct (machine_detect_os m) as [info Hos].
  pose proof (run_checks_spec m w info Runner.run_order s Hos) as Hspec.
  rewrite Hrun in Hspec. destruct Hspec as [_ Hran].
  destruct (Hran Runner.firewall ltac:(in_list)) as (before & after & _ & Hr & Ha).
  cbn [Machine.run_check Machine.returns] in Hr. injection Hr as <-.
  pose proof (detect_os_firewall _ _ _ Hos) as Hf. unfold Audit.command_exists in Hf.
  repeat match type of Hf with
         | context [Store.rc (Machine.run_command m ["which"; ?cmd]) =? 0] =>
             let E := fresh in
             destruct (Z.eqb_spec (Store.rc (Machine.run_command m ["which"; cmd])) 0) as [E|_];
             [exfalso; revert E; apply Hnone; simpl; tauto|]
         end.
  unfold Audit.check_firewall in Ha. rewrite Hf in Ha. cbn [Py.opt_eqb] in Ha.
  eapply exit_code_with_high; [eapply adds_In; [exact Ha|]|].
  - unfold Store.add_issue. apply in_or_app. right. left. reflexivity.
  - reflexivity.
Qed.

Lemma no_firewall_never_exits_zero_witness :
  snd (Runner.script (Machine.world Scenario.bare Scenario.reporting) (Runner.initial ∅)) <> 0.
Proof.
  refine (no_firewall_never_exits_zero Scenario.bare Scenario.reporting (Runner.initial ∅)
            (fst (Runner.script (Machine.world Scenario.bare Scenario.reporting)
                    (Runner.initial ∅))) _ _ _).
  - intros cmd _. vm_compute. discriminate.
  - now destruct (Runner.script _ _).
Defined.

(** ** Properties of single checks *)

Section CheckFacts.

Import Store Checks Audit.

Variable now : nat -> string.

(** The backwards loop of [check_root_login] stops at the last line that
    is no comment. *)
Lemma root_login_loop_last lines issues :
  root_login_loop now (rev lines) issues
  = match last (List.filter not_comment lines) with
    | Some line =>
        if Py.contains "no" (Py.lower line) then
          add_issue now INFO "Security" "Root SSH login is disabled"
            (Some "Good security practice") issues
        else
          add_issue now HIGH "Security" "Root SSH login is enabled"
            (Some "PermitRootLogin should be set to 'no'") issues
    | None => issues
    end.
Proof.
  induction lines as [|line lines IH] using rev_ind; [reflexivity|].
  rewrite rev_unit, List.filter_app. cbn [root_login_loop List.filter].
  destruct (not_comment line).
  - now rewrite last_snoc.
  - now rewrite app_nil_r.
Qed.

Lemma filter_all {A} (f : A -> bool) l :
  Forall (fun x => f x = true) l -> List.filter f l = l.
Proof.
  induction 1 as [|x l Hx _ IH]; [reflexivity|]. simpl. now rewrite Hx, IH.
Qed.


End CheckFacts.

(** X9.  When [sshd_config] exists and can be read, [check_root_login]
    adds exactly one issue, and its severity is decided by the last line
    that matches [^\s*PermitRootLogin]: MEDIUM when there is no such line,
    INFO when that line contains [no] anywhere (in any letter case), HIGH
    otherwise.  The test for comments in the loop never skips a line: a
    line that starts with the comment sign does not match the pattern. *)
Theorem root_login_decided_by_last_directive now path_exists read_file issues content :
  path_exists "/etc/ssh/sshd_config" = true ->
  read_file "/etc/ssh/sshd_config" = Ret content ->
  exists i,
    Audit.check_root_login now path_exists read_file issues = Ret (issues ++ [i])
    /\ Store.severity_of i
       = match last (Checks.grep_output (Checks.matches_keyword "PermitRootLogin") content)
         with
         | None => Store.MEDIUM
         | Some line =>
             if Py.contains "no" (Py.lower line) then Store.INFO else Store.HIGH
         end.
Proof.
  intros He Hr. unfold Audit.check_root_login. rewrite He, Hr. cbn [negb].
  destruct (Checks.grep_output _ content) as [|line lines] eqn:G.
  - unfold Store.add_issue. eexists. split; [reflexivity|reflexivity].
  - rewrite <- G, root_login_loop_last, filter_all.
    + destruct (last _) as [l|] eqn:L.
      * unfold Store.add_issue. destruct (Py.contains "no" (Py.lower l));
          eexists; split; reflexivity.
      * apply last_None in L. congruence.
    + apply List.Forall_forall. intros l Hin. apply grep_output_matches in Hin.
      revert Hin. apply keyword_not_comment. reflexivity.
Qed.

Lemma root_login_decided_by_last_directive_witness :
  exists i,
    Audit.check_root_login Sample.clock (fun _ => true)
      (fun _ => Ret ("PermitRootLogin yes" +:+ Py.nl +:+ "  PermitRootLogin No" +:+ Py.nl
                       +:+ "#PermitRootLogin yes" +:+ Py.nl)) []
    = Ret ([] ++ [i])
    /\ Store.severity_of i = Store.INFO.
Proof.
  exact (root_login_decided_by_last_directive Sample.clock (fun _ => true)
           (fun _ => Ret ("PermitRootLogin yes" +:+ Py.nl +:+ "  PermitRootLogin No" +:+ Py.nl
                            +:+ "#PermitRootLogin yes" +:+ Py.nl)) [] _ eq_refl eq_refl).
Defined.



(** X11.  When [dmesg] succeeds with output that is not blank,
    [check_dmesg_errors] adds exactly one issue, and the number of kernel
    errors it reports is the number of newline characters of the output
    plus one: an output of [k] lines that each end with a newline counts
    as [k + 1] errors.  The severity is HIGH above 50, MEDIUM above 10 and
    LOW otherwise, on that number. *)
Theorem dmesg_counts_one_more_than_newlines now run_command issues :
  let dmesg := run_command ["dmesg"; "-l"; "err,crit,alert,emerg"] in
  let n := Z.of_nat (Py.count_char Py.LF (Store.stdout dmesg)) + 1 in
  Store.rc dmesg = 0 ->
  Py.strip (Store.stdout dmesg) <> EmptyString ->
  exists i,
    Audit.check_dmesg_errors now run_command issues = issues ++ [i]
    /\ Store.severity_of i
       = (if 50 <? n then Store.HIGH else if 10 <? n then Store.MEDIUM else Store.LOW)
    /\ Store.description i
       = Py.str_of_int n
           +:+ (if 10 <? n then " kernel errors in dmesg" else " kernel error(s) in dmesg").
Proof.
  cbv zeta. intros Hrc Hs. unfold Audit.check_dmesg_errors. rewrite Hrc. cbn [Z.eqb].
  unfold Py.nonempty.
  destruct (String.eqb_spec (Py.strip (Store.stdout (run_command ["dmesg"; "-l"; "err,crit,alert,emerg"])))
              EmptyString) as [E|_]; [congruence|].
  cbn [negb]. rewrite split_on_length.
  replace (Z.of_nat (S (Py.count_char Py.LF (Store.stdout (run_command ["dmesg"; "-l"; "err,crit,alert,emerg"])))))
    with (Z.of_nat (Py.count_char Py.LF (Store.stdout (run_command ["dmesg"; "-l"; "err,crit,alert,emerg"]))) + 1)
    by lia.
  set (n := Z.of_nat _ + 1). unfold Store.add_issue.
  destruct (Z.ltb_spec 50 n); [|destruct (Z.ltb_spec 10 n)].
  - destruct (Z.ltb_spec 10 n); [|lia]. eexists. repeat split.
  - eexists. repeat split.
  - eexists. repeat split.
Qed.

Lemma dmesg_counts_one_more_than_newlines_witness :
  exists i,
    Audit.check_dmesg_errors Sample.clock
      (fun _ => Store.Completed 0 ("[1.0] ata1: hard resetting link" +:+ Py.nl) "") []
    = [] ++ [i]
    /\ Store.severity_of i = Store.LOW
    /\ Store.description i = "2 kernel error(s) in dmesg".
Proof.
  exact (dmesg_counts_one_more_than_newlines Sample.clock
           (fun _ => Store.Completed 0 ("[1.0] ata1: hard resetting link" +:+ Py.nl) "") []
           eq_refl ltac:(discriminate)).
Defined.

Section PortFacts.

Import Store Checks Audit.

Lemma skipn_app_length {A} (l k : list A) : skipn (length l) (l ++ k) = k.
Proof. induction l; simpl; auto. Qed.

Variable now : nat -> string.

(** The loop over the insecure ports adds one CRITICAL issue for each port
    that some line shows, in the order of the dictionary. *)
Lemma insecure_ports_loop (listening : list string) ports issues :
  exists added,
    fold_left
      (fun issues '(port, service) =>
         if existsb (Py.contains (":" +:+ port +:+ " ")) listening then
           add_issue now CRITICAL "Security"
             ("Insecure service " +:+ service +:+ " listening on port " +:+ port)
             (Some ("Port " +:+ port +:+ " should not be exposed")) issues
         else issues)
      ports issues
    = issues ++ added
    /\ map (fun i => (severity_of i, description i)) added
       = map (fun '(port, service) =>
                (CRITICAL, "Insecure service " +:+ service +:+ " listening on port " +:+ port))
             (List.filter
                (fun '(port, _) => existsb (Py.contains (":" +:+ port +:+ " ")) listening)
                ports).
Proof.
  revert issues. induction ports as [|[port service] ports IH]; intros issues.
  - exists []. now rewrite app_nil_r.
  - cbn [fold_left List.filter].
    destruct (existsb (Py.contains (":" +:+ port +:+ " ")) listening).
    + destruct (IH (add_issue now CRITICAL "Security"
                      ("Insecure service " +:+ service +:+ " listening on port " +:+ port)
                      (Some ("Port " +:+ port +:+ " should not be exposed")) issues))
        as (added & -> & Hm).
      unfold add_issue. rewrite <- app_assoc. eexists. split; [reflexivity|].
      cbn [map app severity_of description]. now rewrite Hm.
    + apply IH.
Qed.

End PortFacts.

(** X12.  When the listing succeeds ([ss -tuln], or [netstat -tuln] if
    [ss] fails), [check_open_ports] adds first one issue with the number
    of lines that contain [LISTEN] (MEDIUM above 20, INFO otherwise) and
    then one CRITICAL issue for each of the ports 23, 21, 69, 513, 514, in
    this order, for which some such line contains the port between a
    colon and a blank; it adds nothing else. *)
Theorem open_ports_reports_each_insecure_service now run_command issues :
  let ss := run_command ["ss"; "-tuln"] in
  let listing := if Store.rc ss =? 0 then ss else run_command ["netstat"; "-tuln"] in
  let listening := Checks.grep_output (Py.contains "LISTEN") (Store.stdout listing) in
  let count := Z.of_nat (length listening) in
  Store.rc listing = 0 ->
  map (fun i => (Store.severity_of i, Store.description i))
      (skipn (length issues) (Audit.check_open_ports now run_command issues))
  = (if 20 <? count then Store.MEDIUM else Store.INFO,
     Py.str_of_int count +:+ " listening ports detected")
    :: map (fun '(port, service) =>
              (Store.CRITICAL,
               "Insecure service " +:+ service +:+ " listening on port " +:+ port))
           (List.filter
              (fun '(port, _) => existsb (Py.contains (":" +:+ port +:+ " ")) listening)
              Audit.dangerous_ports).
Proof.
  cbv zeta. intros Hrc. unfold Audit.check_open_ports.
  assert (Hl : (if negb (Store.rc (run_command ["ss"; "-tuln"]) =? 0)
                then run_command ["netstat"; "-tuln"] else run_command ["ss"; "-tuln"])
               = (if Store.rc (run_command ["ss"; "-tuln"]) =? 0
                  then run_command ["ss"; "-tuln"] else run_command ["netstat"; "-tuln"]))
    by now destruct (Store.rc (run_command ["ss"; "-tuln"]) =? 0).
  cbv zeta. rewrite Hl, Hrc. cbn [Z.eqb].
  match goal with
  | |- context [fold_left _ _ ?first] =>
      destruct (insecure_ports_loop now
                  (Checks.grep_output (Py.contains "LISTEN")
                     (Store.stdout
                        (if Store.rc (run_command ["ss"; "-tuln"]) =? 0
                         then run_command ["ss"; "-tuln"]
                         else run_command ["netstat"; "-tuln"])))
                  Audit.dangerous_ports first) as (added & -> & Hm)
  end.
  destruct (20 <? _); unfold Store.add_issue;
    rewrite <- app_assoc, skipn_app_length; cbn [map app]; now rewrite Hm.
Qed.

Lemma open_ports_reports_each_insecure_service_witness :
  map (fun i => (Store.severity_of i, Store.description i))
      (skipn (length (@nil Store.issue))
         (Audit.check_open_ports Sample.clock
            (fun _ => Store.Completed 0
                        ("tcp LISTEN 0 128 0.0.0.0:22 0.0.0.0:*" +:+ Py.nl
                           +:+ "tcp LISTEN 0 128 0.0.0.0:23 0.0.0.0:*" +:+ Py.nl) "")
            []))
  = [(Store.INFO, "2 listening ports detected");
     (Store.CRITICAL, "Insecure service Telnet listening on port 23")].
Proof.
  exact (open_ports_reports_each_insecure_service Sample.clock
           (fun _ => Store.Completed 0
                       ("tcp LISTEN 0 128 0.0.0.0:22 0.0.0.0:*" +:+ Py.nl
                          +:+ "tcp LISTEN 0 128 0.0.0.0:23 0.0.0.0:*" +:+ Py.nl) "")
           [] eq_refl).
Defined.

(** ** Properties of single checks, continued *)

Section LoopFacts.

Import Store Checks Audit.

Variable now : nat -> string.
Variable run_command : list string -> completed.

(** The loop over the interfaces adds one LOW issue for each line of an
    interface that is down and is not the loopback. *)
Lemma interface_rows lines issues :
  Forall (fun line => matches_index line = true) lines ->
  exists added,
    for_each (interface_row now) lines issues = Ret (issues ++ added)
    /\ map (fun i => (severity_of i, description i)) added
       = map (fun line =>
                (LOW, "Interface " +:+ Py.strip (nth 1 (Py.split_on ":" line) EmptyString)
                        +:+ " is DOWN"))
             (List.filter
                (fun line => Py.contains "state DOWN" line && negb (Py.contains "lo:" line))
                lines).
Proof.
  intros H. revert issues. induction H as [|line lines Hl _ IH]; intros issues.
  - exists []. now rewrite app_nil_r.
  - cbn [for_each List.filter]. unfold interface_row at 1.
    destruct (_ && _).
    + destruct (matches_index_field _ Hl) as [field Hf].
      assert (Hn : nth 1 (Py.split_on ":" line) EmptyString = field).
      { unfold Py.index in Hf. destruct (Py.split_on ":" line) as [|a [|b l]];
          simpl in *; congruence. }
      rewrite Hf. cbn [bind].
      destruct (IH (add_issue now LOW "Networking"
                      ("Interface " +:+ Py.strip field +:+ " is DOWN") None issues))
        as (added & -> & Hm).
      unfold add_issue. rewrite <- app_assoc. eexists. split; [reflexivity|].
      cbn [map app severity_of description]. now rewrite Hm, Hn.
    + cbn [bind]. apply IH.
Qed.

(** The loop over the devices adds at most one issue for each device. *)
Lemma smart_loop devices issues :
  exists added,
    fold_left
      (fun issues device =>
         if rc (run_command ["smartctl"; "-H"; device]) =? 0 then
           if Py.contains "PASSED" (stdout (run_command ["smartctl"; "-H"; device])) then
             add_issue now INFO "Storage" ("SMART status OK for " +:+ device) None issues
           else if Py.contains "FAILED" (stdout (run_command ["smartctl"; "-H"; device])) then
             add_issue now CRITICAL "Storage" ("SMART status FAILED for " +:+ device)
               (Some "Disk may be failing - backup data immediately") issues
           else issues
         else issues)
      devices issues
    = issues ++ added
    /\ (length added <= length devices)%nat
    /\ Forall (fun i => severity_of i = INFO \/ severity_of i = CRITICAL) added.
Proof.
  revert issues. induction devices as [|device devices IH]; intros issues.
  - exists []. rewrite app_nil_r. repeat split; [simpl; lia|constructor].
  - cbn [fold_left].
    destruct (rc _ =? 0); [destruct (Py.contains "PASSED" _);
                           [|destruct (Py.contains "FAILED" _)]|].
    all: match goal with
         | |- context [fold_left _ _ (add_issue ?n ?s ?c ?d ?e ?i)] =>
             destruct (IH (add_issue n s c d e i)) as (added & -> & Hlen & Hsev);
             unfold add_issue; rewrite <- app_assoc; eexists;
             split; [reflexivity|]; split; [simpl; lia|];
             constructor; [simpl; tauto|exact Hsev]
         | _ =>
             destruct (IH issues) as (added & -> & Hlen & Hsev);
             eexists; split; [reflexivity|]; split; [simpl; lia|exact Hsev]
         end.
Qed.

End LoopFacts.

(** X13.  When [ip link show] succeeds, [check_network_interfaces] never
    raises: the index [[1]] it takes after splitting a line at the colons
    is always in range, because the line matched [^\d+:].  It adds first
    one INFO issue with the three counts and then one LOW issue for each
    interface line that contains [state DOWN] and does not contain [lo:],
    in the order of the output, naming the text between the first and the
    second colon; it adds nothing else. *)
Theorem network_interfaces_reports_each_down_interface now run_command issues :
  let ip := run_command ["ip"; "link"; "show"] in
  let interfaces := Checks.grep_output Audit.matches_index (Store.stdout ip) in
  Store.rc ip = 0 ->
  exists issues',
    Audit.check_network_interfaces now run_command issues = Ret issues'
    /\ map (fun i => (Store.severity_of i, Store.description i))
           (skipn (length issues) issues')
       = (Store.INFO,
          "Network interfaces: " +:+ Py.str_of_int (Z.of_nat (length interfaces))
            +:+ " total, "
            +:+ Py.str_of_int (Audit.grep_count (Py.contains "state UP") (Store.stdout ip))
            +:+ " up, "
            +:+ Py.str_of_int (Audit.grep_count (Py.contains "state DOWN") (Store.stdout ip))
            +:+ " down")
         :: map (fun line =>
                   (Store.LOW,
                    "Interface "
                      +:+ Py.strip (nth 1 (Py.split_on ":" line) EmptyString)
                      +:+ " is DOWN"))
                (List.filter
                   (fun line =>
                      Py.contains "state DOWN" line && negb (Py.contains "lo:" line))
                   interfaces).
Proof.
  cbv zeta. intros Hrc. unfold Audit.check_network_interfaces. rewrite Hrc. cbn [Z.eqb].
  cbv zeta.
  match goal with
  | |- context [Audit.for_each _ ?l ?first] =>
      destruct (interface_rows now l first) as (added & -> & Hm)
  end.
  - apply List.Forall_forall. intros line Hin. now apply grep_output_matches in Hin.
  - eexists. split; [reflexivity|]. unfold Store.add_issue.
    rewrite <- app_assoc, skipn_app_length. cbn [map app]. now rewrite Hm.
Qed.

Lemma network_interfaces_reports_each_down_interface_witness :
  exists issues',
    Audit.check_network_interfaces Sample.clock
      (fun _ => Store.Completed 0
                  ("1: lo: <LOOPBACK> mtu 65536 state DOWN" +:+ Py.nl
                     +:+ "    link/loopback 00:00:00:00:00:00" +:+ Py.nl
                     +:+ "2: eth0: <BROADCAST> mtu 1500 state DOWN" +:+ Py.nl) "") []
    = Ret issues'
    /\ map (fun i => (Store.severity_of i, Store.description i)) (skipn 0 issues')
       = [(Store.INFO, "Network interfaces: 2 total, 0 up, 2 down");
          (Store.LOW, "Interface eth0 is DOWN")].
Proof.
  exact (network_interfaces_reports_each_down_interface Sample.clock
           (fun _ => Store.Completed 0
                       ("1: lo: <LOOPBACK> mtu 65536 state DOWN" +:+ Py.nl
                          +:+ "    link/loopback 00:00:00:00:00:00" +:+ Py.nl
                          +:+ "2: eth0: <BROADCAST> mtu 1500 state DOWN" +:+ Py.nl) "")
           [] eq_refl).
Defined.

(** X14.  [check_disk_smart] adds at most five issues, however many block
    devices [lsblk] lists; when [smartctl] is there and [lsblk] succeeds it
    adds at most one issue for each device, each of them INFO or CRITICAL.
    It changes no issue that is already in the list. *)
Theorem disk_smart_adds_at_most_five_issues now run_command issues :
  exists added,
    Audit.check_disk_smart now run_command issues = issues ++ added
    /\ (length added <= 5)%nat
    /\ (Audit.command_exists run_command "smartctl" = true ->
        Store.rc (run_command ["lsblk"; "-d"; "-n"; "-o"; "NAME"]) = 0 ->
        (length added
         <= length (Audit.smart_devices
                      (Store.stdout (run_command ["lsblk"; "-d"; "-n"; "-o"; "NAME"]))))%nat
        /\ Forall (fun i => Store.severity_of i = Store.INFO
                            \/ Store.severity_of i = Store.CRITICAL) added).
Proof.
  unfold Audit.check_disk_smart. cbv zeta.
  destruct (Audit.command_exists run_command "smartctl"); cbn [negb].
  - destruct (Z.eqb_spec (Store.rc (run_command ["lsblk"; "-d"; "-n"; "-o"; "NAME"])) 0)
      as [E|E]; cbn [negb].
    + destruct (smart_loop now run_command
                  (Py.slice_to 5
                     (Audit.smart_devices
                        (Store.stdout (run_command ["lsblk"; "-d"; "-n"; "-o"; "NAME"]))))
                  issues) as (added & -> & Hlen & Hsev).
      exists added. split; [reflexivity|].
      unfold Py.slice_to in Hlen. cbn [Z.ltb Z.compare] in Hlen.
      rewrite length_firstn in Hlen.
      split; [change (Z.to_nat 5) with 5%nat in Hlen; lia|].
      intros _ _. split; [lia|exact Hsev].
    + unfold Store.add_issue. eexists. split; [reflexivity|].
      split; [simpl; lia|]. intros _ H. congruence.
  - unfold Store.add_issue. eexists. split; [reflexivity|].
    split; [simpl; lia|]. discriminate.
Qed.

Section ReplaceFacts.

Lemma startswith_refl_app p s : Py.startswith p (p +:+ s) = true.
Proof. induction p as [|c p IH]; [reflexivity|]. simpl. now rewrite Ascii.eqb_refl. Qed.


(** Dropping the rest of an occurrence. *)
Lemma replace_from_skip old new p s :
  Py.replace_from old new (String.length p) (p +:+ s) = Py.replace_from old new 0 s.
Proof. induction p as [|c p IH]; [reflexivity|]. simpl. exact IH. Qed.

(** A text that does not contain [old] is left as it is. *)
Lemma replace_absent old new s :
  Py.contains old s = false -> Py.replace old new s = s.
Proof.
  unfold Py.replace. induction s as [|c r IH]; [reflexivity|].
  cbn [Py.contains Py.replace_from]. intros H. apply orb_false_iff in H as [Hs Hr].
  rewrite Hs, (IH Hr). reflexivity.
Qed.

(** A leading occurrence is replaced, and the replacement goes on after it. *)
Lemma replace_leading c old new s :
  Py.replace (String c old) new (String c old +:+ s)
  = new +:+ Py.replace (String c old) new s.
Proof.
  unfold Py.replace.
  change (String c old +:+ s) with (String c (old +:+ s)).
  cbn [Py.replace_from].
  change (String c (old +:+ s)) with (String c old +:+ s).
  rewrite startswith_refl_app. cbn [String.length]. rewrite Nat.sub_1_r. cbn [pred].
  now rewrite replace_from_skip.
Qed.

End ReplaceFacts.

(** X15.  On an RPM system where [uname -r] and [rpm -q kernel] succeed
    and the last line of the package list is [kernel-] followed by a
    version [newest] (that does not itself contain [kernel-]),
    [check_kernel_version] never raises; it reports the running kernel
    (and the pending reboot when [/var/run/reboot-required] exists), and it
    adds the MEDIUM issue [Running kernel is not the latest installed]
    exactly when the running version does not occur in [newest]. *)
Theorem kernel_version_compares_with_newest_package now run_command
    (path_exists : string -> bool) info issues (newest : string) :
  let running := Py.strip (Store.stdout (run_command ["uname"; "-r"])) in
  let rpm := run_command ["rpm"; "-q"; "kernel"] in
  let reported :=
    let issues :=
      Store.add_issue now Store.INFO "Updates" ("Running kernel: " +:+ running) None issues in
    if path_exists "/var/run/reboot-required" then
      Store.add_issue now Store.HIGH "Updates" "System reboot required"
        (Some "New kernel or critical updates installed") issues
    else issues in
  Store.rc (run_command ["uname"; "-r"]) = 0 ->
  Audit.package_manager info = Some "rpm" ->
  Store.rc rpm = 0 ->
  List.last (Py.split_on Py.LF (Py.strip (Store.stdout rpm))) EmptyString
    = "kernel-" +:+ newest ->
  Py.contains "kernel-" newest = false ->
  Audit.check_kernel_version now run_command path_exists info issues
  = Ret (if Py.contains running newest then reported
         else Store.add_issue now Store.MEDIUM "Updates"
                "Running kernel is not the latest installed"
                (Some ("Running: " +:+ running +:+ ", Latest: " +:+ newest)) reported).
Proof.
  cbv zeta. intros Huname Hpm Hrpm Hlast Hclean.
  unfold Audit.check_kernel_version. rewrite Huname, Hpm, Hrpm. cbn [Z.eqb Py.opt_eqb].
  rewrite String.eqb_refl.
  assert (Hitem : Py.last_item (Py.split_on Py.LF
                     (Py.strip (Store.stdout (run_command ["rpm"; "-q"; "kernel"]))))
                  = Ret ("kernel-" +:+ newest)).
  { destruct (last_item_split Py.LF
                (Py.strip (Store.stdout (run_command ["rpm"; "-q"; "kernel"]))))
      as [field Hf].
    rewrite Hf. f_equal. rewrite <- Hlast. unfold Py.last_item in Hf.
    destruct (last _) as [x|] eqn:L; [|discriminate]. injection Hf as <-.
    clear -L. induction (Py.split_on _ _) as [|a l IH]; [discriminate|].
    destruct l; [now injection L as ->|]. apply IH. exact L. }
  rewrite Hitem. cbn [bind].
  rewrite (replace_leading "k" "ernel-" "" newest), (replace_absent _ _ _ Hclean).
  change ("" +:+ newest) with newest. cbv zeta.
  destruct (Py.contains (Py.strip (Store.stdout (run_command ["uname"; "-r"]))) newest);
    reflexivity.
Qed.

Lemma kernel_version_compares_with_newest_package_witness :
  Audit.check_kernel_version Sample.clock (Machine.run_command Scenario.rocky)
    (fun _ => false) Scenario.rocky_info []
  = Ret [Store.Issue Store.INFO "Updates" "Running kernel: 5.14.0-362.el9.x86_64" None
           "2024-05-01T10:00:00"].
Proof.
  exact (kernel_version_compares_with_newest_package Sample.clock
           (Machine.run_command Scenario.rocky) (fun _ => false) Scenario.rocky_info []
           "5.14.0-362.el9.x86_64" eq_refl eq_refl eq_refl eq_refl eq_refl).
Defined.

Section LastFacts.

Lemma last_item_default (l : list string) :
  l <> [] -> Py.last_item l = Ret (List.last l EmptyString).
Proof.
  unfold Py.last_item. induction l as [|a l IH]; [congruence|]. intros _.
  destruct l as [|b l]; [reflexivity|].
  rewrite last_cons. specialize (IH ltac:(discriminate)).
  destruct (last (b :: l)) as [x|] eqn:L; [|discriminate].
  change (List.last (a :: b :: l) EmptyString) with (List.last (b :: l) EmptyString).
  exact IH.
Qed.

End LastFacts.

(** X16.  [check_wheel_group] never raises and adds exactly one issue.
    The first of [wheel] and [sudo] for which [getent group] succeeds
    decides, and the other group is then not looked at: CRITICAL when the
    text after the last colon of the output is blank, INFO with the
    members otherwise; MEDIUM when [getent] fails for both. *)
Theorem wheel_group_first_group_found_decides now run_command issues :
  Audit.check_wheel_group now run_command issues
  = Ret (issues ++ [
      match List.find (fun group => Store.rc (run_command ["getent"; "group"; group]) =? 0)
                      ["wheel"; "sudo"]
      with
      | None =>
          Store.Issue Store.MEDIUM "Security" "Neither wheel nor sudo group found"
            (Some "Cannot verify administrative access") (now (length issues))
      | Some group =>
          let members :=
            Py.strip
              (List.last
                 (Py.split_on ":" (Store.stdout (run_command ["getent"; "group"; group])))
                 EmptyString) in
          if String.eqb members EmptyString then
            Store.Issue Store.CRITICAL "Security" ("Group '" +:+ group +:+ "' has no members")
              (Some "No users can use sudo - administrative access may be blocked")
              (now (length issues))
          else
            Store.Issue Store.INFO "Security"
              ("Group '" +:+ group +:+ "' members: " +:+ members) None (now (length issues))
      end]).
Proof.
  unfold Audit.check_wheel_group. cbn [Audit.wheel_group_loop List.find].
  destruct (Store.rc (run_command ["getent"; "group"; "wheel"]) =? 0).
  - rewrite last_item_default by apply split_on_nonempty. cbn [bind]. cbv zeta.
    unfold Py.nonempty, Store.add_issue. now destruct (String.eqb _ EmptyString).
  - destruct (Store.rc (run_command ["getent"; "group"; "sudo"]) =? 0).
    + rewrite last_item_default by apply split_on_nonempty. cbn [bind]. cbv zeta.
      unfold Py.nonempty, Store.add_issue. now destruct (String.eqb _ EmptyString).
    + reflexivity.
Qed.

(** X17.  When [/proc/cpuinfo] exists and can be read, [check_cpu_info]
    adds exactly one issue: INFO with the number of lines that start with
    [processor], and with the model taken from the first line containing
    [model name] (the text between its first and second colon) when there
    is one.  When that line has no colon, the [IndexError] does not leave
    the check: it becomes the LOW issue [Cannot read CPU info] with the
    details [list index out of range]. *)
Theorem cpu_info_reports_or_explains now path_exists read_file issues content :
  path_exists "/proc/cpuinfo" = true ->
  read_file "/proc/cpuinfo" = Ret content ->
  let cores :=
    Py.str_of_int (Audit.grep_count (Py.startswith "processor") content) in
  Audit.check_cpu_info now path_exists read_file issues
  = Ret (issues ++ [
      match Checks.grep_output (Py.contains "model name") content with
      | [] =>
          Store.Issue Store.INFO "System Health" ("CPU: " +:+ cores +:+ " cores") None
            (now (length issues))
      | line :: _ =>
          match Py.split_on ":" line with
          | _ :: field :: _ =>
              Store.Issue Store.INFO "System Health"
                ("CPU: " +:+ cores +:+ " cores, " +:+ Py.strip field) None
                (now (length issues))
          | _ =>
              Store.Issue Store.LOW "System Health" "Cannot read CPU info"
                (Some "list index out of range") (now (length issues))
          end
      end]).
Proof.
  cbv zeta. intros He Hr. unfold Audit.check_cpu_info, Audit.cpu_info_body.
  rewrite He, Hr. cbn [bind].
  destruct (Checks.grep_output (Py.contains "model name") content) as [|line lines];
    [reflexivity|].
  cbn [Py.index nth_error bind]. unfold Py.index.
  destruct (Py.split_on ":" line) as [|a [|field l]]; reflexivity.
Qed.

Lemma cpu_info_reports_or_explains_witness :
  Audit.check_cpu_info Sample.clock (fun _ => true)
    (fun _ => Ret ("processor" +:+ Py.nl +:+ "model name" +:+ Py.nl)) []
  = Ret [Store.Issue Store.LOW "System Health" "Cannot read CPU info"
           (Some "list index out of range") "2024-05-01T10:00:00"].
Proof.
  exact (cpu_info_reports_or_explains Sample.clock (fun _ => true)
           (fun _ => Ret ("processor" +:+ Py.nl +:+ "model name" +:+ Py.nl)) [] _
           eq_refl eq_refl).
Defined.

(** ** Email *)

Section MailFacts.

Import Store Report Mail.

Lemma concat_map_cons {A} (f : A -> string) x l :
  concat_map f (x :: l) = f x +:+ concat_map f l.
Proof.
  unfold concat_map. simpl.
  assert (H : forall acc, fold_left (fun report y => report +:+ f y) l acc
                          = acc +:+ fold_left (fun report y => report +:+ f y) l EmptyString).
  { induction l as [|y l IH]; intros acc; simpl.
    - clear. induction acc as [|a acc IH]; [reflexivity|].
      change (String a acc = String a (acc +:+ "")). now rewrite <- IH.
    - rewrite (IH (acc +:+ f y)), (IH (EmptyString +:+ f y)).
      change (EmptyString +:+ f y) with (f y). now rewrite append_assoc. }
  exact (H (f x)).
Qed.

Lemma nonempty_true s : Py.nonempty s = true -> s <> EmptyString.
Proof. unfold Py.nonempty. now destruct (String.eqb_spec s EmptyString). Qed.

Lemma body_summary_counts issues :
  body_summary (severity_counts issues)
  = "  CRITICAL: " +:+ Py.str_of_int (count_by_severity CRITICAL issues) +:+ Py.nl
      +:+ "  HIGH: " +:+ Py.str_of_int (count_by_severity HIGH issues) +:+ Py.nl
      +:+ "  MEDIUM: " +:+ Py.str_of_int (count_by_severity MEDIUM issues) +:+ Py.nl
      +:+ "  LOW: " +:+ Py.str_of_int (count_by_severity LOW issues) +:+ Py.nl
      +:+ "  INFO: " +:+ Py.str_of_int (count_by_severity INFO issues) +:+ Py.nl.
Proof.
  unfold body_summary, SEVERITIES. rewrite !concat_map_cons, !severity_counts_get_or.
  unfold concat_map. cbn [fold_left severity_name].
  rewrite !append_assoc. reflexivity.
Qed.

End MailFacts.

(** X18.  [send_email_report] opens at most one SMTP session, and only
    when email is enabled and the recipient, the sender and the server are
    all non-empty; the session then uses exactly these three values, so
    the fallbacks in the function ([health-check@localhost],
    [admin@localhost], [localhost]) are never used.  The body of the
    message lists the five severities with the direct count of each.  No
    [Exception] leaves the function: a failure of the subject template,
    of reading the report or of the SMTP session is swallowed. *)
Theorem email_is_sent_only_with_all_three_addresses
    str_format read_bytes smtp c hostname date issues report_file opened :
  let outcome :=
    Mail.send_email_report str_format read_bytes smtp c hostname date issues report_file
      opened in
  (fst outcome = opened
   \/ exists request,
        fst outcome = opened ++ [request]
        /\ Mail.EMAIL_ENABLED c = true
        /\ Mail.EMAIL_FROM c <> EmptyString
        /\ Mail.EMAIL_TO c <> EmptyString
        /\ Mail.SMTP_SERVER c <> EmptyString
        /\ Mail.msg_from (Mail.sent request) = Mail.EMAIL_FROM c
        /\ Mail.msg_to (Mail.sent request) = Mail.EMAIL_TO c
        /\ Mail.smtp_host request = Mail.SMTP_SERVER c
        /\ Mail.msg_body (Mail.sent request)
           = "Health check report for " +:+ hostname +:+ " is attached." +:+ Py.nl +:+ Py.nl
               +:+ "Report generated: " +:+ date +:+ Py.nl
               +:+ Py.nl +:+ "Summary:" +:+ Py.nl
               +:+ "  CRITICAL: "
               +:+ Py.str_of_int (Report.count_by_severity Store.CRITICAL issues) +:+ Py.nl
               +:+ "  HIGH: "
               +:+ Py.str_of_int (Report.count_by_severity Store.HIGH issues) +:+ Py.nl
               +:+ "  MEDIUM: "
               +:+ Py.str_of_int (Report.count_by_severity Store.MEDIUM issues) +:+ Py.nl
               +:+ "  LOW: "
               +:+ Py.str_of_int (Report.count_by_severity Store.LOW issues) +:+ Py.nl
               +:+ "  INFO: "
               +:+ Py.str_of_int (Report.count_by_severity Store.INFO issues) +:+ Py.nl)
  /\ match snd outcome with
     | None => True
     | Some e => is_Exception e = false
     end.
Proof.
  cbv zeta. unfold Mail.send_email_report.
  destruct (Mail.EMAIL_ENABLED c) eqn:He; cbn [negb orb]; [|split; [now left|exact I]].
  cbn [forallb].
  destruct (Py.nonempty (Mail.EMAIL_TO c)) eqn:Hto;
    cbn [negb andb]; [|split; [now left|exact I]].
  destruct (Py.nonempty (Mail.EMAIL_FROM c)) eqn:Hfrom;
    cbn [negb andb]; [|split; [now left|exact I]].
  destruct (Py.nonempty (Mail.SMTP_SERVER c)) eqn:Hserver;
    cbn [negb andb]; [|split; [now left|exact I]].
  apply nonempty_true in Hto, Hfrom, Hserver.
  destruct (Mail.prepare _ _ c hostname date issues report_file) as [request|e] eqn:P.
  - assert (Hreq :
      Mail.msg_from (Mail.sent request) = Mail.EMAIL_FROM c
      /\ Mail.msg_to (Mail.sent request) = Mail.EMAIL_TO c
      /\ Mail.smtp_host request = Mail.SMTP_SERVER c
      /\ Mail.msg_body (Mail.sent request)
         = "Health check report for " +:+ hostname +:+ " is attached." +:+ Py.nl +:+ Py.nl
             +:+ "Report generated: " +:+ date +:+ Py.nl
             +:+ Py.nl +:+ "Summary:" +:+ Py.nl
             +:+ Mail.body_summary (Report.severity_counts issues)).
    { unfold Mail.prepare in P.
      destruct (if Py.nonempty (Mail.EMAIL_SUBJECT c) then _ else _); [|discriminate].
      cbn [bind] in P. destruct (read_bytes report_file); [|discriminate].
      cbn [bind] in P. injection P as <-.
      cbn [Mail.sent Mail.msg_from Mail.msg_to Mail.smtp_host Mail.msg_body].
      unfold Py.nonempty.
      destruct (String.eqb_spec (Mail.EMAIL_TO c) EmptyString); [congruence|].
      destruct (String.eqb_spec (Mail.EMAIL_FROM c) EmptyString); [congruence|].
      destruct (String.eqb_spec (Mail.SMTP_SERVER c) EmptyString); [congruence|].
      cbn [negb]. repeat split. now rewrite !append_assoc. }
    destruct Hreq as (H1 & H2 & H3 & H4). rewrite body_summary_counts in H4.
    destruct (smtp request) as [e|]; cbn [fst snd].
    + split; [right; exists request; repeat split; assumption|].
      now destruct (is_Exception e) eqn:E.
    + split; [right; exists request; repeat split; assumption|exact I].
  - cbn [fst snd]. split; [now left|]. now destruct (is_Exception e) eqn:E.
Qed.


(** ** The reports and the validators of the test suite *)

Section ContainsFacts.


Lemma contains_startswith p s : Py.startswith p s = true -> Py.contains p s = true.
Proof. intros H. destruct s; simpl in *; now rewrite H. Qed.

Lemma contains_app_r p s t : Py.contains p t = true -> Py.contains p (s +:+ t) = true.
Proof.
  intros H. induction s as [|c s IH]; [exact H|].
  change (String c s +:+ t) with (String c (s +:+ t)). cbn [Py.contains].
  rewrite IH. apply orb_true_r.
Qed.


Lemma contains_here p t : Py.contains p (p +:+ t) = true.
Proof. apply contains_startswith, startswith_refl_app. Qed.

End ContainsFacts.

(** A piece that occurs in a text made of appended pieces. *)
Ltac find_piece :=
  rewrite ?append_assoc;
  repeat first [ apply contains_here
               | apply contains_startswith; reflexivity
               | apply contains_app_r ].

Section ValidatorFacts.

Import Store Report Tests.

Lemma findall_issues issues :
  findall "issue" (Element "issues" [] None (map xml_issue issues)) = map xml_issue issues.
Proof.
  unfold findall. cbn [children_of].
  induction issues as [|i issues IH]; [reflexivity|]. cbn [map List.filter].
  unfold xml_issue at 1. cbn [tag_of]. cbn. f_equal. exact IH.
Qed.

End ValidatorFacts.

(** X19.  For every host and issue list, the value [export_json]
    serialises passes [validate_json_output] of the test suite (an object
    with the five required fields whose [issues] is a list), and the tree
    [export_xml] serialises passes [validate_xml_output] (root
    [health_check_report] with [metadata], [summary] and [issues]), which
    counts as many [issue] elements as there are issues.  Both validators
    are applied to the value before serialisation, that is, assuming the
    file parses back to it. *)
Theorem exported_json_and_xml_pass_the_validators h timestamp issues :
  Tests.validate_json_output (Report.json_report h timestamp issues) = true
  /\ Tests.validate_xml_output (Report.xml_report h timestamp issues) = Some (length issues).
Proof.
  split; [reflexivity|].
  unfold Tests.validate_xml_output, Report.xml_report.
  cbn [Tests.tag_of Tests.find Tests.findall Tests.children_of List.filter head negb].
  cbn. rewrite <- (length_map Report.xml_issue issues). f_equal. f_equal.
  apply findall_issues.
Qed.

(** X20.  For every host, date and issue list, the text of
    [export_markdown] passes [validate_markdown_output] of the test suite:
    it contains the title, the [## Summary] heading and the bold
    [Hostname:] and [Date:] labels. *)
Theorem exported_markdown_passes_the_validator h date issues :
  Tests.validate_markdown_output (Report.export_markdown h date issues) = true.
Proof.
  unfold Tests.validate_markdown_output, Report.export_markdown, Report.markdown_header.
  cbn [forallb]. rewrite !andb_true_iff. repeat split; find_piece.
Qed.


Section CategoryFacts.

Import Store Report.










End CategoryFacts.



(** ** Which environment variables the settings read *)

Section EnvFacts.

Import Config.

(** [_cfg] looks at one environment variable only: the upper-cased key. *)
Lemma cfg_reads_one_variable st st' section key default ty :
  _has_config st = _has_config st' ->
  _config st = _config st' ->
  environ st !! Py.upper key = environ st' !! Py.upper key ->
  _cfg st section key default ty = _cfg st' section key default ty.
Proof. intros H1 H2 H3. unfold _cfg. now rewrite H1, H2, H3. Qed.

End EnvFacts.

(** X22.  The email, SMTP, GPG and threshold settings depend on the
    environment only through the variables named by the bare upper-cased
    keys: ENABLED, TO, FROM, SUBJECT, SERVER, PORT, USE_TLS, USERNAME,
    PASSWORD, ENCRYPT, RECIPIENT, DELETE_UNENCRYPTED, FILESYSTEM_WARNING,
    FILESYSTEM_CRITICAL, MEMORY_WARNING, MEMORY_CRITICAL, LOAD_WARNING and
    LOAD_CRITICAL.  Two environments that agree on these give the same
    settings; so variables named after the constants, such as
    EMAIL_ENABLED, SMTP_PASSWORD or FILESYSTEM_WARNING_THRESHOLD, change
    nothing. *)
Theorem settings_read_the_bare_key_from_the_environment st st' :
  Config._has_config st = Config._has_config st' ->
  Config._config st = Config._config st' ->
  (forall name,
     In name ["ENABLED"; "TO"; "FROM"; "SUBJECT"; "SERVER"; "PORT"; "USE_TLS";
              "USERNAME"; "PASSWORD";
              "ENCRYPT"; "RECIPIENT"; "DELETE_UNENCRYPTED";
              "FILESYSTEM_WARNING"; "FILESYSTEM_CRITICAL"; "MEMORY_WARNING";
              "MEMORY_CRITICAL"; "LOAD_WARNING"; "LOAD_CRITICAL"] ->
     Config.environ st !! name = Config.environ st' !! name) ->
  Mail.load_email_config st = Mail.load_email_config st'
  /\ Delivery.load_gpg_config st = Delivery.load_gpg_config st'
  /\ Checks.load_thresholds st = Checks.load_thresholds st'.
Proof.
  intros H1 H2 Henv.
  assert (Hcfg : forall section key default ty,
            In (Py.upper key)
               ["ENABLED"; "TO"; "FROM"; "SUBJECT"; "SERVER"; "PORT"; "USE_TLS";
                "USERNAME"; "PASSWORD";
                "ENCRYPT"; "RECIPIENT"; "DELETE_UNENCRYPTED";
                "FILESYSTEM_WARNING"; "FILESYSTEM_CRITICAL"; "MEMORY_WARNING";
                "MEMORY_CRITICAL"; "LOAD_WARNING"; "LOAD_CRITICAL"] ->
            Config._cfg st section key default ty = Config._cfg st' section key default ty).
  { intros section key default ty Hin. apply cfg_reads_one_variable; auto. }
  unfold Mail.load_email_config, Delivery.load_gpg_config, Checks.load_thresholds.
  repeat split.
  - rewrite !Hcfg by (vm_compute; tauto). reflexivity.
  - rewrite !Hcfg by (vm_compute; tauto). reflexivity.
  - cbv zeta. rewrite !Hcfg by (vm_compute; tauto). reflexivity.
Qed.

Lemma settings_read_the_bare_key_from_the_environment_witness :
  Mail.load_email_config Scenario.documented_names
  = Mail.load_email_config Scenario.no_settings
  /\ Delivery.load_gpg_config Scenario.documented_names
     = Delivery.load_gpg_config Scenario.no_settings
  /\ Checks.load_thresholds Scenario.documented_names
     = Checks.load_thresholds Scenario.no_settings.
Proof.
  apply settings_read_the_bare_key_from_the_environment; [reflexivity|reflexivity|].
  intros name Hin. simpl in Hin.
  repeat (destruct Hin as [<-|Hin]; [vm_compute; reflexivity|]). destruct Hin.
Defined.

(** ** The version check *)

Section VersionCheckFacts.

Import Store Report Runner.

Lemma exit_code_ignores_info issues i :
  severity_of i = INFO -> exit_code (issues ++ [i]) = exit_code issues.
Proof.
  intros Hs. rewrite !exit_code_counts, !count_by_severity_snoc, Hs. cbn [severity_eqb].
  now rewrite !Z.add_0_r.
Qed.

End VersionCheckFacts.

(** X23.  [check_version_update] leaves the issue list as it is or adds
    exactly one INFO issue of category [Version Update], and it adds it
    only when the check is not switched off, a latest release was fetched
    and both versions parse with the current one strictly below the
    latest.  Either way the exit status computed from the list does not
    change. *)
Theorem version_update_adds_at_most_one_info_issue now current repo disabled latest issues :
  let result := Checks.check_version_update now current repo disabled latest issues in
  Runner.exit_code result = Runner.exit_code issues
  /\ (result = issues
      \/ exists i tag url current_version latest_version,
           result = issues ++ [i]
           /\ Store.severity_of i = Store.INFO
           /\ Store.category i = "Version Update"
           /\ disabled = false
           /\ latest = Some (tag, url)
           /\ Version.parse_semantic_version current = Some current_version
           /\ Version.parse_semantic_version (Py.lstrip_char "v" tag) = Some latest_version
           /\ Version.lex_lt current_version latest_version).
Proof.
  cbv zeta. unfold Checks.check_version_update, Checks.check_github_releases.
  destruct disabled; [split; [reflexivity|now left]|].
  destruct latest as [[tag url]|]; [|split; [reflexivity|now left]].
  destruct (String.eqb _ EmptyString); [split; [reflexivity|now left]|].
  destruct (Version.parse_semantic_version current) as [cur|] eqn:Hc;
    [|split; [reflexivity|now left]].
  destruct (Version.parse_semantic_version (Py.lstrip_char "v" tag)) as [new|] eqn:Hn;
    [|split; [reflexivity|now left]].
  destruct (Z.ltb_spec (Version.compare_versions cur new) 0) as [Hlt|_];
    [|split; [reflexivity|now left]].
  unfold Store.add_issue. split; [now apply exit_code_ignores_info|].
  right. exists (Store.Issue Store.INFO "Version Update"
                   ("New version available: " +:+ Py.lstrip_char "v" tag
                      +:+ " (current: " +:+ current +:+ ")")
                   (Some ("A newer version of this script is available." +:+ Py.nl
                            +:+ Py.nl +:+ "Upgrade instructions:" +:+ Py.nl
                            +:+ "  wget "
                            +:+ ("https://github.com/" +:+ repo +:+ "/releases/download/v"
                                   +:+ Py.lstrip_char "v" tag +:+ "/linux_health_check.py")
                            +:+ Py.nl
                            +:+ "  chmod +x linux_health_check.py" +:+ Py.nl +:+ Py.nl
                            +:+ "Changelog: " +:+ url))
                   (now (length issues))), tag, url, cur, new.
  repeat split; try reflexivity; try assumption.
  apply compare_lt_iff.
  destruct (compare_versions_cases cur new) as [[E _]|[[E _]|[E _]]]; rewrite E in *; lia.
Qed.


(** ** Failed units and listening ports *)

Section BulletFacts.

Import Store Checks Audit.

Lemma split_on_all_chars f sep s :
  Py.all_chars f s = true -> Forall (fun x => Py.all_chars f x = true) (Py.split_on sep s).
Proof.
  induction s as [|c r IH]; simpl; [repeat constructor|].
  intros H. apply andb_true_iff in H as [Hc Hr]. specialize (IH Hr).
  destruct (Ascii.eqb c sep).
  - constructor; [reflexivity|exact IH].
  - destruct (Py.split_on sep r) as [|h t]; inversion IH; subst;
      constructor; simpl; rewrite ?Hc; auto.
Qed.

Lemma ascii_has_no_bullet line :
  Py.all_chars Py.is_ascii line = true -> matches_bullet_failed line = false.
Proof.
  induction line as [|c r IH]; [reflexivity|]. cbn [Py.all_chars matches_bullet_failed].
  intros H. apply andb_true_iff in H as [Hc Hr]. rewrite (IH Hr), orb_false_r.
  apply andb_false_iff. left. cbn [Py.startswith]. apply andb_false_iff. left.
  apply Ascii.eqb_neq. intros <-. discriminate.
Qed.

Lemma filter_none {A} (f : A -> bool) l :
  Forall (fun x => f x = false) l -> List.filter f l = [].
Proof. induction 1 as [|x l Hx _ IH]; [reflexivity|]. simpl. now rewrite Hx. Qed.

End BulletFacts.

(** X24.  When [systemctl list-units --failed --no-pager] succeeds and its
    output is plain ASCII, [check_systemd_failed] adds the INFO issue
    [No failed systemd services] whatever the output lists: a line counts
    as a failed unit only when the bullet character precedes the word
    [failed]. *)
Theorem systemd_failures_are_seen_only_behind_the_bullet now run_command issues :
  let units := run_command ["systemctl"; "list-units"; "--failed"; "--no-pager"] in
  Store.rc units = 0 ->
  Py.all_chars Py.is_ascii (Store.stdout units) = true ->
  Audit.check_systemd_failed now run_command issues
  = issues ++ [Store.Issue Store.INFO "System Health" "No failed systemd services" None
                 (now (length issues))].
Proof.
  cbv zeta. intros Hrc Hascii. unfold Audit.check_systemd_failed. rewrite Hrc.
  cbn [Z.eqb]. unfold Checks.grep_output. rewrite filter_none; [reflexivity|].
  eapply Forall_impl; [apply (split_on_all_chars _ Py.LF _ Hascii)|].
  intros line Hl. now apply ascii_has_no_bullet.
Qed.

Lemma systemd_failures_are_seen_only_behind_the_bullet_witness :
  Audit.check_systemd_failed Sample.clock
    (fun _ => Store.Completed 0
                ("* nginx.service loaded failed failed A high performance web server"
                   +:+ Py.nl) "") []
  = [] ++ [Store.Issue Store.INFO "System Health" "No failed systemd services" None
             "2024-05-01T10:00:00"].
Proof.
  exact (systemd_failures_are_seen_only_behind_the_bullet Sample.clock
           (fun _ => Store.Completed 0
                       ("* nginx.service loaded failed failed A high performance web server"
                          +:+ Py.nl) "") [] eq_refl eq_refl).
Defined.

Section PortCountFacts.

Import Store Checks Audit Report.

Lemma listening_row_port services line :
  listening_row services line
  = Ret match listening_port line with
        | Some port =>
            dict_set String.eqb port (dict_get_or String.eqb port 0 services + 1) services
        | None => services
        end.
Proof.
  unfold listening_row, listening_port. cbv zeta.
  destruct (5 <=? _)%nat; [|reflexivity].
  destruct (Py.contains ":" _); [|reflexivity].
  rewrite last_item_default by apply split_on_nonempty. reflexivity.
Qed.

Lemma dict_set_keys {V} k (v : V) d :
  map fst (dict_set String.eqb k v d)
  = if bool_decide (k ∈ map fst d) then map fst d else map fst d ++ [k].
Proof.
  induction d as [|[k' v'] d IH]; [reflexivity|]. cbn [dict_set map fst].
  destruct (String.eqb_spec k k') as [->|Hne].
  - cbn [map fst]. rewrite bool_decide_eq_true_2 by constructor. reflexivity.
  - cbn [map fst]. rewrite IH.
    destruct (bool_decide (k ∈ map fst d)) eqn:E.
    + apply bool_decide_eq_true_1 in E.
      rewrite bool_decide_eq_true_2 by now constructor. reflexivity.
    + apply bool_decide_eq_false_1 in E.
      rewrite bool_decide_eq_false_2; [reflexivity|].
      intros H. apply elem_of_cons in H as [?|?]; congruence.
Qed.

(** The dictionary of the loop holds each port once. *)
Lemma omap_cons_port (f : string -> option string) line lines :
  omap f (line :: lines)
  = match f line with Some port => port :: omap f lines | None => omap f lines end.
Proof. reflexivity. Qed.

Lemma listening_rows_keys lines services :
  NoDup (map fst services) ->
  exists services',
    for_each listening_row lines services = Ret services'
    /\ NoDup (map fst services')
    /\ forall port,
         port ∈ map fst services'
         <-> port ∈ map fst services \/ port ∈ omap listening_port lines.
Proof.
  revert services. induction lines as [|line lines IH]; intros services Hnd.
  - exists services. repeat split; [exact Hnd|..].
    + intros H. now left.
    + intros [H|H]; [exact H|]. now apply elem_of_nil in H.
  - cbn [for_each]. rewrite listening_row_port. cbn [bind].
    rewrite omap_cons_port.
    destruct (listening_port line) as [port|] eqn:P.
    + destruct (IH (dict_set String.eqb port
                      (dict_get_or String.eqb port 0 services + 1) services))
        as (services' & -> & Hnd' & Hkeys).
      { rewrite dict_set_keys. destruct (bool_decide _) eqn:E; [exact Hnd|].
        apply bool_decide_eq_false_1 in E. apply NoDup_app. repeat split.
        - exact Hnd.
        - intros x Hx Hx'. apply list_elem_of_singleton in Hx'. now subst.
        - apply NoDup_singleton. }
      exists services'. repeat split; [exact Hnd'|..].
      * intros H. apply Hkeys in H as [H|H].
        -- rewrite dict_set_keys in H.
           destruct (bool_decide _); [now left|].
           apply elem_of_app in H as [H|H]; [now left|].
           apply list_elem_of_singleton in H as ->. right. constructor.
        -- right. now constructor.
      * intros H. apply Hkeys. rewrite dict_set_keys.
        destruct (bool_decide (port ∈ map fst services)) eqn:E.
        -- apply bool_decide_eq_true_1 in E.
           destruct H as [H|H]; [now left|].
           apply elem_of_cons in H as [->|H]; [now left|now right].
        -- destruct H as [H|H]; [left; apply elem_of_app; now left|].
           apply elem_of_cons in H as [->|H]; [|now right].
           left. apply elem_of_app. right. constructor.
    + destruct (IH services Hnd) as (services' & -> & Hnd' & Hkeys).
      exists services'. repeat split; [exact Hnd'|..]; apply Hkeys.
Qed.

End PortCountFacts.

(** X25.  When the listing of sockets succeeds ([ss -tulpn], or
    [netstat -tulpn] when [ss] fails), [check_listening_services] adds one
    INFO issue whose number is the number of distinct ports: the texts
    after the last colon of the fifth column of the lines containing
    [LISTEN], each counted once. *)
Theorem listening_services_counts_distinct_ports now run_command issues :
  let ss := run_command ["ss"; "-tulpn"] in
  let listing := if Store.rc ss =? 0 then ss else run_command ["netstat"; "-tulpn"] in
  let ports :=
    omap Audit.listening_port
      (Checks.grep_output (Py.contains "LISTEN") (Store.stdout listing)) in
  Store.rc listing = 0 ->
  Audit.check_listening_services now run_command issues
  = Ret (issues ++ [Store.Issue Store.INFO "Networking"
                      ("Listening on "
                         +:+ Py.str_of_int (Z.of_nat (length (remove_dups ports)))
                         +:+ " unique port(s)")
                      None (now (length issues))]).
Proof.
  cbv zeta. intros Hrc. unfold Audit.check_listening_services.
  assert (Hl : (if negb (Store.rc (run_command ["ss"; "-tulpn"]) =? 0)
                then run_command ["netstat"; "-tulpn"] else run_command ["ss"; "-tulpn"])
               = (if Store.rc (run_command ["ss"; "-tulpn"]) =? 0
                  then run_command ["ss"; "-tulpn"] else run_command ["netstat"; "-tulpn"]))
    by now destruct (Store.rc (run_command ["ss"; "-tulpn"]) =? 0).
  cbv zeta. rewrite Hl, Hrc. cbn [Z.eqb].
  match goal with
  | |- context [Audit.for_each _ ?l ?d] =>
      destruct (listening_rows_keys l d
                  (NoDup_nil_2 : NoDup (map fst (@nil (string * Z)))))
        as (services & -> & Hnd & Hkeys)
  end.
  cbn [bind]. unfold Store.add_issue.
  enough (Hlen : length services = length (remove_dups (omap Audit.listening_port
            (Checks.grep_output (Py.contains "LISTEN")
               (Store.stdout
                  (if Store.rc (run_command ["ss"; "-tulpn"]) =? 0
                   then run_command ["ss"; "-tulpn"]
                   else run_command ["netstat"; "-tulpn"]))))))
    by now rewrite Hlen.
  rewrite <- (length_map fst services). apply Permutation_length.
  apply NoDup_Permutation; [exact Hnd|apply NoDup_remove_dups|].
  intros port. rewrite Hkeys, elem_of_remove_dups. cbn [map].
  split; [intros [H|H]; [now apply elem_of_nil in H|exact H]|now right].
Qed.

Lemma listening_services_counts_distinct_ports_witness :
  Audit.check_listening_services Sample.clock
    (fun _ => Store.Completed 0
                ("tcp LISTEN 0 128 0.0.0.0:22 0.0.0.0:*" +:+ Py.nl
                   +:+ "tcp LISTEN 0 128 [::]:22 [::]:*" +:+ Py.nl
                   +:+ "tcp LISTEN 0 128 127.0.0.1:631 0.0.0.0:*" +:+ Py.nl) "") []
  = Ret ([] ++ [Store.Issue Store.INFO "Networking" "Listening on 2 unique port(s)" None
                  "2024-05-01T10:00:00"]).
Proof.
  exact (listening_services_counts_distinct_ports Sample.clock
           (fun _ => Store.Completed 0
                       ("tcp LISTEN 0 128 0.0.0.0:22 0.0.0.0:*" +:+ Py.nl
                          +:+ "tcp LISTEN 0 128 [::]:22 [::]:*" +:+ Py.nl
                          +:+ "tcp LISTEN 0 128 127.0.0.1:631 0.0.0.0:*" +:+ Py.nl) "") []
           eq_refl).
Defined.

